(** * Model preference resolution and switch-intent detection

    A shallow embedding of the model-switching core of the Matrix plugin:
    the [ModelManager] class (catalog, in-memory preference maps, SQLite
    persistence, [switchModel], [getCurrentModel], [detectSwitchIntent]),
    the message handler's own detector [detectModelSwitchIntent], and the
    [PreferenceStore] class ([saveUserPreference]).

    Conventions of the embedding:
    - a JavaScript string is a Rocq [string], the UTF-8 bytes of the text;
      substring tests on well-formed UTF-8 agree with the tests on UTF-16
      code units, because UTF-8 is self-synchronising;
    - [undefined]/[null] are [None]; JavaScript truthiness of a string is
      being defined and non-empty;
    - a [Map] used through [has]/[get]/[set] is a [gmap]; a plain object
      iterated with [Object.entries] is an ordered association list;
    - SQLite tables with a [UNIQUE] key column are [gmap]s from the key to
      the remaining columns; the clock is an explicit argument. *)

From stdpp Require Import gmap strings list fin_maps.
From Stdlib Require Import Ascii String ZArith Lia.

Open Scope string_scope.

(** ** JavaScript strings *)

Module JsString.

(** [String.prototype.toLowerCase] on the ASCII range. Bytes at or above
    128 (the encoding of CJK text, which has no case) are left alone. On
    text with other cased letters ([Ä], the Kelvin sign, a final sigma)
    JavaScript lower-cases more than this function does; [MoreSpec.plain]
    below is the text on which the two agree. *)
Definition lower_ascii (c : ascii) : ascii :=
  let n := nat_of_ascii c in
  if (65 <=? n)%nat && (n <=? 90)%nat then ascii_of_nat (n + 32) else c.

Fixpoint toLowerCase (s : string) : string :=
  match s with
  | EmptyString => EmptyString
  | String c s' => String (lower_ascii c) (toLowerCase s')
  end.

(** [s.includes(kw)]: [kw] occurs in [s] as a contiguous substring. *)
Fixpoint includes (s kw : string) : bool :=
  String.prefix kw s
  || match s with
     | EmptyString => false
     | String _ s' => includes s' kw
     end.

(** [s.split(sep)] for a one-character separator; never returns [[]]. *)
Fixpoint split (sep : ascii) (s : string) : list string :=
  match s with
  | EmptyString => [EmptyString]
  | String c s' =>
      if Ascii.eqb c sep then EmptyString :: split sep s'
      else match split sep s' with
           | h :: t => String c h :: t
           | [] => [String c EmptyString]
           end
  end.

(** Truthiness of an optional string: defined and non-empty. *)
Definition truthy (o : option string) : bool :=
  match o with
  | Some s => negb (String.eqb s "")
  | None => false
  end.

(** [Array.prototype.includes] on an array of strings. *)
Definition array_includes (l : list string) (x : string) : bool :=
  existsb (String.eqb x) l.

(** [[...new Set(l)]]: duplicates dropped, first occurrences kept in order. *)
Fixpoint uniq_from (seen l : list string) : list string :=
  match l with
  | [] => []
  | x :: l' =>
      if array_includes seen x then uniq_from seen l'
      else x :: uniq_from (x :: seen) l'
  end.

Definition uniq (l : list string) : list string := uniq_from [] l.

Fixpoint forall_chars (p : ascii -> bool) (s : string) : bool :=
  match s with
  | EmptyString => true
  | String c s' => p c && forall_chars p s'
  end.

(** [parts.join(sep)] *)
Fixpoint join (sep : string) (parts : list string) : string :=
  match parts with
  | [] => EmptyString
  | [part] => part
  | part :: rest => part +:+ sep +:+ join sep rest
  end.

(** [s.replace(/[...]/g, to)] for a class of single characters: every
    character of the class becomes [to]. *)
Fixpoint replace_chars (p : ascii -> bool) (to : ascii) (s : string) : string :=
  match s with
  | EmptyString => EmptyString
  | String c s' => String (if p c then to else c) (replace_chars p to s')
  end.

End JsString.

(** ** Regular expressions

    The three patterns of the source are built from character classes,
    concatenation and [+]. Matching is by Brzozowski derivatives. *)

Module Regex.

Inductive re : Type :=
| Void
| Eps
| Cls (p : ascii -> bool)
| Cat (r1 r2 : re)
| Alt (r1 r2 : re)
| Star (r : re).

Definition Plus (r : re) : re := Cat r (Star r).
Definition Chr (c : ascii) : re := Cls (Ascii.eqb c).

Fixpoint nullable (r : re) : bool :=
  match r with
  | Void => false
  | Eps => true
  | Cls _ => false
  | Cat r1 r2 => nullable r1 && nullable r2
  | Alt r1 r2 => nullable r1 || nullable r2
  | Star _ => true
  end.

Fixpoint deriv (c : ascii) (r : re) : re :=
  match r with
  | Void => Void
  | Eps => Void
  | Cls p => if p c then Eps else Void
  | Cat r1 r2 =>
      if nullable r1 then Alt (Cat (deriv c r1) r2) (deriv c r2)
      else Cat (deriv c r1) r2
  | Alt r1 r2 => Alt (deriv c r1) (deriv c r2)
  | Star r1 => Cat (deriv c r1) (Star r1)
  end.

(** [/^r$/.test(s)]: the whole of [s] matches [r]. *)
Fixpoint matches (r : re) (s : string) : bool :=
  match s with
  | EmptyString => nullable r
  | String c s' => matches (deriv c r) s'
  end.

(** The longest prefix of [s] that matches [r], if any; [acc] is the
    prefix consumed so far. *)
Fixpoint longest_from (r : re) (acc : string) (s : string) : option string :=
  let here := if nullable r then Some acc else None in
  match s with
  | EmptyString => here
  | String c s' =>
      match longest_from (deriv c r) (acc +:+ String c EmptyString) s' with
      | Some m => Some m
      | None => here
      end
  end.

(** [s.match(/(r)/)[1]] for a pattern whose greedy match at a position is
    its longest one there: the leftmost position with a match, and the
    longest match at that position. *)
Fixpoint search (r : re) (s : string) : option string :=
  match longest_from r EmptyString s with
  | Some m => Some m
  | None =>
      match s with
      | EmptyString => None
      | String _ s' => search r s'
      end
  end.

(** The language of a pattern, as a relation. *)
Inductive lang : re -> string -> Prop :=
| lang_eps : lang Eps EmptyString
| lang_cls p c : p c = true -> lang (Cls p) (String c EmptyString)
| lang_cat r1 r2 s1 s2 : lang r1 s1 -> lang r2 s2 -> lang (Cat r1 r2) (s1 +:+ s2)
| lang_alt_l r1 r2 s : lang r1 s -> lang (Alt r1 r2) s
| lang_alt_r r1 r2 s : lang r2 s -> lang (Alt r1 r2) s
| lang_star_nil r : lang (Star r) EmptyString
| lang_star_cons r s1 s2 : lang r s1 -> lang (Star r) s2 -> lang (Star r) (s1 +:+ s2).

Definition digit (c : ascii) : bool :=
  let n := nat_of_ascii c in (48 <=? n)%nat && (n <=? 57)%nat.
Definition upper (c : ascii) : bool :=
  let n := nat_of_ascii c in (65 <=? n)%nat && (n <=? 90)%nat.
Definition lower (c : ascii) : bool :=
  let n := nat_of_ascii c in (97 <=? n)%nat && (n <=? 122)%nat.

End Regex.

(** ** Plain objects iterated with [Object.entries]

    [modelKeywords] is an object keyed by model id. Own string keys are
    listed by [Object.entries] with the canonical array indices first, in
    ascending numeric order, and then the other keys in insertion order.
    Assigning the key [__proto__] creates no own property. *)

Module JsObject.
Import JsString.

Definition obj (V : Type) : Type := list (string * V).

Fixpoint get {V} (o : obj V) (k : string) : option V :=
  match o with
  | [] => None
  | (k', v) :: o' => if String.eqb k' k then Some v else get o' k
  end.

Fixpoint replace {V} (o : obj V) (k : string) (v : V) : obj V :=
  match o with
  | [] => []
  | (k', v') :: o' =>
      if String.eqb k' k then (k', v) :: o' else (k', v') :: replace o' k v
  end.

(** [o[k] = v] *)
Definition set {V} (o : obj V) (k : string) (v : V) : obj V :=
  if String.eqb k "__proto__" then o
  else match get o k with
       | Some _ => replace o k v
       | None => (o ++ [(k, v)])%list
       end.

Fixpoint decimal (acc : N) (s : string) : N :=
  match s with
  | EmptyString => acc
  | String c s' => decimal (10 * acc + N.of_nat (nat_of_ascii c - 48)) s'
  end.

(** A canonical array index: the decimal numeral, without leading zero,
    of an integer below [2^32 - 1]. *)
Definition array_index (k : string) : option N :=
  match k with
  | EmptyString => None
  | String c rest =>
      if forall_chars Regex.digit k
         && (negb (Ascii.eqb c "0") || String.eqb rest "")
         && (String.length k <=? 10)%nat
         && (decimal 0 k <? 4294967295)%N
      then Some (decimal 0 k) else None
  end.

Fixpoint insert_index {V} (n : N) (e : string * V) (l : list (N * (string * V)))
  : list (N * (string * V)) :=
  match l with
  | [] => [(n, e)]
  | (n', e') :: l' =>
      if (n <? n')%N then (n, e) :: l else (n', e') :: insert_index n e l'
  end.

Fixpoint index_entries {V} (o : obj V) : list (N * (string * V)) :=
  match o with
  | [] => []
  | (k, v) :: o' =>
      match array_index k with
      | Some n => insert_index n (k, v) (index_entries o')
      | None => index_entries o'
      end
  end.

Fixpoint named_entries {V} (o : obj V) : list (string * V) :=
  match o with
  | [] => []
  | (k, v) :: o' =>
      match array_index k with
      | Some _ => named_entries o'
      | None => (k, v) :: named_entries o'
      end
  end.

(** [Object.entries(o)] *)
Definition entries {V} (o : obj V) : list (string * V) :=
  (map snd (index_entries o) ++ named_entries o)%list.

End JsObject.

(** ** The model catalog *)

Record Model : Type := mkModel {
  model_id : string;
  model_name : string;
  model_provider : string;
  contextWindow : Z;
  maxTokens : Z;
  reasoning : bool;
  input : list string;
  output : list string
}.

(** [getDefaultModels] *)
Definition getDefaultModels : list Model :=
  [ mkModel "cc-oaicomp/Kimi-K2.5" "Kimi K2.5" "cc-oaicomp"
      256000 32000 false ["text"; "image"] ["text"];
    mkModel "cc-oaicomp/DeepSeek-V3.2" "DeepSeek V3.2" "cc-oaicomp"
      128000 8000 false ["text"] ["text"];
    mkModel "cc-openai/gpt-5.3-codex" "GPT 5.3 Codex" "cc-openai"
      272000 128000 false ["text"; "image"] ["text"];
    mkModel "cc-claude/claude-3.5-sonnet" "Claude 3.5 Sonnet" "cc-claude"
      200000 128000 false ["text"; "image"] ["text"];
    mkModel "cc-gemini/gemini-3-flash-preview" "Gemini 3 Flash Preview" "cc-gemini"
      1048576 65536 false ["text"; "image"; "pdf"] ["text"] ].

(** [getModelAliases], in the key order of the object literal. *)
Definition getModelAliases : JsObject.obj string :=
  [ ("fast", "cc-oaicomp/DeepSeek-V3.2");
    ("smart", "cc-openai/gpt-5.3-codex");
    ("code", "cc-openai/gpt-5.3-codex");
    ("chat", "cc-oaicomp/Kimi-K2.5");
    ("default", "cc-oaicomp/Kimi-K2.5") ].

(** ** The SQLite tables

    Each preference table has a [UNIQUE] key column and is a map from that
    key to the other columns. The surrogate [id] column, which no statement
    reads back, is left out. Timestamps are clock readings. *)

Record UserPrefRow : Type := mkUserPrefRow {
  up_model_id : string;
  up_last_used : Z;
  up_usage_count : Z;
  up_created_at : Z;
  up_updated_at : Z
}.

Record RoomPrefRow : Type := mkRoomPrefRow {
  rp_model_id : string;
  rp_set_by_user : option string;
  rp_set_at : Z
}.

Record UsageRow : Type := mkUsageRow {
  us_model_id : string;
  us_user_id : option string;
  us_room_id : option string;
  us_tokens_used : Z;
  us_response_time_ms : Z;
  us_timestamp : Z
}.

Record SwitchRow : Type := mkSwitchRow {
  sw_user_id : option string;
  sw_room_id : option string;
  sw_previous_model : option string;
  sw_new_model : string;
  sw_scope : string;
  sw_timestamp : Z
}.

Record Database : Type := mkDatabase {
  user_model_preferences : gmap string UserPrefRow;
  room_model_preferences : gmap string RoomPrefRow;
  model_usage_stats : list UsageRow;
  model_switch_history : list SwitchRow
}.

Definition empty_database : Database :=
  mkDatabase ∅ ∅ [] [].

(** ** Errors and the state-and-exception monad of the manager's methods

    A method mutates the manager and either returns or throws; the
    mutations made before a throw remain. *)

Inductive Error : Type :=
| InvalidFormat (modelId : string)
| ModelUnavailable (modelId : string)
| StorageError.

Inductive outcome (A : Type) : Type :=
| Ok (a : A)
| Throw (e : Error).
Arguments Ok {A} a.
Arguments Throw {A} e.

Module StateExn.
Section Monad.
Context {S : Type}.

Definition M (A : Type) : Type := S -> S * outcome A.

Definition ret {A} (a : A) : M A := fun s => (s, Ok a).
Definition throw {A} (e : Error) : M A := fun s => (s, Throw e).
Definition bind {A B} (c : M A) (k : A -> M B) : M B :=
  fun s =>
    match c s with
    | (s', Ok a) => k a s'
    | (s', Throw e) => (s', Throw e)
    end.
Definition gets {A} (f : S -> A) : M A := fun s => (s, Ok (f s)).
Definition modify (f : S -> S) : M unit := fun s => (f s, Ok tt).

(** [try { c } catch (error) { console.error(...) }] *)
Definition swallow (c : M unit) : M unit :=
  fun s =>
    match c s with
    | (s', Ok _) => (s', Ok tt)
    | (s', Throw _) => (s', Ok tt)
    end.
End Monad.
End StateExn.

Declare Scope js_scope.
Delimit Scope js_scope with js.
Notation "x <- c ;; k" := (StateExn.bind c (fun x => k))
  (at level 100, c at next level, right associativity) : js_scope.
Notation "c ;;; k" := (StateExn.bind c (fun _ => k))
  (at level 100, right associativity) : js_scope.

(** ** The model manager *)

(** The [scope] option: callers pass a string, and [scope.includes] is then
    a substring test; an array of scope names is tested by membership. *)
Inductive ScopeArg : Type :=
| ScopeStr (s : string)
| ScopeArr (l : list string).

Definition scope_includes (scope : ScopeArg) (x : string) : bool :=
  match scope with
  | ScopeStr s => JsString.includes s x
  | ScopeArr l => JsString.array_includes l x
  end.

Record Context : Type := mkContext {
  ctx_userId : option string;
  ctx_roomId : option string
}.

Record Options : Type := mkOptions {
  opt_userId : option string;
  opt_roomId : option string;
  opt_scope : option ScopeArg
}.

Record SwitchResult : Type := mkSwitchResult {
  success : bool;
  previous : option string;
  current : string
}.

(** Which statements fail when run, and the reading of the clock. *)
Record Env : Type := mkEnv {
  now : Z;
  fail_user_write : bool;
  fail_room_write : bool;
  fail_usage_write : bool
}.

Record SwitchIntent : Type := mkSwitchIntent {
  intent : string;
  si_modelId : string;
  si_scope : string;
  si_confidence : string;
  si_matchedKeywords : list string
}.

Module ModelManager.
Import JsString StateExn.
Local Open Scope js_scope.

Record t : Type := mk {
  currentModel : string;
  userPreferences : gmap string string;
  roomPreferences : gmap string string;
  availableModels : list Model;
  db : option Database
}.

Definition set_currentModel (m : string) (st : t) : t :=
  mk m (userPreferences st) (roomPreferences st) (availableModels st) (db st).
Definition set_userPreferences (p : gmap string string) (st : t) : t :=
  mk (currentModel st) p (roomPreferences st) (availableModels st) (db st).
Definition set_roomPreferences (p : gmap string string) (st : t) : t :=
  mk (currentModel st) (userPreferences st) p (availableModels st) (db st).
Definition set_db (d : Database) (st : t) : t :=
  mk (currentModel st) (userPreferences st) (roomPreferences st)
     (availableModels st) (Some d).

(** [loadPreferences]: every stored row is [set] into the in-memory maps. *)
Definition loadPreferences (st : t) : t :=
  match db st with
  | None => st
  | Some d =>
      mk (currentModel st)
         ((up_model_id <$> user_model_preferences d) ∪ userPreferences st)
         ((rp_model_id <$> room_model_preferences d) ∪ roomPreferences st)
         (availableModels st) (db st)
  end.

(** The constructor followed by [initialize], for the catalog that
    [loadAvailableModels] obtained and the database that [initDatabase]
    opened ([None] when opening failed). *)
Definition initialize (models : list Model) (db0 : option Database) : t :=
  loadPreferences (mk "cc-oaicomp/Kimi-K2.5" ∅ ∅ models db0).

Definition provider_char (c : ascii) : bool :=
  Regex.lower c || Regex.upper c || Regex.digit c
  || Ascii.eqb c "_" || Ascii.eqb c "-".
Definition name_char (c : ascii) : bool :=
  Regex.lower c || Regex.upper c || Regex.digit c
  || Ascii.eqb c "." || Ascii.eqb c "_" || Ascii.eqb c "-".

(** [/^[a-zA-Z0-9_-]+\/[a-zA-Z0-9._-]+$/] *)
Definition model_id_re : Regex.re :=
  Regex.Cat (Regex.Plus (Regex.Cls provider_char))
    (Regex.Cat (Regex.Chr "/") (Regex.Plus (Regex.Cls name_char))).

Definition validateModelIdFormat (modelId : string) : bool :=
  Regex.matches model_id_re modelId.

Definition isModelAvailable (st : t) (modelId : string) : bool :=
  existsb (fun model => String.eqb (model_id model) modelId) (availableModels st).

(** [key && prefs.has(key)], and then [prefs.get(key)] *)
Definition lookup_given (key : option string) (prefs : gmap string string)
  : option string :=
  if truthy key then key ≫= (prefs !!.) else None.

Definition getCurrentModel (st : t) (context : Context) : string :=
  match lookup_given (ctx_userId context) (userPreferences st) with
  | Some modelId => modelId
  | None =>
      match lookup_given (ctx_roomId context) (roomPreferences st) with
      | Some modelId => modelId
      | None => currentModel st
      end
  end.

(** The value of an optional string when it is truthy, as in
    [scope.includes('user') && userId] and [userId || null]. *)
Definition given (o : option string) : option string :=
  if truthy o then o else None.

(** [INSERT OR REPLACE INTO user_model_preferences (user_id, model_id,
    updated_at) VALUES (?, ?, datetime('now'))]: a row with the same
    [user_id] is deleted, and the new row takes the column defaults for
    [last_used], [usage_count] and [created_at]. *)
Definition replace_user_row (env : Env) (userId modelId : string) (d : Database)
  : Database :=
  mkDatabase
    (<[userId := mkUserPrefRow modelId (now env) 0 (now env) (now env)]>
       (user_model_preferences d))
    (room_model_preferences d) (model_usage_stats d) (model_switch_history d).

(** [INSERT OR REPLACE INTO room_model_preferences (room_id, model_id,
    set_by_user, set_at) VALUES (?, ?, ?, datetime('now'))] *)
Definition replace_room_row (env : Env) (roomId modelId setBy : string)
    (d : Database) : Database :=
  mkDatabase (user_model_preferences d)
    (<[roomId := mkRoomPrefRow modelId (Some setBy) (now env)]>
       (room_model_preferences d))
    (model_usage_stats d) (model_switch_history d).

(** [INSERT INTO model_usage_stats (...) VALUES (?, ?, ?, ?, ?,
    datetime('now'))] *)
Definition insert_usage_row (env : Env) (row : UsageRow) (d : Database)
  : Database :=
  mkDatabase (user_model_preferences d) (room_model_preferences d)
    (model_usage_stats d ++ [row])%list (model_switch_history d).

(** [if (this.db) { stmt.run(...) }]: nothing without a database; with
    one, the statement either throws or updates the tables. *)
Definition run_if_db (fails : bool) (f : Database -> Database) : M unit :=
  fun st =>
    match db st with
    | None => (st, Ok tt)
    | Some d => if fails then (st, Throw StorageError) else (set_db (f d) st, Ok tt)
    end.

(** [recordModelUsage]: the whole body is inside [try]/[catch]. *)
Definition recordModelUsage (env : Env) (modelId : string)
    (userId roomId : option string) : M unit :=
  swallow
    (run_if_db (fail_usage_write env)
       (insert_usage_row env
          (mkUsageRow modelId (given userId) (given roomId) 0 0 (now env)))).

Definition switchModel (env : Env) (modelId : string) (options : Options)
  : M SwitchResult :=
  let userId := opt_userId options in
  let roomId := opt_roomId options in
  let scope := default (ScopeStr "session") (opt_scope options) in
  if negb (validateModelIdFormat modelId) then throw (InvalidFormat modelId)
  else
    available <- gets (fun st => isModelAvailable st modelId) ;;
    if negb available then throw (ModelUnavailable modelId)
    else
      previous <-
        (if scope_includes scope "session" || scope_includes scope "all"
         then
           prev <- gets currentModel ;;
           modify (set_currentModel modelId) ;;;
           ret (Some prev)
         else ret None) ;;
      match (if scope_includes scope "user" then given userId else None) with
      | Some u =>
          modify (fun st => set_userPreferences (<[u := modelId]> (userPreferences st)) st) ;;;
          run_if_db (fail_user_write env) (replace_user_row env u modelId)
      | None => ret tt
      end ;;;
      match (if scope_includes scope "room" then given roomId else None) with
      | Some r =>
          modify (fun st => set_roomPreferences (<[r := modelId]> (roomPreferences st)) st) ;;;
          run_if_db (fail_room_write env)
            (replace_room_row env r modelId (default "system" (given userId)))
      | None => ret tt
      end ;;;
      recordModelUsage env modelId userId roomId ;;;
      ret (mkSwitchResult true previous modelId).

(** *** [detectSwitchIntent] *)

Definition switchKeywords : list string :=
  [ "切换"; "换成"; "使用"; "改用"; "改为"; "换到"; "切到"; "用"; "切换到";
    "switch"; "use"; "change"; "set"; "select"; "choose";
    "保存"; "偏好"; "设置"; "设为"; "指定"; "选取" ].

Definition scopeKeywords : JsObject.obj (list string) :=
  [ ("session", ["会话"; "临时"; "本次"; "这次"; "当前"; "session"; "temporary"]);
    ("user", ["用户"; "个人"; "我的"; "自己"; "为我"; "user"; "personal"; "my"; "me"]);
    ("room", ["房间"; "群聊"; "这里"; "本房间"; "room"; "chat"; "group"]);
    ("global", ["全局"; "全部"; "所有"; "系统"; "global"; "all"; "system"]) ].

(** [id.split('/')[1]?.toLowerCase()] *)
Definition namePart (modelId : string) : option string :=
  toLowerCase <$> (split "/" modelId !! 1%nat).

Definition brandKeywords (displayName : string) : list string :=
  ((if includes displayName "deepseek" then ["deepseek"; "深度求索"] else [])
   ++ (if includes displayName "kimi" then ["kimi"; "月之暗面"] else [])
   ++ (if includes displayName "gpt" then ["gpt"; "openai"; "chatgpt"] else [])
   ++ (if includes displayName "claude" then ["claude"; "anthropic"] else [])
   ++ (if includes displayName "gemini" then ["gemini"; "谷歌"] else []))%list.

(** [\d+\.\d+] *)
Definition version_re : Regex.re :=
  Regex.Cat (Regex.Plus (Regex.Cls Regex.digit))
    (Regex.Cat (Regex.Chr ".") (Regex.Plus (Regex.Cls Regex.digit))).

(** The keyword list built for one model by the [forEach] body. *)
Definition keywordsOf (model : Model) : list string :=
  let modelName := default "" (namePart (model_id model)) in
  let displayName := toLowerCase (model_name model) in
  uniq
    ((if String.eqb modelName "" then [] else [modelName])
     ++ [displayName]
     ++ brandKeywords displayName
     ++ match Regex.search version_re displayName with
        | Some v => [v]
        | None => []
        end)%list.

Definition addAlias (modelKeywords : JsObject.obj (list string))
    (entry : string * string) : JsObject.obj (list string) :=
  let (alias, modelId) := entry in
  match JsObject.get modelKeywords modelId with
  | None => modelKeywords
  | Some keywords =>
      JsObject.replace modelKeywords modelId (keywords ++ [toLowerCase alias])%list
  end.

Definition buildModelKeywords (models : list Model) : JsObject.obj (list string) :=
  let modelKeywords :=
    fold_left (fun o model => JsObject.set o (model_id model) (keywordsOf model))
      models [] in
  fold_left addAlias (JsObject.entries getModelAliases) modelKeywords.

Definition brandNames : list string :=
  ["deepseek"; "kimi"; "gpt"; "openai"; "claude"; "gemini";
   "深度求索"; "月之暗面"; "谷歌"].

(** The points one matched keyword adds to the score of [modelId]. *)
Definition keywordPoints (modelId keyword : string) : Z :=
  if Regex.matches version_re keyword then 10
  else if includes keyword "/" then 8
  else if bool_decide (Some keyword = namePart modelId) then 6
  else if array_includes brandNames keyword then 4
  else 2.

(** The inner loop: the score and the matched keywords of one model. *)
Fixpoint scoreKeywords (lowerMessage modelId : string) (keywords : list string)
    (acc : Z * list string) : Z * list string :=
  match keywords with
  | [] => acc
  | keyword :: rest =>
      scoreKeywords lowerMessage modelId rest
        (if includes lowerMessage keyword
         then (fst acc + keywordPoints modelId keyword, snd acc ++ [keyword])%Z%list
         else acc)
  end.

Definition modelScore (lowerMessage modelId : string) (keywords : list string) : Z :=
  fst (scoreKeywords lowerMessage modelId keywords (0%Z, [])).

Record Best : Type := mkBest {
  matchedModelId : option string;
  matchedModelKeywords : list string;
  bestScore : Z
}.

(** The outer loop over [Object.entries(modelKeywords)]. *)
Fixpoint scoreModels (lowerMessage : string)
    (entries : list (string * list string)) (best : Best) : Best :=
  match entries with
  | [] => best
  | (modelId, keywords) :: rest =>
      let (score, matched) := scoreKeywords lowerMessage modelId keywords (0%Z, []) in
      scoreModels lowerMessage rest
        (if (0 <? score)%Z && (bestScore best <? score)%Z
         then mkBest (Some modelId) matched score
         else best)
  end.

(** The scope loop: the first table entry, in order, with a keyword in
    the message sets [detectedScope]; the outer loop stops once the value
    differs from ['session']. *)
Fixpoint detectScope (lowerMessage : string)
    (entries : list (string * list string)) (detectedScope : string) : string :=
  match entries with
  | [] => detectedScope
  | (scope, scopeWords) :: rest =>
      let detectedScope' :=
        if existsb (includes lowerMessage) scopeWords then scope else detectedScope in
      if negb (String.eqb detectedScope' "session") then detectedScope'
      else detectScope lowerMessage rest detectedScope'
  end.

Definition permanentKeywords : list string :=
  ["永久"; "保存"; "偏好"; "persistent"; "preference"].

Definition detectSwitchIntent (st : t) (message : string) : option SwitchIntent :=
  let lowerMessage := toLowerCase message in
  if negb (existsb (includes lowerMessage) switchKeywords) then None
  else
    let modelKeywords := buildModelKeywords (availableModels st) in
    let best :=
      scoreModels lowerMessage (JsObject.entries modelKeywords) (mkBest None [] (-1)) in
    match given (matchedModelId best) with
    | None => None
    | Some modelId =>
        let detectedScope :=
          detectScope lowerMessage (JsObject.entries scopeKeywords) "session" in
        let detectedScope :=
          if existsb (includes lowerMessage) permanentKeywords then "user"
          else detectedScope in
        let confidence :=
          if (10 <=? bestScore best)%Z then "high"
          else if (5 <=? bestScore best)%Z then "medium" else "low" in
        Some (mkSwitchIntent "switch_model" modelId detectedScope confidence
                (matchedModelKeywords best))
    end.

(** *** The catalog accessors *)

(** [getAvailableModels(filter = '')] *)
Definition getAvailableModels (st : t) (filter : option string) : list Model :=
  match given filter with
  | None => availableModels st
  | Some f =>
      List.filter
        (fun model =>
           includes (toLowerCase (model_id model)) (toLowerCase f)
           || includes (toLowerCase (model_name model)) (toLowerCase f)
           || includes (toLowerCase (model_provider model)) (toLowerCase f))
        (availableModels st)
  end.

(** [getModelConfig]: the first model with the id; [None] stands for the
    thrown [Error] "model configuration not found". *)
Definition getModelConfig (st : t) (modelId : string) : option Model :=
  List.find (fun m => String.eqb (model_id m) modelId) (availableModels st).

(** The names an object literal inherits from [Object.prototype]; a
    property read with one of them finds a function or an object, which is
    truthy. *)
Definition objectPrototypeMembers : list string :=
  [ "constructor"; "hasOwnProperty"; "isPrototypeOf"; "propertyIsEnumerable";
    "toLocaleString"; "toString"; "valueOf"; "__proto__";
    "__defineGetter__"; "__defineSetter__"; "__lookupGetter__"; "__lookupSetter__" ].

(** What [resolveModelId] returns: a string, or the inherited member that
    the property read found. *)
Inductive Resolved : Type :=
| ResolvedId (modelId : string)
| InheritedMember (name : string).

(** [resolveModelId]: [aliases[x]] when that is truthy, else [x]. *)
Definition resolveModelId (modelIdOrAlias : string) : Resolved :=
  match JsObject.get getModelAliases modelIdOrAlias with
  | Some target =>
      if truthy (Some target) then ResolvedId target else ResolvedId modelIdOrAlias
  | None =>
      if array_includes objectPrototypeMembers modelIdOrAlias
      then InheritedMember modelIdOrAlias
      else ResolvedId modelIdOrAlias
  end.

(** [getApiModelId] *)
Definition getApiModelId (fullModelId : string) : string :=
  if negb (includes fullModelId "/") then fullModelId
  else
    let parts := split "/" fullModelId in
    if (2 <=? List.length parts)%nat then default fullModelId (parts !! 1%nat)
    else fullModelId.

(** *** [loadAvailableModels]

    The configuration file as parsed: providers and models are objects in
    key order, a provider or model entry may be [null], every field may be
    absent, and the limits are integers. *)

Record Limit : Type := mkLimit {
  limit_context : option Z;
  limit_output : option Z
}.

Record Modalities : Type := mkModalities {
  modalities_input : option (list string);
  modalities_output : option (list string)
}.

Record ModelConfig : Type := mkModelConfig {
  cfg_name : option string;
  cfg_limit : option Limit;
  cfg_reasoning : option bool;
  cfg_modalities : option Modalities
}.

Record ProviderConfig : Type := mkProviderConfig {
  cfg_models : option (JsObject.obj (option ModelConfig))
}.

Record OpencodeConfig : Type := mkOpencodeConfig {
  cfg_provider : option (JsObject.obj (option ProviderConfig))
}.

(** [n || fallback] on an optional number: [0] is falsy. *)
Definition number_or (n : option Z) (fallback : Z) : Z :=
  match n with
  | Some v => if (v =? 0)%Z then fallback else v
  | None => fallback
  end.

(** The object pushed for one model entry of a provider. *)
Definition configModel (providerName modelId : string) (modelConfig : ModelConfig)
  : Model :=
  mkModel (providerName +:+ "/" +:+ modelId)
    (default modelId (given (cfg_name modelConfig)))
    providerName
    (number_or (cfg_limit modelConfig ≫= limit_context) 128000)
    (number_or (cfg_limit modelConfig ≫= limit_output) 8000)
    (default false (cfg_reasoning modelConfig))
    (default ["text"] (cfg_modalities modelConfig ≫= modalities_input))
    (default ["text"] (cfg_modalities modelConfig ≫= modalities_output)).

(** The inner loop over the models of one provider; [None] stands for the
    [TypeError] of reading a field of [null]. *)
Fixpoint providerModels (providerName : string)
    (entries : list (string * option ModelConfig)) (models : list Model)
  : option (list Model) :=
  match entries with
  | [] => Some models
  | (modelId, Some modelConfig) :: rest =>
      providerModels providerName rest
        (models ++ [configModel providerName modelId modelConfig])%list
  | (_, None) :: _ => None
  end.

(** The outer loop over the providers. *)
Fixpoint configModels (entries : list (string * option ProviderConfig))
    (models : list Model) : option (list Model) :=
  match entries with
  | [] => Some models
  | (providerName, Some providerConfig) :: rest =>
      match cfg_models providerConfig with
      | Some providerEntries =>
          match providerModels providerName (JsObject.entries providerEntries) models with
          | Some models' => configModels rest models'
          | None => None
          end
      | None => configModels rest models
      end
  | (_, None) :: _ => None
  end.

(** What the client's [models.list()] did, when there is a client. *)
Inductive ClientList : Type :=
| ClientModels (models : list Model)
| ClientThrows.

(** [loadAvailableModels]: the client's list when there is a client and
    its list is not empty; otherwise the models of the configuration file;
    the default list when the file cannot be read or parsed ([config] is
    [None]) or when walking it throws. *)
Definition loadAvailableModels (client : option ClientList)
    (config : option OpencodeConfig) : list Model :=
  let fromConfig :=
    match config with
    | Some cfg =>
        match cfg_provider cfg with
        | Some providers =>
            default getDefaultModels (configModels (JsObject.entries providers) [])
        | None => []
        end
    | None => getDefaultModels
    end in
  match client with
  | Some (ClientModels models) =>
      if (0 <? List.length models)%nat then models else fromConfig
  | Some ClientThrows => fromConfig
  | None => fromConfig
  end.

End ModelManager.

(** ** The message handler's detector *)

Record Intent : Type := mkIntent {
  in_intent : string;
  in_modelId : string;
  in_scope : string;
  in_confidence : string
}.

Module Handlers.
Import JsString.

Definition switchKeywords : list string :=
  ["切换"; "换成"; "使用"; "改用"; "改为"; "换到"; "切到"; "用"; "切换到"].

Definition scopeKeywords : JsObject.obj (list string) :=
  [ ("session", ["会话"; "临时"; "本次"; "这次"; "当前"]);
    ("user", ["用户"; "个人"; "我的"; "自己"; "为我"]);
    ("room", ["房间"; "群聊"; "这里"; "本房间"]);
    ("global", ["全局"; "全部"; "所有"; "系统"]) ].

(** The keyword list built for one model; no version token here. *)
Definition keywordsOf (model : Model) : list string :=
  let modelName := default "" (ModelManager.namePart (model_id model)) in
  let displayName := toLowerCase (model_name model) in
  uniq
    ((if String.eqb modelName "" then [] else [modelName])
     ++ [displayName]
     ++ ModelManager.brandKeywords displayName)%list.

Definition buildModelKeywords (models : list Model) : JsObject.obj (list string) :=
  let modelKeywords :=
    fold_left (fun o model => JsObject.set o (model_id model) (keywordsOf model))
      models [] in
  fold_left ModelManager.addAlias (JsObject.entries getModelAliases) modelKeywords.

(** The matching loop: the first entry with a keyword in the message is
    recorded, and the loop stops once [matchedModelId] is truthy. *)
Fixpoint matchModels (lowerMessage : string)
    (entries : list (string * list string))
    (matched : option string * list string) : option string * list string :=
  match entries with
  | [] => matched
  | (modelId, keywords) :: rest =>
      let matched' :=
        if existsb (includes lowerMessage) keywords then (Some modelId, keywords)
        else matched in
      if truthy (fst matched') then matched'
      else matchModels lowerMessage rest matched'
  end.

Definition permanentKeywords : list string := ["永久"; "保存"; "偏好"].

Definition detectModelSwitchIntent (message : string) (modelManager : ModelManager.t)
  : option Intent :=
  let lowerMessage := toLowerCase message in
  if negb (existsb (includes lowerMessage) switchKeywords) then None
  else
    let modelKeywords := buildModelKeywords (ModelManager.availableModels modelManager) in
    let (matchedModelId, matchedModelKeywords) :=
      matchModels lowerMessage (JsObject.entries modelKeywords) (None, []) in
    match ModelManager.given matchedModelId with
    | None => None
    | Some modelId =>
        let detectedScope :=
          ModelManager.detectScope lowerMessage (JsObject.entries scopeKeywords)
            "session" in
        let detectedScope :=
          if existsb (includes lowerMessage) permanentKeywords then "user"
          else detectedScope in
        Some (mkIntent "switch_model" modelId detectedScope
                (if existsb (includes lowerMessage) matchedModelKeywords
                 then "high" else "medium"))
    end.

(** *** The command and message handlers

    A handler builds a manager of its own for every message and awaits its
    [initialize] (the constructor has started one already; the two fill
    the same fields from the same sources): the catalog [models] that
    [loadAvailableModels] obtained and the tables [db0] the database file
    holds when it is opened ([None] when it cannot be opened). What
    outlives the handler is the tables it leaves. The reply is kept as
    data; its wording is not modelled. *)

Inductive SwitchReply : Type :=
| ReplyUsage
| ReplySwitched (result : SwitchResult) (scope : string)
| ReplyFailed (e : Error).

(** [handleModelSwitch]: [args[0]] is the model id and [args[1] ||
    'session'] the scope. *)
Definition handleModelSwitch (env : Env) (models : list Model)
    (db0 : option Database) (roomId sender : string) (args : list string)
  : option Database * SwitchReply :=
  match args with
  | [] => (db0, ReplyUsage)
  | modelId :: rest =>
      let scope := default "session" (ModelManager.given (rest !! 0%nat)) in
      let modelManager := ModelManager.initialize models db0 in
      match ModelManager.switchModel env modelId
              (mkOptions (Some sender) (Some roomId) (Some (ScopeStr scope)))
              modelManager with
      | (st', Ok result) => (ModelManager.db st', ReplySwitched result scope)
      | (st', Throw e) => (ModelManager.db st', ReplyFailed e)
      end
  end.

(** [handleModelCurrent]: the effective model of the sender in the room
    and its catalog entry; [None] stands for the error reply sent when
    [getModelConfig] throws. *)
Definition handleModelCurrent (models : list Model) (db0 : option Database)
    (roomId sender : string) : option (string * Model) :=
  let modelManager := ModelManager.initialize models db0 in
  let currentModel :=
    ModelManager.getCurrentModel modelManager (mkContext (Some sender) (Some roomId)) in
  match ModelManager.getModelConfig modelManager currentModel with
  | Some modelConfig => Some (currentModel, modelConfig)
  | None => None
  end.

Inductive NaturalReply : Type :=
| NaturalSwitched (result : SwitchResult) (scope : string)
| NaturalToAssistant.

(** The model-switch part of [handleNaturalLanguage]: a detected intent is
    carried out; without one, or when the switch throws, the message goes
    on to the assistant. *)
Definition handleNaturalLanguage (env : Env) (models : list Model)
    (db0 : option Database) (roomId sender message : string)
  : option Database * NaturalReply :=
  let modelManager := ModelManager.initialize models db0 in
  match detectModelSwitchIntent message modelManager with
  | Some switchIntent =>
      if String.eqb (in_intent switchIntent) "switch_model" then
        match ModelManager.switchModel env (in_modelId switchIntent)
                (mkOptions (Some sender) (Some roomId)
                   (Some (ScopeStr (in_scope switchIntent))))
                modelManager with
        | (st', Ok result) =>
            (ModelManager.db st', NaturalSwitched result (in_scope switchIntent))
        | (st', Throw _) => (ModelManager.db st', NaturalToAssistant)
        end
      else (ModelManager.db modelManager, NaturalToAssistant)
  | None => (ModelManager.db modelManager, NaturalToAssistant)
  end.

(** What [handleMatrixCommand] does with the command text, the message
    after [!opencode] with the white space around it trimmed. *)
Inductive Dispatch : Type :=
| DispatchUsage
| DispatchHelp
| DispatchStatus
| DispatchRun (code : string)
| DispatchShell (command : string)
| DispatchProjects
| DispatchModels
| DispatchSwitch (args : list string)
| DispatchCurrent (args : list string)
| DispatchVersion
| DispatchUnknown (command : string).

Definition dispatchCommand (commandText : string) : Dispatch :=
  if String.eqb commandText "" then DispatchUsage
  else
    match split " " commandText with
    | [] => DispatchUsage
    | command :: args =>
        let name := toLowerCase command in
        if String.eqb name "help" then DispatchHelp
        else if String.eqb name "status" then DispatchStatus
        else if String.eqb name "run" then DispatchRun (join " " args)
        else if String.eqb name "exec" || String.eqb name "shell"
        then DispatchShell (join " " args)
        else if String.eqb name "projects" then DispatchProjects
        else if String.eqb name "models" then DispatchModels
        else if String.eqb name "switch" || String.eqb name "model"
        then DispatchSwitch args
        else if String.eqb name "current" then DispatchCurrent args
        else if String.eqb name "version" then DispatchVersion
        else DispatchUnknown command
    end.

(** The allow list the message handler builds from an environment
    variable: [value ? value.split(',') : []]. *)
Definition allowList (value : option string) : list string :=
  match ModelManager.given value with
  | Some v => split "," v
  | None => []
  end.

End Handlers.

(** ** The preference store *)

Module PreferenceStore.

(** [saveUserPreference]: [UPDATE ... usage_count = usage_count + 1] when
    a row for [userId] exists, otherwise [INSERT] with [usage_count] 1. The
    count is an unbounded integer here; SQLite's is a 64-bit one. *)
Definition saveUserPreference (clock : Z) (userId modelId : string) (d : Database)
  : Database :=
  let row :=
    match user_model_preferences d !! userId with
    | Some existing =>
        mkUserPrefRow modelId clock (up_usage_count existing + 1)
          (up_created_at existing) clock
    | None => mkUserPrefRow modelId clock 1 clock clock
    end in
  mkDatabase (<[userId := row]> (user_model_preferences d))
    (room_model_preferences d) (model_usage_stats d) (model_switch_history d).

(** [getUserPreference] *)
Definition getUserPreference (userId : string) (d : Database) : option UserPrefRow :=
  user_model_preferences d !! userId.

(** [saveRoomPreference(roomId, modelId, setByUser = 'system')]: [UPDATE]
    of the model, the setter and the time when a row for [roomId] exists,
    otherwise [INSERT]. *)
Definition saveRoomPreference (clock : Z) (roomId modelId : string)
    (setByUser : option string) (d : Database) : Database :=
  let setByUser := default "system" setByUser in
  let row :=
    match room_model_preferences d !! roomId with
    | Some _ => mkRoomPrefRow modelId (Some setByUser) clock
    | None => mkRoomPrefRow modelId (Some setByUser) clock
    end in
  mkDatabase (user_model_preferences d)
    (<[roomId := row]> (room_model_preferences d))
    (model_usage_stats d) (model_switch_history d).

(** [getRoomPreference] *)
Definition getRoomPreference (roomId : string) (d : Database) : option RoomPrefRow :=
  room_model_preferences d !! roomId.

End PreferenceStore.

(** ** Access control and storage names of the Matrix client *)

Record AccessConfig : Type := mkAccessConfig {
  allowedUsers : option (list string);
  allowedRooms : option (list string)
}.

Module MatrixClient.
Import JsString.

(** The test shared by [isUserAllowed] and [isRoomAllowed]. *)
Definition allowed_by (allowList : option (list string)) (id : string) : bool :=
  match allowList with
  | None => true
  | Some l =>
      if (List.length l =? 0)%nat then true
      else existsb (fun allowed =>
                      String.eqb id allowed
                      || String.eqb (toLowerCase id) (toLowerCase allowed)) l
  end.

Definition isUserAllowed (userId : string) (config : AccessConfig) : bool :=
  allowed_by (allowedUsers config) userId.

Definition isRoomAllowed (roomId : string) (config : AccessConfig) : bool :=
  allowed_by (allowedRooms config) roomId.

(** [userId.replace(/[@:]/g, '_')], the base name of the storage file and
    of the crypto directory in [createMatrixClient]. *)
Definition storageName (userId : string) : string :=
  replace_chars (fun c => Ascii.eqb c "@" || Ascii.eqb c ":") "_" userId.

End MatrixClient.

(** ** Notions used in the statements *)

Module Spec.
Import JsString.

(** No preference is stored under the empty key. [switchModel] writes a
    preference only under a truthy id, so this holds of every manager
    started on tables that have no such row. *)
Definition keys_truthy (st : ModelManager.t) : Prop :=
  ModelManager.userPreferences st !! "" = None
  /\ ModelManager.roomPreferences st !! "" = None.

Definition rows_truthy (d : Database) : Prop :=
  user_model_preferences d !! "" = None /\ room_model_preferences d !! "" = None.

(** The preference recorded for an id that is given and not empty. *)
Definition stored_for (key : option string) (prefs : gmap string string)
  : option string :=
  match key with
  | Some k => if String.eqb k "" then None else prefs !! k
  | None => None
  end.

(** [a/b] with [a] and [b] non-empty and drawn from two classes. *)
Definition two_token_id (p1 p2 : ascii -> bool) (s : string) : Prop :=
  exists a b,
    s = a +:+ String "/" b
    /\ a <> "" /\ forall_chars p1 a = true
    /\ b <> "" /\ forall_chars p2 b = true.

(** The token alphabet in the words of the format rule: letters, digits,
    [.], [_] and [-]. *)
Definition token_char (c : ascii) : bool :=
  Regex.lower c || Regex.upper c || Regex.digit c
  || Ascii.eqb c "." || Ascii.eqb c "_" || Ascii.eqb c "-".

(** The format rule as worded: both tokens over the same alphabet. *)
Definition claimed_format (s : string) : Prop :=
  two_token_id token_char token_char s.

(** The format the pattern accepts: no [.] in the provider token. *)
Definition accepted_format (s : string) : Prop :=
  two_token_id ModelManager.provider_char ModelManager.name_char s.

(** The scope argument as [switchModel] reads it. *)
Definition scope_of (options : Options) : ScopeArg :=
  default (ScopeStr "session") (opt_scope options).

Definition touches_session (options : Options) : bool :=
  scope_includes (scope_of options) "session" || scope_includes (scope_of options) "all".

(** The user (room) the call writes a preference for, if any. *)
Definition user_target (options : Options) : option string :=
  if scope_includes (scope_of options) "user"
  then ModelManager.given (opt_userId options) else None.

Definition room_target (options : Options) : option string :=
  if scope_includes (scope_of options) "room"
  then ModelManager.given (opt_roomId options) else None.

(** The in-memory tiers after the dispatch by scope. *)
Definition session_after (modelId : string) (options : Options) (st : ModelManager.t)
  : string :=
  if touches_session options then modelId else ModelManager.currentModel st.

Definition users_after (modelId : string) (options : Options) (st : ModelManager.t)
  : gmap string string :=
  match user_target options with
  | Some u => <[u := modelId]> (ModelManager.userPreferences st)
  | None => ModelManager.userPreferences st
  end.

Definition rooms_after (modelId : string) (options : Options) (st : ModelManager.t)
  : gmap string string :=
  match room_target options with
  | Some r => <[r := modelId]> (ModelManager.roomPreferences st)
  | None => ModelManager.roomPreferences st
  end.

(** The tables after a call none of whose preference writes fails: the
    preference rows of the targets are replaced, and one usage row is
    appended unless that insert fails. *)
Definition tables_after (env : Env) (modelId : string) (options : Options)
    (d : Database) : Database :=
  let d1 :=
    match user_target options with
    | Some u => ModelManager.replace_user_row env u modelId d
    | None => d
    end in
  let d2 :=
    match room_target options with
    | Some r =>
        ModelManager.replace_room_row env r modelId
          (default "system" (ModelManager.given (opt_userId options))) d1
    | None => d1
    end in
  if fail_usage_write env then d2
  else ModelManager.insert_usage_row env
         (mkUsageRow modelId (ModelManager.given (opt_userId options))
            (ModelManager.given (opt_roomId options)) 0 0 (now env)) d2.

(** The same environment with the usage insert made to fail or not. *)
Definition with_usage_failure (fails : bool) (env : Env) : Env :=
  mkEnv (now env) (fail_user_write env) (fail_room_write env) fails.

(** The stored usage count of a user, if the user has a row. *)
Definition usage_count_of (userId : string) (d : Database) : option Z :=
  up_usage_count <$> user_model_preferences d !! userId.

(** The keywords of a model that occur in the lower-cased message. *)
Definition found (lowerMessage : string) (keywords : list string) : list string :=
  List.filter (includes lowerMessage) keywords.

(** The points of a list of keywords, summed. *)
Definition sum_points (modelId : string) (keywords : list string) : Z :=
  fold_right (fun keyword total => (ModelManager.keywordPoints modelId keyword + total)%Z)
    0%Z keywords.

(** The confidence label of a score. *)
Definition confidence_of (score : Z) : string :=
  if (10 <=? score)%Z then "high" else if (5 <=? score)%Z then "medium" else "low".

(** Entry [i] wins: its score is positive, no entry scores higher, and
    every earlier entry scores strictly lower. *)
Definition first_maximum (lowerMessage : string)
    (entries : list (string * list string)) (i : nat) : Prop :=
  exists modelId keywords,
    entries !! i = Some (modelId, keywords)
    /\ let best := sum_points modelId (found lowerMessage keywords) in
       (0 < best)%Z
       /\ (forall j id' kws', entries !! j = Some (id', kws') ->
              (sum_points id' (found lowerMessage kws') <= best)%Z)
       /\ (forall j id' kws', (j < i)%nat -> entries !! j = Some (id', kws') ->
              (sum_points id' (found lowerMessage kws') < best)%Z).

End Spec.

(** A manager on the default catalog with an empty database, and two
    Matrix identifiers, for the worked examples. *)
Definition fresh_manager : ModelManager.t :=
  ModelManager.initialize getDefaultModels (Some empty_database).
Definition alice : string := "@alice:example.org".
Definition lobby : string := "!lobby:example.org".
Definition quiet_env : Env := mkEnv 1000 false false false.

(** ** Further notions used in the statements *)

Module MoreSpec.
Import JsString.

(** The character does not occur in the string. *)
Definition lacks (c : ascii) (s : string) : bool :=
  forall_chars (fun x => negb (Ascii.eqb x c)) s.

(** Text on which [toLowerCase] is [String.prototype.toLowerCase]: ASCII
    characters and the caseless CJK characters U+4000 to U+9FFF, which
    UTF-8 writes as a byte from E4 to E9 and two continuation bytes. *)
Definition continuation (c : ascii) : bool :=
  (128 <=? nat_of_ascii c)%nat && (nat_of_ascii c <=? 191)%nat.

Fixpoint plain (s : string) : bool :=
  match s with
  | EmptyString => true
  | String c rest =>
      if (nat_of_ascii c <? 128)%nat then plain rest
      else if (228 <=? nat_of_ascii c)%nat && (nat_of_ascii c <=? 233)%nat then
        match rest with
        | String c1 (String c2 rest') =>
            continuation c1 && continuation c2 && plain rest'
        | _ => false
        end
      else false
  end.

(** An allow list of plain entries, and a catalog of plain ids and names. *)
Definition plain_entries (allowList : option (list string)) : bool :=
  match allowList with
  | Some l => forallb plain l
  | None => true
  end.

Definition plain_catalog (models : list Model) : bool :=
  forallb (fun m => plain (model_id m) && plain (model_name m)) models.

(** The in-memory preference maps are the model columns of the tables. *)
Definition mirrors (st : ModelManager.t) : Prop :=
  forall d, ModelManager.db st = Some d ->
    ModelManager.userPreferences st = up_model_id <$> user_model_preferences d
    /\ ModelManager.roomPreferences st = rp_model_id <$> room_model_preferences d.

(** The preference columns of the tables, when there is a database. *)
Definition preference_tables (dbo : option Database)
  : option (gmap string UserPrefRow * gmap string RoomPrefRow) :=
  (fun d => (user_model_preferences d, room_model_preferences d)) <$> dbo.

(** Every stored preference names a model of the catalog. *)
Definition rows_available (models : list Model) (d : Database) : Prop :=
  (forall u row, user_model_preferences d !! u = Some row ->
     In (up_model_id row) (map model_id models))
  /\ (forall r row, room_model_preferences d !! r = Some row ->
       In (rp_model_id row) (map model_id models)).

(** The keywords of the handler's detector that make a switch last: the
    permanent keywords and the keywords of the scopes [user] and [room]. *)
Definition lastingKeywords : list string :=
  (Handlers.permanentKeywords
   ++ default [] (JsObject.get Handlers.scopeKeywords "user")
   ++ default [] (JsObject.get Handlers.scopeKeywords "room"))%list.

End MoreSpec.


(** The models a provider section lists, in the order the loops of
    [loadAvailableModels] visit them, and whether the section has a [null]
    provider or model entry. *)
Module Listing.
Import ModelManager.

Definition modelsOfProvider (entry : string * option ProviderConfig)
  : list (string * option ModelConfig) :=
  match snd entry ≫= cfg_models with
  | Some models => JsObject.entries models
  | None => []
  end.

Definition listedModels (entry : string * option ProviderConfig) : list Model :=
  flat_map (fun modelEntry =>
              match snd modelEntry with
              | Some modelConfig =>
                  [configModel (fst entry) (fst modelEntry) modelConfig]
              | None => []
              end)
    (modelsOfProvider entry).

Definition listed (providers : JsObject.obj (option ProviderConfig)) : list Model :=
  flat_map listedModels (JsObject.entries providers).

Definition is_null {A} (o : option A) : bool :=
  match o with
  | Some _ => false
  | None => true
  end.

Definition has_null (providers : JsObject.obj (option ProviderConfig)) : bool :=
  existsb (fun entry =>
             is_null (snd entry)
             || existsb (fun modelEntry => is_null (snd modelEntry))
                  (modelsOfProvider entry))
    (JsObject.entries providers).

(** The client gave no list: there is no client, its call threw, or its
    list was empty. *)
Definition no_client_list (client : option ClientList) : Prop :=
  forall models, client = Some (ClientModels models) -> models = [].

(** The shape of a model read from the configuration file. *)
Definition from_provider (m : Model) : Prop :=
  (exists key, model_id m = model_provider m +:+ "/" +:+ key)
  /\ contextWindow m <> 0%Z
  /\ maxTokens m <> 0%Z.

End Listing.

(** * Properties *)

(** ** The JavaScript primitives on small inputs *)

Example split_examples :
  JsString.split "/" "cc-oaicomp/Kimi-K2.5" = ["cc-oaicomp"; "Kimi-K2.5"]
  /\ JsString.split "/" "a/b/c" = ["a"; "b"; "c"]
  /\ JsString.split "/" "nomodel" = ["nomodel"]
  /\ JsString.split "/" "a/" = ["a"; ""]
  /\ JsString.split "/" "" = [""].
Proof. repeat split; reflexivity. Qed.

Example includes_examples :
  JsString.includes "切换到 deepseek 永久保存" "永久" = true
  /\ JsString.includes "切换到 deepseek 永久保存" "全局" = false
  /\ JsString.includes "global" "all" = false
  /\ JsString.includes "session,user" "user" = true
  /\ JsString.includes "" "" = true.
Proof. repeat split; reflexivity. Qed.

Example toLowerCase_examples :
  JsString.toLowerCase "DeepSeek V3.2" = "deepseek v3.2"
  /\ JsString.toLowerCase "切换到 DeepSeek" = "切换到 deepseek".
Proof. split; reflexivity. Qed.

Example uniq_example :
  JsString.uniq ["kimi"; "kimi k2.5"; "kimi"; "月之暗面"; "kimi k2.5"]
  = ["kimi"; "kimi k2.5"; "月之暗面"].
Proof. reflexivity. Qed.

Example search_examples :
  Regex.search ModelManager.version_re "gpt 5.3 codex" = Some "5.3"
  /\ Regex.search ModelManager.version_re "claude 3.5.1 sonnet" = Some "3.5"
  /\ Regex.search ModelManager.version_re "v12.04b and 7.1" = Some "12.04"
  /\ Regex.search ModelManager.version_re "gemini 3 flash preview" = None
  /\ Regex.search ModelManager.version_re "3. 5" = None.
Proof. repeat split; reflexivity. Qed.

(** Array-index keys come first in ascending order, then the other keys in
    insertion order; assigning an existing key keeps its place. *)
Example entries_example :
  JsObject.entries
    (JsObject.set
       (JsObject.set
          (JsObject.set
             (JsObject.set (JsObject.set [] "b/x" 1%nat) "10" 2%nat) "a/y" 3%nat)
          "9" 4%nat)
       "b/x" 5%nat)
  = [("9", 4%nat); ("10", 2%nat); ("b/x", 5%nat); ("a/y", 3%nat)].
Proof. reflexivity. Qed.

(** ** Patterns: derivative matching decides the language *)

Module RegexFacts.
Import Regex.
#[local] Arguments String.append : simpl nomatch.

Lemma append_nil_inv (s1 s2 : string) :
  s1 +:+ s2 = EmptyString -> s1 = EmptyString /\ s2 = EmptyString.
Proof. destruct s1; simpl; [tauto | discriminate]. Qed.

Lemma append_nil_r (s : string) : s +:+ EmptyString = s.
Proof. induction s; simpl; congruence. Qed.

Lemma append_assoc (s1 s2 s3 : string) :
  (s1 +:+ s2) +:+ s3 = s1 +:+ (s2 +:+ s3).
Proof. induction s1; simpl; congruence. Qed.

Lemma nullable_lang (r : re) : nullable r = true <-> lang r EmptyString.
Proof.
  split.
  - induction r; simpl; intros H; try discriminate.
    + constructor.
    + apply andb_prop in H as [H1 H2].
      change EmptyString with (EmptyString +:+ EmptyString).
      constructor; auto.
    + apply orb_prop in H as [H | H]; [apply lang_alt_l | apply lang_alt_r]; auto.
    + constructor.
  - intros H. remember EmptyString as w eqn:Hw.
    induction H; simpl; try discriminate; auto.
    + apply append_nil_inv in Hw as [-> ->].
      rewrite IHlang1, IHlang2; auto.
    + rewrite IHlang; auto.
    + rewrite IHlang, orb_true_r; auto.
Qed.

Lemma deriv_sound (c : ascii) (r : re) (s : string) :
  lang (deriv c r) s -> lang r (String c s).
Proof.
  revert s. induction r; simpl; intros s H.
  - inversion H.
  - inversion H.
  - destruct (p c) eqn:Hp; inversion H; subst. constructor; auto.
  - destruct (nullable r1) eqn:Hn.
    + inversion H as [| | | ? ? ? HL | ? ? ? HR | |]; subst.
      * inversion HL; subst.
        change (String c (s1 +:+ s2)) with (String c s1 +:+ s2).
        constructor; auto.
      * change (String c s) with (EmptyString +:+ String c s).
        constructor; auto. apply nullable_lang; auto.
    + inversion H; subst.
      change (String c (s1 +:+ s2)) with (String c s1 +:+ s2).
      constructor; auto.
  - inversion H; subst; [apply lang_alt_l | apply lang_alt_r]; auto.
  - inversion H; subst.
    change (String c (s1 +:+ s2)) with (String c s1 +:+ s2).
    constructor; auto.
Qed.

Lemma deriv_complete (c : ascii) (r : re) (w : string) :
  lang r w -> forall t, w = String c t -> lang (deriv c r) t.
Proof.
  induction 1; intros t Hw; simpl; try discriminate.
  - injection Hw as -> <-. rewrite H. constructor.
  - destruct s1 as [| c1 s1'].
    + simpl in Hw. subst s2.
      assert (Hn : nullable r1 = true) by (apply nullable_lang; auto).
      rewrite Hn. apply lang_alt_r. auto.
    + simpl in Hw. injection Hw as -> <-.
      specialize (IHlang1 s1' eq_refl).
      destruct (nullable r1); [apply lang_alt_l |]; constructor; auto.
  - apply lang_alt_l; auto.
  - apply lang_alt_r; auto.
  - destruct s1 as [| c1 s1'].
    + simpl in Hw. apply (IHlang2 t Hw).
    + simpl in Hw. injection Hw as -> <-.
      constructor; auto.
Qed.

Lemma matches_lang (r : re) (s : string) : matches r s = true <-> lang r s.
Proof.
  revert r. induction s as [| c s IH]; intros r; simpl.
  - apply nullable_lang.
  - rewrite IH. split; [apply deriv_sound |].
    intros H. eapply deriv_complete; eauto.
Qed.

Lemma star_cls (p : ascii -> bool) (s : string) :
  lang (Star (Cls p)) s <-> JsString.forall_chars p s = true.
Proof.
  split.
  - intros H. remember (Star (Cls p)) as r eqn:Hr.
    induction H; try discriminate; auto.
    injection Hr as ->. specialize (IHlang2 eq_refl).
    inversion H; subst. simpl. rewrite IHlang2.
    match goal with Hp : p _ = true |- _ => rewrite Hp end. auto.
  - induction s as [| c s IH]; simpl; intros H.
    + constructor.
    + apply andb_prop in H as [Hc Hs].
      change (String c s) with (String c EmptyString +:+ s).
      constructor; [constructor |]; auto.
Qed.

Lemma plus_cls (p : ascii -> bool) (s : string) :
  lang (Plus (Cls p)) s <-> s <> EmptyString /\ JsString.forall_chars p s = true.
Proof.
  unfold Plus. split.
  - intros H. inversion H as [| | ? ? ? ? H1 H2 | | | |]; subst.
    inversion H1; subst. apply star_cls in H2. simpl.
    split; [discriminate |].
    match goal with Hp : p _ = true |- _ => rewrite Hp end. auto.
  - intros [Hne H]. destruct s as [| c s]; [congruence |].
    simpl in H. apply andb_prop in H as [Hc Hs].
    change (String c s) with (String c EmptyString +:+ s).
    constructor; [constructor | apply star_cls]; auto.
Qed.

Lemma chr_lang (c : ascii) (s : string) :
  lang (Chr c) s <-> s = String c EmptyString.
Proof.
  unfold Chr. split.
  - intros H. inversion H; subst.
    match goal with Hp : Ascii.eqb _ _ = true |- _ => apply Ascii.eqb_eq in Hp; subst end.
    reflexivity.
  - intros ->. constructor. apply Ascii.eqb_refl.
Qed.

(** A pattern [C1+ c C2+] matches exactly the strings [a c b] with [a]
    and [b] non-empty and drawn from the two classes. *)
Lemma two_tokens (p1 p2 : ascii -> bool) (c : ascii) (s : string) :
  matches (Cat (Plus (Cls p1)) (Cat (Chr c) (Plus (Cls p2)))) s = true <->
  exists a b,
    s = a +:+ String c b
    /\ a <> EmptyString /\ JsString.forall_chars p1 a = true
    /\ b <> EmptyString /\ JsString.forall_chars p2 b = true.
Proof.
  rewrite matches_lang. split.
  - intros H. inversion H as [| | ? ? a w Ha Hw | | | |]; subst.
    inversion Hw as [| | ? ? x b Hx Hb | | | |]; subst.
    apply chr_lang in Hx. subst x. apply plus_cls in Ha, Hb.
    exists a, b. simpl. tauto.
  - intros (a & b & -> & Ha1 & Ha2 & Hb1 & Hb2).
    constructor; [apply plus_cls; auto |].
    change (String c b) with (String c EmptyString +:+ b).
    constructor; [apply chr_lang | apply plus_cls]; auto.
Qed.

(** What [longest_from] returns extends the prefix already consumed by a
    string that the pattern matches. *)
Lemma longest_from_sound (r : re) (acc s m : string) :
  longest_from r acc s = Some m ->
  exists p, m = acc +:+ p /\ matches r p = true.
Proof.
  revert r acc. induction s as [| c s IH]; intros r acc; simpl.
  - destruct (nullable r) eqn:Hn; [| discriminate].
    intros Heq. injection Heq as Heq. subst m.
    exists EmptyString. rewrite append_nil_r. auto.
  - destruct (longest_from (deriv c r) (acc +:+ String c EmptyString) s)
      as [m' |] eqn:Hrec.
    + intros Heq. injection Heq as Heq. subst m'.
      apply IH in Hrec as (p & -> & Hp).
      exists (String c p). rewrite append_assoc. simpl. auto.
    + destruct (nullable r) eqn:Hn; [| discriminate].
      intros Heq. injection Heq as Heq. subst m.
      exists EmptyString. rewrite append_nil_r. auto.
Qed.

(** The string captured by a search matches the pattern as a whole. *)
Lemma search_sound (r : re) (s m : string) :
  search r s = Some m -> matches r m = true.
Proof.
  induction s as [| c s IH].
  - simpl. destruct (nullable r) eqn:Hn; [| discriminate].
    intros Heq. injection Heq as Heq. subst m. exact Hn.
  - cbn [search].
    destruct (longest_from r EmptyString (String c s)) as [m' |] eqn:Hhere.
    + intros Heq. injection Heq as Heq. subst m'.
      apply longest_from_sound in Hhere as (p & -> & Hp). exact Hp.
    + exact IH.
Qed.

End RegexFacts.

(** ** The manager: resolution and switching *)

Module ManagerFacts.
Import JsString StateExn ModelManager Spec.

Lemma truthy_Some (s : string) : truthy (Some s) = true <-> s <> "".
Proof.
  simpl. destruct (String.eqb_spec s ""); simpl; split; congruence.
Qed.

Lemma given_Some (o : option string) (s : string) :
  given o = Some s <-> o = Some s /\ s <> "".
Proof.
  unfold given. destruct o as [x |]; simpl.
  - destruct (String.eqb_spec x ""); simpl; split.
    + discriminate.
    + intros [[= ->] Hne]. contradiction.
    + intros [= ->]. auto.
    + intros [H _]. exact H.
  - split; [discriminate | intros [H _]; discriminate].
Qed.

Lemma lookup_given_truthy (key : option string) (prefs : gmap string string) :
  prefs !! "" = None -> lookup_given key prefs = key ≫= (prefs !!.).
Proof.
  intros Hnone. unfold lookup_given. destruct key as [k |]; simpl; auto.
  destruct (String.eqb_spec k ""); simpl; subst; auto.
Qed.

End ManagerFacts.

(** C1 as stated fails for the empty id: a preference recorded under [""]
    is not returned to a caller whose user id is [""], because the
    resolver tests the id for truthiness before it looks the record up. *)
Lemma empty_user_id_skips_stored_preference :
  let d :=
    mkDatabase {[ "" := mkUserPrefRow "cc-oaicomp/DeepSeek-V3.2" 0 0 0 0 ]} ∅ [] [] in
  let st := ModelManager.initialize getDefaultModels (Some d) in
  ModelManager.userPreferences st !! "" = Some "cc-oaicomp/DeepSeek-V3.2"
  /\ ModelManager.getCurrentModel st (mkContext (Some "") None)
     = "cc-oaicomp/Kimi-K2.5"
  /\ ModelManager.getCurrentModel st (mkContext (Some "") None)
     <> "cc-oaicomp/DeepSeek-V3.2".
Proof. vm_compute. repeat split; try reflexivity. discriminate. Qed.

(** C1, amended. On every manager, [getCurrentModel] returns the user
    preference when [userId] is given, is not empty and has one recorded;
    otherwise the room preference when [roomId] is given, is not empty and
    has one recorded; otherwise the session default. An empty id counts as
    no id. With a user preference [B] and a room preference [A] for a
    caller with non-empty ids it returns [B]. *)
Theorem getCurrentModel_precedence (st : ModelManager.t) (userId roomId : option string) :
  (forall u B,
     userId = Some u -> u <> "" ->
     ModelManager.userPreferences st !! u = Some B ->
     ModelManager.getCurrentModel st (mkContext userId roomId) = B)
  /\ (forall r A,
        Spec.stored_for userId (ModelManager.userPreferences st) = None ->
        roomId = Some r -> r <> "" ->
        ModelManager.roomPreferences st !! r = Some A ->
        ModelManager.getCurrentModel st (mkContext userId roomId) = A)
  /\ (Spec.stored_for userId (ModelManager.userPreferences st) = None ->
      Spec.stored_for roomId (ModelManager.roomPreferences st) = None ->
      ModelManager.getCurrentModel st (mkContext userId roomId)
      = ModelManager.currentModel st)
  /\ ModelManager.getCurrentModel st (mkContext (Some "") roomId)
     = ModelManager.getCurrentModel st (mkContext None roomId).
Proof.
  assert (Hstored : forall key prefs,
             ModelManager.lookup_given key prefs = Spec.stored_for key prefs).
  { intros [k |] prefs; unfold ModelManager.lookup_given, Spec.stored_for; simpl;
      [| reflexivity].
    destruct (String.eqb k ""); reflexivity. }
  assert (Hsome : forall k prefs, k <> "" ->
             Spec.stored_for (Some k) prefs = prefs !! k).
  { intros k prefs Hk. unfold Spec.stored_for.
    rewrite (proj2 (String.eqb_neq k "") Hk). reflexivity. }
  unfold ModelManager.getCurrentModel. cbn [ctx_userId ctx_roomId].
  rewrite !Hstored. repeat split.
  - intros u B -> Hu HB. rewrite (Hsome u _ Hu), HB. reflexivity.
  - intros r A -> -> Hr HA. rewrite (Hsome r _ Hr), HA. reflexivity.
  - intros -> ->. reflexivity.
Qed.

Lemma getCurrentModel_precedence_witness :
  let st :=
    fst (ModelManager.switchModel quiet_env "cc-oaicomp/DeepSeek-V3.2"
           (mkOptions (Some alice) (Some lobby) (Some (ScopeStr "user")))
           (fst (ModelManager.switchModel quiet_env "cc-openai/gpt-5.3-codex"
                   (mkOptions (Some alice) (Some lobby) (Some (ScopeStr "room")))
                   fresh_manager))) in
  ModelManager.roomPreferences st !! lobby = Some "cc-openai/gpt-5.3-codex"
  /\ ModelManager.getCurrentModel st (mkContext (Some alice) (Some lobby))
     = "cc-oaicomp/DeepSeek-V3.2".
Proof.
  intros st. split; [vm_compute; reflexivity |].
  refine (proj1 (getCurrentModel_precedence st (Some alice) (Some lobby))
            alice "cc-oaicomp/DeepSeek-V3.2" eq_refl _ _).
  - discriminate.
  - vm_compute; reflexivity.
Defined.

Module SwitchFacts.
Import JsString StateExn ModelManager Spec.

(** Case analysis on the tests [switchModel] makes, each taken once, on a
    goal that mentions the call. *)
Ltac switch_eval :=
  unfold recordModelUsage, run_if_db, swallow, bind, gets, modify, ret, throw;
  simpl;
  repeat (progress
    (repeat match goal with
       | E : validateModelIdFormat _ = _ |- _ => rewrite E
       | E : isModelAvailable _ _ = _ |- _ => rewrite E
       | E : db _ = _ |- _ => rewrite E
       | E : fail_user_write _ = _ |- _ => rewrite E
       | E : fail_room_write _ = _ |- _ => rewrite E
       | E : fail_usage_write _ = _ |- _ => rewrite E
       end; simpl)).

Ltac switch_cases env modelId options st :=
  unfold switchModel, session_after, users_after, rooms_after, tables_after;
  unfold user_target, room_target, touches_session;
  unfold scope_of;
  set (sc := default (ScopeStr "session") (opt_scope options));
  destruct (validateModelIdFormat modelId) eqn:Hfmt;
  [ destruct (isModelAvailable st modelId) eqn:Hav;
    [ destruct (scope_includes sc "session" || scope_includes sc "all") eqn:Hs;
      destruct (if scope_includes sc "user" then given (opt_userId options) else None)
        as [tgt_u |] eqn:Hu;
      destruct (if scope_includes sc "room" then given (opt_roomId options) else None)
        as [tgt_r |] eqn:Hr;
      (destruct (db st) as [dbv |] eqn:Hd;
       [ destruct (fail_user_write env) eqn:Hfu;
         destruct (fail_room_write env) eqn:Hfr;
         destruct (fail_usage_write env) eqn:Hft
       | ])
    | ]
  | ];
  switch_eval.

(** What a successful call returns and leaves in memory. *)
Lemma switchModel_ok env modelId options st st' r :
  switchModel env modelId options st = (st', Ok r) ->
  r = mkSwitchResult true
        (if touches_session options then Some (currentModel st) else None) modelId
  /\ currentModel st' = session_after modelId options st
  /\ userPreferences st' = users_after modelId options st
  /\ roomPreferences st' = rooms_after modelId options st
  /\ availableModels st' = availableModels st
  /\ validateModelIdFormat modelId = true
  /\ isModelAvailable st modelId = true.
Proof.
  switch_cases env modelId options st; intros H; try discriminate;
    injection H as <- <-; simpl; repeat split; auto.
Qed.

(** A valid id on a manager whose preference writes do not fail: the
    call returns, and the whole state after it is determined. *)
Lemma switchModel_succeeds env modelId options st :
  validateModelIdFormat modelId = true ->
  isModelAvailable st modelId = true ->
  fail_user_write env = false ->
  fail_room_write env = false ->
  switchModel env modelId options st =
    (mk (session_after modelId options st) (users_after modelId options st)
        (rooms_after modelId options st) (availableModels st)
        (tables_after env modelId options <$> db st),
     Ok (mkSwitchResult true
           (if touches_session options then Some (currentModel st) else None)
           modelId)).
Proof.
  switch_cases env modelId options st; intros; try discriminate;
    destruct st; simpl in *; subst; reflexivity.
Qed.

Lemma switchModel_invalid env modelId options st :
  validateModelIdFormat modelId = false ->
  switchModel env modelId options st = (st, Throw (InvalidFormat modelId)).
Proof. intros H. unfold switchModel. rewrite H. reflexivity. Qed.

Lemma switchModel_throws_format env modelId options st st' x :
  switchModel env modelId options st = (st', Throw (InvalidFormat x)) ->
  validateModelIdFormat modelId = false.
Proof.
  switch_cases env modelId options st; intros H; try discriminate; reflexivity.
Qed.

(** The preference maps never acquire the empty key. *)
Lemma switchModel_keys_truthy env modelId options st st' out :
  keys_truthy st ->
  switchModel env modelId options st = (st', out) ->
  keys_truthy st'.
Proof.
  intros [Hku Hkr].
  assert (Hins : forall o (t : string) (m : gmap string string),
             given o = Some t -> m !! "" = None -> <[t := modelId]> m !! "" = None).
  { intros o t m Hg Hm. apply ManagerFacts.given_Some in Hg as [_ Hne].
    rewrite lookup_insert_ne; auto. }
  assert (Hgu : forall t, (if scope_includes (scope_of options) "user"
                           then given (opt_userId options) else None) = Some t ->
                          <[t := modelId]> (userPreferences st) !! "" = None).
  { intros t. destruct (scope_includes (scope_of options) "user"); [| discriminate].
    intros Ht. eapply Hins; eauto. }
  assert (Hgr : forall t, (if scope_includes (scope_of options) "room"
                           then given (opt_roomId options) else None) = Some t ->
                          <[t := modelId]> (roomPreferences st) !! "" = None).
  { intros t. destruct (scope_includes (scope_of options) "room"); [| discriminate].
    intros Ht. eapply Hins; eauto. }
  unfold scope_of in Hgu, Hgr. unfold keys_truthy.
  switch_cases env modelId options st; intros H;
    injection H as <- <-; simpl; split; auto.
Qed.

Lemma loadPreferences_keys_truthy st d :
  db st = Some d -> rows_truthy d -> keys_truthy st -> keys_truthy (loadPreferences st).
Proof.
  intros Hd [Hu Hr] [Hku Hkr]. unfold loadPreferences, keys_truthy. rewrite Hd. simpl.
  split; apply lookup_union_None; split; auto; rewrite lookup_fmap.
  - rewrite Hu. reflexivity.
  - rewrite Hr. reflexivity.
Qed.

Lemma initialize_keys_truthy models dbo :
  (forall d, dbo = Some d -> rows_truthy d) -> keys_truthy (initialize models dbo).
Proof.
  intros Hrows. unfold initialize. destruct dbo as [d |].
  - eapply loadPreferences_keys_truthy; [reflexivity | auto |].
    split; apply lookup_empty.
  - split; apply lookup_empty.
Qed.

End SwitchFacts.

(** C2 as stated fails: a session-scoped switch by a caller who already
    has a user preference. [alice] first stores a user preference for Kimi,
    then switches the session to DeepSeek; both calls succeed, and the
    resolver still answers Kimi for her. *)
Lemma session_switch_is_shadowed_by_user_preference :
  let modelId := "cc-oaicomp/DeepSeek-V3.2" in
  let st1 :=
    fst (ModelManager.switchModel quiet_env "cc-oaicomp/Kimi-K2.5"
           (mkOptions (Some alice) (Some lobby) (Some (ScopeStr "user")))
           fresh_manager) in
  let options := mkOptions (Some alice) (Some lobby) (Some (ScopeStr "session")) in
  let run := ModelManager.switchModel quiet_env modelId options st1 in
  ModelManager.validateModelIdFormat modelId = true
  /\ ModelManager.isModelAvailable st1 modelId = true
  /\ snd run = Ok (mkSwitchResult true (Some "cc-oaicomp/Kimi-K2.5") modelId)
  /\ ModelManager.getCurrentModel (fst run) (mkContext (Some alice) (Some lobby))
     = "cc-oaicomp/Kimi-K2.5"
  /\ ModelManager.getCurrentModel (fst run) (mkContext (Some alice) (Some lobby))
     <> modelId.
Proof. vm_compute. repeat split; try reflexivity. discriminate. Qed.

(** C2, amended. A valid id, on a manager whose preference writes do not
    fail: [switchModel] returns, and [getCurrentModel] for the same user
    and room then yields the switched id, when the scope contains [user]
    and a user id is given; or it contains [room], a room id is given and
    no user preference is stored for the caller; or it contains [session]
    or [all] and neither a user nor a room preference is stored for the
    caller. *)
Theorem switchModel_read_your_write env modelId options st :
  ModelManager.validateModelIdFormat modelId = true ->
  ModelManager.isModelAvailable st modelId = true ->
  fail_user_write env = false ->
  fail_room_write env = false ->
  Spec.user_target options <> None
  \/ (Spec.room_target options <> None
      /\ ModelManager.lookup_given (opt_userId options) (ModelManager.userPreferences st)
         = None)
  \/ (Spec.touches_session options = true
      /\ ModelManager.lookup_given (opt_userId options) (ModelManager.userPreferences st)
         = None
      /\ ModelManager.lookup_given (opt_roomId options) (ModelManager.roomPreferences st)
         = None) ->
  exists st' r,
    ModelManager.switchModel env modelId options st = (st', Ok r)
    /\ ModelManager.getCurrentModel st'
         (mkContext (opt_userId options) (opt_roomId options)) = modelId.
Proof.
  intros Hfmt Hav Hfu Hfr Hcase.
  rewrite (SwitchFacts.switchModel_succeeds env modelId options st Hfmt Hav Hfu Hfr).
  eexists _, _. split; [reflexivity |].
  unfold ModelManager.getCurrentModel. simpl.
  assert (Hset : forall (o : option string) (t : string) (m : gmap string string),
             ModelManager.given o = Some t ->
             ModelManager.lookup_given o (<[t := modelId]> m) = Some modelId).
  { intros o t m Hg. pose proof Hg as Hg'.
    apply ManagerFacts.given_Some in Hg' as [-> Hne].
    unfold ModelManager.lookup_given.
    apply ManagerFacts.truthy_Some in Hne. rewrite Hne. simpl.
    apply lookup_insert_eq. }
  assert (Hut : forall t, Spec.user_target options = Some t ->
                          ModelManager.given (opt_userId options) = Some t).
  { unfold Spec.user_target. intros t.
    destruct (scope_includes _ _); [auto | discriminate]. }
  assert (Hrt : forall t, Spec.room_target options = Some t ->
                          ModelManager.given (opt_roomId options) = Some t).
  { unfold Spec.room_target. intros t.
    destruct (scope_includes (Spec.scope_of options) "room"); [auto | discriminate]. }
  unfold Spec.users_after, Spec.rooms_after, Spec.session_after.
  destruct (Spec.user_target options) as [u |] eqn:Hu.
  { rewrite (Hset _ _ _ (Hut u eq_refl)). reflexivity. }
  destruct Hcase as [Hc | [[Hr Hnu] | (Hs & Hnu & Hnr)]]; [congruence | |].
  - rewrite Hnu. destruct (Spec.room_target options) as [r |] eqn:Hrr; [| congruence].
    rewrite (Hset _ _ _ (Hrt r eq_refl)). reflexivity.
  - rewrite Hnu. destruct (Spec.room_target options) as [r |] eqn:Hrr.
    + rewrite (Hset _ _ _ (Hrt r eq_refl)). reflexivity.
    + rewrite Hnr, Hs. reflexivity.
Qed.

Lemma switchModel_read_your_write_witness :
  exists st' r,
    ModelManager.switchModel quiet_env "cc-oaicomp/DeepSeek-V3.2"
      (mkOptions (Some alice) (Some lobby) (Some (ScopeStr "room"))) fresh_manager
    = (st', Ok r)
    /\ ModelManager.getCurrentModel st' (mkContext (Some alice) (Some lobby))
       = "cc-oaicomp/DeepSeek-V3.2".
Proof.
  apply (switchModel_read_your_write quiet_env "cc-oaicomp/DeepSeek-V3.2"
           (mkOptions (Some alice) (Some lobby) (Some (ScopeStr "room"))) fresh_manager).
  - vm_compute. reflexivity.
  - vm_compute. reflexivity.
  - reflexivity.
  - reflexivity.
  - right. left. split; [vm_compute; discriminate | vm_compute; reflexivity].
Defined.

(** A scope that names none of [session], [all], [user], [room] updates
    no tier: the call succeeds and the caller still resolves to the old
    model. The detectors produce such a scope, [global]. *)
Example global_scope_updates_no_tier :
  let run :=
    ModelManager.switchModel quiet_env "cc-oaicomp/DeepSeek-V3.2"
      (mkOptions (Some alice) (Some lobby) (Some (ScopeStr "global"))) fresh_manager in
  snd run = Ok (mkSwitchResult true None "cc-oaicomp/DeepSeek-V3.2")
  /\ ModelManager.currentModel (fst run) = "cc-oaicomp/Kimi-K2.5"
  /\ ModelManager.userPreferences (fst run) = ∅
  /\ ModelManager.roomPreferences (fst run) = ∅
  /\ ModelManager.getCurrentModel (fst run) (mkContext (Some alice) (Some lobby))
     = "cc-oaicomp/Kimi-K2.5".
Proof. vm_compute. repeat split; reflexivity. Qed.

(** C3 as stated fails: a user-scoped switch returns no [previous] at all,
    although the session default before the call was Kimi. *)
Lemma user_scoped_switch_returns_no_previous :
  ModelManager.currentModel fresh_manager = "cc-oaicomp/Kimi-K2.5"
  /\ snd (ModelManager.switchModel quiet_env "cc-oaicomp/DeepSeek-V3.2"
            (mkOptions (Some alice) (Some lobby) (Some (ScopeStr "user")))
            fresh_manager)
     = Ok (mkSwitchResult true None "cc-oaicomp/DeepSeek-V3.2").
Proof. vm_compute. split; reflexivity. Qed.

(** C3, amended. A successful [switchModel] returns [current] equal to the
    switched id; [previous] is the session default from before the call
    when the scope contains [session] or [all], and is [null] otherwise,
    and the session default itself changes in exactly the former case. *)
Theorem switchModel_returns_session_pair env modelId options st st' r :
  ModelManager.switchModel env modelId options st = (st', Ok r) ->
  current r = modelId
  /\ previous r =
       (if Spec.touches_session options then Some (ModelManager.currentModel st)
        else None)
  /\ ModelManager.currentModel st' =
       (if Spec.touches_session options then modelId else ModelManager.currentModel st).
Proof.
  intros H. apply SwitchFacts.switchModel_ok in H as (-> & Hcur & _).
  simpl. repeat split; auto.
Qed.

Lemma switchModel_returns_session_pair_witness :
  current (mkSwitchResult true (Some "cc-oaicomp/Kimi-K2.5") "cc-oaicomp/DeepSeek-V3.2")
  = "cc-oaicomp/DeepSeek-V3.2"
  /\ previous (mkSwitchResult true (Some "cc-oaicomp/Kimi-K2.5") "cc-oaicomp/DeepSeek-V3.2")
     = (if Spec.touches_session (mkOptions (Some alice) (Some lobby) None)
        then Some (ModelManager.currentModel fresh_manager) else None)
  /\ ModelManager.currentModel
       (fst (ModelManager.switchModel quiet_env "cc-oaicomp/DeepSeek-V3.2"
               (mkOptions (Some alice) (Some lobby) None) fresh_manager))
     = (if Spec.touches_session (mkOptions (Some alice) (Some lobby) None)
        then "cc-oaicomp/DeepSeek-V3.2" else ModelManager.currentModel fresh_manager).
Proof.
  apply (switchModel_returns_session_pair quiet_env "cc-oaicomp/DeepSeek-V3.2"
           (mkOptions (Some alice) (Some lobby) None) fresh_manager).
  vm_compute. reflexivity.
Defined.

(** C9. A call that passes both validations and whose preference writes go
    through returns its success result even when the usage insert fails,
    with the session, user and room tiers updated; next to the same call
    with a working usage insert, the result, the in-memory tiers and the
    preference tables are the same, and only the usage row is missing. *)
Theorem usage_failure_is_swallowed env modelId options st :
  ModelManager.validateModelIdFormat modelId = true ->
  ModelManager.isModelAvailable st modelId = true ->
  fail_user_write env = false ->
  fail_room_write env = false ->
  fail_usage_write env = true ->
  exists st',
    ModelManager.switchModel env modelId options st =
      (st', Ok (mkSwitchResult true
                  (if Spec.touches_session options
                   then Some (ModelManager.currentModel st) else None) modelId))
    /\ ModelManager.currentModel st' = Spec.session_after modelId options st
    /\ ModelManager.userPreferences st' = Spec.users_after modelId options st
    /\ ModelManager.roomPreferences st' = Spec.rooms_after modelId options st
    /\ (let run_ok :=
          ModelManager.switchModel (Spec.with_usage_failure false env) modelId options st in
        snd run_ok =
          Ok (mkSwitchResult true
                (if Spec.touches_session options
                 then Some (ModelManager.currentModel st) else None) modelId)
        /\ ModelManager.currentModel st' = ModelManager.currentModel (fst run_ok)
        /\ ModelManager.userPreferences st' = ModelManager.userPreferences (fst run_ok)
        /\ ModelManager.roomPreferences st' = ModelManager.roomPreferences (fst run_ok)
        /\ user_model_preferences <$> ModelManager.db st'
           = user_model_preferences <$> ModelManager.db (fst run_ok)
        /\ room_model_preferences <$> ModelManager.db st'
           = room_model_preferences <$> ModelManager.db (fst run_ok)).
Proof.
  intros Hfmt Hav Hfu Hfr Hft.
  rewrite (SwitchFacts.switchModel_succeeds env modelId options st Hfmt Hav Hfu Hfr).
  rewrite (SwitchFacts.switchModel_succeeds (Spec.with_usage_failure false env)
             modelId options st Hfmt Hav Hfu Hfr).
  eexists. split; [reflexivity |]. simpl. repeat split.
  - destruct (ModelManager.db st) as [d |]; simpl; [| reflexivity].
    unfold Spec.tables_after. rewrite Hft. simpl.
    destruct (Spec.user_target options), (Spec.room_target options); reflexivity.
  - destruct (ModelManager.db st) as [d |]; simpl; [| reflexivity].
    unfold Spec.tables_after. rewrite Hft. simpl.
    destruct (Spec.user_target options), (Spec.room_target options); reflexivity.
Qed.

Lemma usage_failure_is_swallowed_witness :
  exists st',
    ModelManager.switchModel (mkEnv 1000 false false true) "cc-oaicomp/DeepSeek-V3.2"
      (mkOptions (Some alice) (Some lobby) (Some (ScopeArr ["session"; "user"; "room"])))
      fresh_manager
    = (st', Ok (mkSwitchResult true (Some "cc-oaicomp/Kimi-K2.5")
                  "cc-oaicomp/DeepSeek-V3.2"))
    /\ ModelManager.currentModel st' = "cc-oaicomp/DeepSeek-V3.2"
    /\ ModelManager.userPreferences st' !! alice = Some "cc-oaicomp/DeepSeek-V3.2"
    /\ ModelManager.roomPreferences st' !! lobby = Some "cc-oaicomp/DeepSeek-V3.2".
Proof.
  destruct (usage_failure_is_swallowed (mkEnv 1000 false false true)
              "cc-oaicomp/DeepSeek-V3.2"
              (mkOptions (Some alice) (Some lobby)
                 (Some (ScopeArr ["session"; "user"; "room"])))
              fresh_manager)
    as (st' & Hrun & Hcur & Husers & Hrooms & _).
  - vm_compute. reflexivity.
  - vm_compute. reflexivity.
  - reflexivity.
  - reflexivity.
  - reflexivity.
  - exists st'. split; [exact Hrun |]. split; [exact Hcur |].
    rewrite Husers, Hrooms. split; vm_compute; reflexivity.
Defined.

(** C5 as stated fails: [a.b/c] has two tokens over the claimed alphabet,
    and [switchModel] rejects it with [InvalidFormat]. *)
Lemma dotted_provider_is_rejected :
  Spec.claimed_format "a.b/c"
  /\ ModelManager.switchModel quiet_env "a.b/c"
       (mkOptions (Some alice) (Some lobby) None) fresh_manager
     = (fresh_manager, Throw (InvalidFormat "a.b/c")).
Proof.
  split.
  - exists "a.b", "c". repeat split; try reflexivity; discriminate.
  - reflexivity.
Qed.

(** C5, amended. [switchModel] throws [InvalidFormat] exactly on the ids
    that are not [provider/name] with a non-empty provider token over ASCII
    letters, digits, [_] and [-] and a non-empty name token over ASCII
    letters, digits, [.], [_] and [-]. On such an id it throws whatever
    the catalog, the database and the failing statements are, and leaves
    the manager as it was: the check comes before any catalog lookup or
    storage access. [nomodel], [a/b/c] and [a b/c] are all rejected. *)
Theorem switchModel_format_rejection env modelId options st :
  ((exists st' x,
      ModelManager.switchModel env modelId options st = (st', Throw (InvalidFormat x)))
   <-> ~ Spec.accepted_format modelId)
  /\ (~ Spec.accepted_format modelId ->
      ModelManager.switchModel env modelId options st
      = (st, Throw (InvalidFormat modelId)))
  /\ (forall bad, In bad ["nomodel"; "a/b/c"; "a b/c"] ->
      ModelManager.switchModel env bad options st = (st, Throw (InvalidFormat bad))).
Proof.
  assert (Hdec : ModelManager.validateModelIdFormat modelId = true
                 <-> Spec.accepted_format modelId).
  { unfold ModelManager.validateModelIdFormat, ModelManager.model_id_re.
    apply RegexFacts.two_tokens. }
  assert (Hrej : ~ Spec.accepted_format modelId ->
                 ModelManager.switchModel env modelId options st
                 = (st, Throw (InvalidFormat modelId))).
  { intros Hn. apply SwitchFacts.switchModel_invalid.
    destruct (ModelManager.validateModelIdFormat modelId); [| reflexivity].
    exfalso. apply Hn, Hdec. reflexivity. }
  split; [split | split].
  - intros (st' & x & H). apply SwitchFacts.switchModel_throws_format in H.
    rewrite <- Hdec. congruence.
  - intros Hn. exists st, modelId. auto.
  - exact Hrej.
  - intros bad Hbad. apply SwitchFacts.switchModel_invalid.
    simpl in Hbad. destruct Hbad as [<- | [<- | [<- | []]]]; reflexivity.
Qed.

(** ** The two user-preference upserts *)

Module UpsertFacts.
Import ModelManager Spec.

(** [PreferenceStore.saveUserPreference] inserts a row with the given
    model when the user has none, and otherwise adds exactly one to the
    stored usage count and overwrites the model and the timestamps. *)
Lemma saveUserPreference_upsert clock userId modelId d :
  PreferenceStore.getUserPreference userId
    (PreferenceStore.saveUserPreference clock userId modelId d)
  = Some match PreferenceStore.getUserPreference userId d with
         | None => mkUserPrefRow modelId clock 1 clock clock
         | Some old =>
             mkUserPrefRow modelId clock (up_usage_count old + 1)
               (up_created_at old) clock
         end.
Proof.
  unfold PreferenceStore.getUserPreference, PreferenceStore.saveUserPreference.
  simpl. rewrite lookup_insert_eq.
  destruct (user_model_preferences d !! userId); reflexivity.
Qed.

Lemma saveUserPreference_other clock userId modelId d other :
  other <> userId ->
  PreferenceStore.getUserPreference other
    (PreferenceStore.saveUserPreference clock userId modelId d)
  = PreferenceStore.getUserPreference other d.
Proof.
  intros Hne. unfold PreferenceStore.getUserPreference,
    PreferenceStore.saveUserPreference. simpl.
  apply lookup_insert_ne. congruence.
Qed.

(** Two consecutive upserts with the same id: the count grows by one at
    each, and the model stays. *)
Lemma saveUserPreference_twice clock1 clock2 userId modelId d :
  let d1 := PreferenceStore.saveUserPreference clock1 userId modelId d in
  let d2 := PreferenceStore.saveUserPreference clock2 userId modelId d1 in
  usage_count_of userId d1 = Some (default 0%Z (usage_count_of userId d) + 1)%Z
  /\ usage_count_of userId d2 = Some (default 0%Z (usage_count_of userId d) + 2)%Z
  /\ up_model_id <$> PreferenceStore.getUserPreference userId d1 = Some modelId
  /\ up_model_id <$> PreferenceStore.getUserPreference userId d2 = Some modelId.
Proof.
  intros d1 d2. unfold usage_count_of.
  pose proof (saveUserPreference_upsert clock1 userId modelId d) as H1.
  pose proof (saveUserPreference_upsert clock2 userId modelId d1) as H2.
  fold d1 in H1. fold d2 in H2. unfold PreferenceStore.getUserPreference in *.
  rewrite H2, H1. simpl.
  destruct (user_model_preferences d !! userId) as [old |]; simpl;
    repeat split; f_equal; lia.
Qed.

(** The row [switchModel] writes always carries the default count. *)
Lemma replace_user_row_usage_count env userId modelId d :
  usage_count_of userId (replace_user_row env userId modelId d) = Some 0%Z.
Proof.
  unfold usage_count_of, replace_user_row. simpl.
  rewrite lookup_insert_eq. reflexivity.
Qed.

(** So does every successful user-scoped [switchModel] on an open
    database, whatever row the user had before. *)
Lemma switchModel_usage_count env modelId options st userId :
  validateModelIdFormat modelId = true ->
  isModelAvailable st modelId = true ->
  fail_user_write env = false ->
  fail_room_write env = false ->
  user_target options = Some userId ->
  is_Some (db st) ->
  db (fst (switchModel env modelId options st)) ≫= usage_count_of userId = Some 0%Z.
Proof.
  intros Hfmt Hav Hfu Hfr Htarget [d Hd].
  rewrite (SwitchFacts.switchModel_succeeds env modelId options st Hfmt Hav Hfu Hfr).
  simpl. rewrite Hd. simpl. unfold tables_after. rewrite Htarget.
  destruct (room_target options), (fail_usage_write env); simpl;
    apply replace_user_row_usage_count.
Qed.

End UpsertFacts.

(** C4. The upsert inside [switchModel] does not count: after a first and
    after a second user-scoped switch to the same model the stored usage
    count is 0, where [saveUserPreference] on the same table counts 1 and
    then 2; the model id is the same after both calls on either path. *)
Theorem switchModel_upsert_resets_usage_count :
  let options := mkOptions (Some alice) (Some lobby) (Some (ScopeStr "user")) in
  let modelId := "cc-oaicomp/DeepSeek-V3.2" in
  let run1 := ModelManager.switchModel quiet_env modelId options fresh_manager in
  let run2 := ModelManager.switchModel quiet_env modelId options (fst run1) in
  let d1 := PreferenceStore.saveUserPreference 1000 alice modelId empty_database in
  let d2 := PreferenceStore.saveUserPreference 1000 alice modelId d1 in
  snd run1 = Ok (mkSwitchResult true None modelId)
  /\ snd run2 = Ok (mkSwitchResult true None modelId)
  /\ (ModelManager.db (fst run1) ≫= Spec.usage_count_of alice) = Some 0%Z
  /\ (ModelManager.db (fst run2) ≫= Spec.usage_count_of alice) = Some 0%Z
  /\ Spec.usage_count_of alice d1 = Some 1%Z
  /\ Spec.usage_count_of alice d2 = Some 2%Z.
Proof. vm_compute. repeat split; reflexivity. Qed.

(** ** Strings: substrings survive lower-casing *)

Module StringFacts.
Import JsString.

Lemma prefix_toLowerCase (kw s : string) :
  String.prefix kw s = true ->
  String.prefix (toLowerCase kw) (toLowerCase s) = true.
Proof.
  revert s. induction kw as [| c kw IH]; intros s H; simpl.
  { destruct s; reflexivity. }
  destruct s as [| d s]; simpl in *; [discriminate |].
  destruct (ascii_dec c d) as [-> | Hne]; [| discriminate].
  destruct (ascii_dec (lower_ascii d) (lower_ascii d)); [auto | congruence].
Qed.

Lemma includes_toLowerCase (s kw : string) :
  includes s kw = true -> includes (toLowerCase s) (toLowerCase kw) = true.
Proof.
  induction s as [| c s IH]; simpl; intros H.
  - rewrite orb_false_r in *. apply (prefix_toLowerCase kw ""). exact H.
  - apply orb_prop in H as [H | H].
    + apply (prefix_toLowerCase kw (String c s)) in H. simpl in H.
      rewrite H. reflexivity.
    + rewrite (IH H). apply orb_true_r.
Qed.

Lemma existsb_includes (lowerMessage kw : string) (keywords : list string) :
  In kw keywords -> includes lowerMessage kw = true ->
  existsb (includes lowerMessage) keywords = true.
Proof. intros Hin H. apply existsb_exists. exists kw. auto. Qed.

End StringFacts.

(** ** The detectors *)

Module DetectFacts.
Import JsString.

(** Once a model is recorded by the handler's loop, one of the recorded
    keywords occurs in the message. *)
Lemma matchModels_keyword lowerMessage entries matched :
  (fst matched <> None -> existsb (includes lowerMessage) (snd matched) = true) ->
  fst (Handlers.matchModels lowerMessage entries matched) <> None ->
  existsb (includes lowerMessage)
    (snd (Handlers.matchModels lowerMessage entries matched)) = true.
Proof.
  revert matched. induction entries as [| [modelId keywords] rest IH];
    intros matched Hinv; simpl; [exact Hinv |].
  destruct (existsb (includes lowerMessage) keywords) eqn:Hfound; simpl.
  - destruct (negb (String.eqb modelId "")); simpl; [auto |].
    apply IH. simpl. auto.
  - destruct (truthy (fst matched)); [exact Hinv | apply IH; exact Hinv].
Qed.

Lemma handler_scope message st r :
  Handlers.detectModelSwitchIntent message st = Some r ->
  in_scope r =
    if existsb (includes (toLowerCase message)) Handlers.permanentKeywords
    then "user"
    else ModelManager.detectScope (toLowerCase message)
           (JsObject.entries Handlers.scopeKeywords) "session".
Proof.
  unfold Handlers.detectModelSwitchIntent.
  destruct (negb _); [discriminate |].
  destruct (Handlers.matchModels _ _ _) as [matchedId matchedKeywords].
  destruct (ModelManager.given matchedId); [| discriminate].
  intros [= <-]. reflexivity.
Qed.

Lemma manager_scope st message r :
  ModelManager.detectSwitchIntent st message = Some r ->
  si_scope r =
    if existsb (includes (toLowerCase message)) ModelManager.permanentKeywords
    then "user"
    else ModelManager.detectScope (toLowerCase message)
           (JsObject.entries ModelManager.scopeKeywords) "session".
Proof.
  unfold ModelManager.detectSwitchIntent.
  destruct (negb _); [discriminate |].
  destruct (ModelManager.given _); [| discriminate].
  intros [= <-]. reflexivity.
Qed.

Lemma handler_confidence message st r :
  Handlers.detectModelSwitchIntent message st = Some r ->
  in_confidence r = "high".
Proof.
  unfold Handlers.detectModelSwitchIntent.
  destruct (negb _); [discriminate |].
  pose proof (matchModels_keyword (toLowerCase message)
                (JsObject.entries
                   (Handlers.buildModelKeywords (ModelManager.availableModels st)))
                (None, [])) as Hkw.
  destruct (Handlers.matchModels _ _ _) as [matchedId matchedKeywords].
  simpl in Hkw.
  destruct (ModelManager.given matchedId) as [modelId |] eqn:Hid; [| discriminate].
  intros [= <-]. simpl. rewrite Hkw; [reflexivity | congruence |].
  intros ->. discriminate.
Qed.

End DetectFacts.

(** C7. Whenever either detector returns a result for a text that contains
    one of its permanent keywords ([永久], [保存], [偏好] for the handler's
    detector; these and [persistent], [preference] for the manager's), the
    returned scope is [user], whatever scope keywords the text also has. *)
Theorem permanent_keyword_forces_user_scope st message kw scope :
  JsString.includes message kw = true ->
  (In kw Handlers.permanentKeywords
   /\ in_scope <$> Handlers.detectModelSwitchIntent message st = Some scope)
  \/ (In kw ModelManager.permanentKeywords
      /\ si_scope <$> ModelManager.detectSwitchIntent st message = Some scope) ->
  scope = "user".
Proof.
  intros Hinc Hcase.
  apply StringFacts.includes_toLowerCase in Hinc.
  destruct Hcase as [[Hin Hres] | [Hin Hres]].
  - destruct (Handlers.detectModelSwitchIntent message st) as [r |] eqn:Hr;
      [| discriminate].
    injection Hres as <-. rewrite (DetectFacts.handler_scope _ _ _ Hr).
    assert (Hlow : JsString.toLowerCase kw = kw).
    { simpl in Hin. destruct Hin as [<- | [<- | [<- | []]]]; reflexivity. }
    rewrite Hlow in Hinc.
    rewrite (StringFacts.existsb_includes _ _ _ Hin Hinc). reflexivity.
  - destruct (ModelManager.detectSwitchIntent st message) as [r |] eqn:Hr;
      [| discriminate].
    injection Hres as <-. rewrite (DetectFacts.manager_scope _ _ _ Hr).
    assert (Hlow : JsString.toLowerCase kw = kw).
    { simpl in Hin.
      destruct Hin as [<- | [<- | [<- | [<- | [<- | []]]]]]; reflexivity. }
    rewrite Hlow in Hinc.
    rewrite (StringFacts.existsb_includes _ _ _ Hin Hinc). reflexivity.
Qed.

Lemma permanent_keyword_forces_user_scope_witness :
  in_scope <$> Handlers.detectModelSwitchIntent "切换到 deepseek 全局 永久保存" fresh_manager
  = Some "user".
Proof.
  assert (H : exists scope,
             in_scope <$> Handlers.detectModelSwitchIntent
                            "切换到 deepseek 全局 永久保存" fresh_manager
             = Some scope).
  { eexists. vm_compute. reflexivity. }
  destruct H as [scope Hscope]. rewrite Hscope. f_equal.
  apply (permanent_keyword_forces_user_scope fresh_manager
           "切换到 deepseek 全局 永久保存" "永久" scope).
  - vm_compute. reflexivity.
  - left. split; [left; reflexivity | exact Hscope].
Defined.

(** C10. Every result of the handler's detector [detectModelSwitchIntent]
    carries the confidence [high]: the keywords tested for the label are
    those of the matched model, one of which was just found in the text,
    so the [medium] branch is never taken. *)
Theorem handler_confidence_always_high message st r :
  Handlers.detectModelSwitchIntent message st = Some r ->
  in_confidence r = "high".
Proof. apply DetectFacts.handler_confidence. Qed.

Lemma handler_confidence_always_high_witness :
  in_confidence
    (mkIntent "switch_model" "cc-oaicomp/Kimi-K2.5" "session" "high") = "high".
Proof.
  apply (handler_confidence_always_high "用 chat" fresh_manager).
  vm_compute. reflexivity.
Defined.

(** ** Scoring in [detectSwitchIntent] *)

Module ScoreFacts.
Import JsString ModelManager Spec.

Lemma keywordPoints_range modelId keyword :
  (2 <= keywordPoints modelId keyword <= 10)%Z.
Proof.
  unfold keywordPoints.
  destruct (Regex.matches _ _); [lia |].
  destruct (includes _ _); [lia |].
  destruct (bool_decide _); [lia |].
  destruct (array_includes _ _); lia.
Qed.

Lemma sum_points_app modelId l1 l2 :
  sum_points modelId (l1 ++ l2)%list
  = (sum_points modelId l1 + sum_points modelId l2)%Z.
Proof. induction l1 as [| x l1 IH]; simpl; [reflexivity | rewrite IH; lia]. Qed.

Lemma sum_points_nonneg modelId l : (0 <= sum_points modelId l)%Z.
Proof.
  induction l as [| x l IH]; simpl; [lia |].
  pose proof (keywordPoints_range modelId x). lia.
Qed.

Lemma sum_points_pos modelId l : (0 < sum_points modelId l)%Z <-> l <> [].
Proof.
  destruct l as [| x l]; simpl; split; try congruence; try lia.
  intros _. pose proof (keywordPoints_range modelId x).
  pose proof (sum_points_nonneg modelId l). lia.
Qed.

(** The version token taken from a display name is worth 10 points. *)
Lemma version_token_points modelId displayName token :
  Regex.search version_re displayName = Some token ->
  keywordPoints modelId token = 10%Z.
Proof.
  intros H. apply RegexFacts.search_sound in H.
  unfold keywordPoints. rewrite H. reflexivity.
Qed.

(** A keyword equal to the lower-cased name part of the id is worth 6
    points, unless it reads as a version number or holds a slash. *)
Lemma name_part_points modelId keyword :
  namePart modelId = Some keyword ->
  Regex.matches version_re keyword = false ->
  includes keyword "/" = false ->
  keywordPoints modelId keyword = 6%Z.
Proof.
  intros Hname Hver Hslash. unfold keywordPoints.
  rewrite Hver, Hslash, Hname, bool_decide_eq_true_2; reflexivity.
Qed.

(** Each of the nine listed brand words is worth 4 points for a model
    whose name part it is not. *)
Lemma listed_brand_points modelId keyword :
  In keyword brandNames ->
  namePart modelId <> Some keyword ->
  keywordPoints modelId keyword = 4%Z.
Proof.
  intros Hin Hname. unfold keywordPoints.
  rewrite (bool_decide_eq_false_2 (Some keyword = namePart modelId)) by congruence.
  simpl in Hin.
  destruct Hin as [<- | [<- | [<- | [<- | [<- | [<- | [<- | [<- | [<- | []]]]]]]]]];
    reflexivity.
Qed.

(** The five aliases are worth 2 points each for a model whose name part
    they are not. *)
Lemma alias_points modelId alias target :
  In (alias, target) getModelAliases ->
  namePart modelId <> Some (toLowerCase alias) ->
  keywordPoints modelId (toLowerCase alias) = 2%Z.
Proof.
  intros Hin Hname. unfold keywordPoints.
  rewrite (bool_decide_eq_false_2 (Some (toLowerCase alias) = namePart modelId))
    by congruence.
  simpl in Hin.
  destruct Hin as [[= <- <-] | [[= <- <-] | [[= <- <-] | [[= <- <-] | [[= <- <-] | []]]]]];
    reflexivity.
Qed.

(** The inner loop adds the points of the keywords found, in order. *)
Lemma scoreKeywords_spec lowerMessage modelId keywords acc :
  scoreKeywords lowerMessage modelId keywords acc
  = ((fst acc + sum_points modelId (found lowerMessage keywords))%Z,
     (snd acc ++ found lowerMessage keywords)%list).
Proof.
  revert acc. induction keywords as [| kw rest IH]; intros [score matched]; simpl.
  - rewrite Z.add_0_r, app_nil_r. reflexivity.
  - rewrite IH. unfold found. simpl.
    destruct (includes lowerMessage kw); simpl.
    + rewrite <- app_assoc. simpl. f_equal. lia.
    + reflexivity.
Qed.

Lemma modelScore_spec lowerMessage modelId keywords :
  modelScore lowerMessage modelId keywords
  = sum_points modelId (found lowerMessage keywords).
Proof. unfold modelScore. rewrite scoreKeywords_spec. simpl. reflexivity. Qed.

(** The outer loop: either no entry beats the incoming best, or the
    result is the first entry of maximal score among those that do. *)
Lemma scoreModels_spec lowerMessage entries best :
  let best' := scoreModels lowerMessage entries best in
  (bestScore best <= bestScore best')%Z
  /\ (forall j id' kws', entries !! j = Some (id', kws') ->
        (0 < sum_points id' (found lowerMessage kws'))%Z ->
        (sum_points id' (found lowerMessage kws') <= bestScore best')%Z)
  /\ (best' = best
      \/ exists i modelId keywords,
           entries !! i = Some (modelId, keywords)
           /\ best' = mkBest (Some modelId) (found lowerMessage keywords)
                        (sum_points modelId (found lowerMessage keywords))
           /\ (0 < bestScore best')%Z
           /\ (bestScore best < bestScore best')%Z
           /\ (forall j id' kws', (j < i)%nat -> entries !! j = Some (id', kws') ->
                 (sum_points id' (found lowerMessage kws') < bestScore best')%Z)).
Proof.
  revert best. induction entries as [| [modelId keywords] rest IH]; intros best; simpl.
  - split; [lia |]. split; [| left; reflexivity].
    intros j id' kws' Hj. rewrite lookup_nil in Hj. discriminate.
  - rewrite scoreKeywords_spec. simpl fst. simpl snd. cbv zeta.
    rewrite !Z.add_0_l. simpl app.
    set (score := sum_points modelId (found lowerMessage keywords)).
    set (next := if (0 <? score)%Z && (bestScore best <? score)%Z
                 then mkBest (Some modelId) (found lowerMessage keywords) score
                 else best).
    destruct (IH next) as (Hmono & Hmax & Hwin).
    set (best' := scoreModels lowerMessage rest next) in *.
    assert (Hnext : (bestScore best <= bestScore next)%Z
                    /\ ((0 < score)%Z -> (score <= bestScore next)%Z)).
    { unfold next.
      destruct (Z.ltb_spec 0 score), (Z.ltb_spec (bestScore best) score);
        simpl; lia. }
    destruct Hnext as [Hle Hscore].
    split; [lia |]. split.
    + intros [| j] id' kws' Hj Hpos; simpl in Hj.
      * injection Hj as <- <-. fold score in Hpos |- *. specialize (Hscore Hpos). lia.
      * eapply Hmax; eauto.
    + destruct Hwin as [Hsame | (i & wid & wkws & Hi & Hbest & Hpos & Hlt & Hbefore)].
      * unfold next in Hsame.
        destruct (Z.ltb_spec 0 score), (Z.ltb_spec (bestScore best) score);
          simpl in Hsame; auto.
        right. exists 0%nat, modelId, keywords. simpl.
        split; [reflexivity |]. split; [exact Hsame |].
        rewrite Hsame. simpl. fold score.
        repeat split; lia.
      * right. exists (S i), wid, wkws. simpl.
        split; [exact Hi |]. split; [exact Hbest |].
        split; [exact Hpos |]. split; [lia |].
        intros [| j] id' kws' Hj Hlook; simpl in Hlook.
        -- injection Hlook as <- <-. fold score.
           destruct (Z.ltb_spec 0 score); [specialize (Hscore ltac:(lia)) |]; lia.
        -- apply (Hbefore j); [lia | exact Hlook].
Qed.

(** Started from the initial best of [detectSwitchIntent]. *)
Lemma scoreModels_initial lowerMessage entries :
  let best' := scoreModels lowerMessage entries (mkBest None [] (-1)) in
  (best' = mkBest None [] (-1)
   /\ forall j id' kws', entries !! j = Some (id', kws') ->
        found lowerMessage kws' = [])
  \/ exists i modelId keywords,
       entries !! i = Some (modelId, keywords)
       /\ best' = mkBest (Some modelId) (found lowerMessage keywords)
                    (sum_points modelId (found lowerMessage keywords))
       /\ first_maximum lowerMessage entries i.
Proof.
  intros best'.
  destruct (scoreModels_spec lowerMessage entries (mkBest None [] (-1)))
    as (_ & Hmax & Hwin). fold best' in Hmax, Hwin.
  destruct Hwin as [Hsame | (i & wid & wkws & Hi & Hbest & Hpos & _ & Hbefore)].
  - left. split; [exact Hsame |]. intros j id' kws' Hj.
    destruct (found lowerMessage kws') as [| x l] eqn:Hf; [reflexivity |].
    exfalso. specialize (Hmax j id' kws' Hj). rewrite Hf, Hsame in Hmax.
    assert (0 < sum_points id' (x :: l))%Z by (apply sum_points_pos; discriminate).
    simpl in Hmax. specialize (Hmax ltac:(assumption)). simpl in *. lia.
  - right. exists i, wid, wkws. split; [exact Hi |]. split; [exact Hbest |].
    exists wid, wkws. split; [exact Hi |]. rewrite Hbest in Hpos, Hmax, Hbefore.
    simpl in *. split; [exact Hpos |]. split; [| exact Hbefore].
    intros j id' kws' Hj.
    destruct (Z.ltb_spec 0 (sum_points id' (found lowerMessage kws'))).
    + eapply Hmax; eauto.
    + lia.
Qed.

End ScoreFacts.

Module ManagerDetectFacts.
Import JsString ModelManager Spec.

(** A result of [detectSwitchIntent] names the first entry of maximal
    positive score, lists the keywords found for it, and labels the score
    by the two thresholds. *)
Lemma detectSwitchIntent_winner st message r :
  detectSwitchIntent st message = Some r ->
  let lowerMessage := toLowerCase message in
  let entries := JsObject.entries (buildModelKeywords (availableModels st)) in
  exists i keywords,
    entries !! i = Some (si_modelId r, keywords)
    /\ first_maximum lowerMessage entries i
    /\ si_matchedKeywords r = found lowerMessage keywords
    /\ si_confidence r
       = confidence_of (sum_points (si_modelId r) (found lowerMessage keywords)).
Proof.
  intros H lowerMessage entries. unfold detectSwitchIntent in H.
  fold lowerMessage entries in H.
  destruct (negb (existsb (includes lowerMessage) switchKeywords)); [discriminate |].
  destruct (ScoreFacts.scoreModels_initial lowerMessage entries)
    as [[Hnone _] | (i & wid & wkws & Hi & Hbest & Hfirst)].
  - rewrite Hnone in H. discriminate.
  - rewrite Hbest in H. cbn [matchedModelId bestScore matchedModelKeywords] in H.
    destruct (given (Some wid)) as [modelId |] eqn:Hgiven; [| discriminate].
    apply ManagerFacts.given_Some in Hgiven as [[= <-] _].
    injection H as <-. simpl. exists i, wkws. auto.
Qed.

(** No switch keyword, or no keyword of any model in the text: [null]. *)
Lemma detectSwitchIntent_nothing_found st message :
  let lowerMessage := toLowerCase message in
  let entries := JsObject.entries (buildModelKeywords (availableModels st)) in
  existsb (includes lowerMessage) switchKeywords = false
  \/ (forall j id' kws', entries !! j = Some (id', kws') ->
        sum_points id' (found lowerMessage kws') = 0%Z) ->
  detectSwitchIntent st message = None.
Proof.
  intros lowerMessage entries [Hkw | Hzero]; unfold detectSwitchIntent;
    fold lowerMessage entries; [rewrite Hkw; reflexivity |].
  destruct (negb (existsb (includes lowerMessage) switchKeywords)); [reflexivity |].
  destruct (ScoreFacts.scoreModels_initial lowerMessage entries)
    as [[Hnone _] | (i & wid & wkws & Hi & Hbest & Hfirst)].
  - rewrite Hnone. reflexivity.
  - destruct Hfirst as (wid' & wkws' & Hi' & Hpos & _).
    rewrite (Hzero i wid' wkws' Hi') in Hpos. simpl in Hpos. lia.
Qed.

Lemma confidence_of_thresholds score :
  (confidence_of score = "high" <-> (10 <= score)%Z)
  /\ (confidence_of score = "medium" <-> (5 <= score < 10)%Z)
  /\ (confidence_of score = "low" <-> (score < 5)%Z).
Proof.
  unfold confidence_of.
  destruct (Z.leb_spec 10 score), (Z.leb_spec 5 score);
    repeat split; intros; try discriminate; try lia; reflexivity.
Qed.

End ManagerDetectFacts.

(** A message that matches only the brand word shared by two models goes
    to the first one registered, with a score of 4 and the label [low]. *)
Example shared_brand_resolves_to_first :
  let catalog :=
    [ mkModel "cc-oaicomp/DeepSeek-V3.2" "DeepSeek V3.2" "cc-oaicomp"
        128000 8000 false ["text"] ["text"];
      mkModel "cc-other/DeepSeek-R1" "DeepSeek R1" "cc-other"
        128000 8000 true ["text"] ["text"] ] in
  ModelManager.detectSwitchIntent (ModelManager.initialize catalog None) "use deepseek"
  = Some (mkSwitchIntent "switch_model" "cc-oaicomp/DeepSeek-V3.2" "session" "low"
            ["deepseek"]).
Proof. vm_compute. reflexivity. Qed.

(** C6 as stated fails for the manager's detector: on the default catalog
    the only keyword of the DeepSeek model found in the text is the brand
    word [deepseek], worth 4 points, and the label is [low]. *)
Lemma manager_detector_labels_deepseek_low :
  ModelManager.availableModels fresh_manager = getDefaultModels
  /\ si_confidence <$> ModelManager.detectSwitchIntent fresh_manager
                         "切换到 deepseek 永久保存"
     = Some "low"
  /\ si_confidence <$> ModelManager.detectSwitchIntent fresh_manager
                         "切换到 deepseek 永久保存"
     <> Some "high".
Proof. vm_compute. repeat split; try reflexivity. discriminate. Qed.

(** C6, amended. On the default catalog, for the text
    [切换到 deepseek 永久保存], both detectors return a result for the
    DeepSeek model with scope [user]; the handler's detector labels it
    [high], the manager's detector labels it [low]. *)
Theorem deepseek_permanent_intent :
  ModelManager.availableModels fresh_manager = getDefaultModels
  /\ Handlers.detectModelSwitchIntent "切换到 deepseek 永久保存" fresh_manager
     = Some (mkIntent "switch_model" "cc-oaicomp/DeepSeek-V3.2" "user" "high")
  /\ ModelManager.detectSwitchIntent fresh_manager "切换到 deepseek 永久保存"
     = Some (mkSwitchIntent "switch_model" "cc-oaicomp/DeepSeek-V3.2" "user" "low"
               ["deepseek"]).
Proof. vm_compute. repeat split; reflexivity. Qed.

(** C8. The brand synonym [anthropic] is scored 2, not 4. On the default
    catalog, for the text [use anthropic fast], the Claude model matches
    only [anthropic], which its keyword list holds as a brand keyword, and
    the DeepSeek model matches only its alias [fast]; both score 2, and the
    tie goes to DeepSeek, registered earlier. *)
Theorem anthropic_scores_as_alias :
  let lowerMessage := JsString.toLowerCase "use anthropic fast" in
  let modelKeywords := ModelManager.buildModelKeywords getDefaultModels in
  let claude := "cc-claude/claude-3.5-sonnet" in
  let deepseek := "cc-oaicomp/DeepSeek-V3.2" in
  let keywordsOf modelId := default [] (JsObject.get modelKeywords modelId) in
  In "anthropic" (ModelManager.brandKeywords "claude 3.5 sonnet")
  /\ Spec.found lowerMessage (keywordsOf claude) = ["anthropic"]
  /\ ModelManager.modelScore lowerMessage claude (keywordsOf claude) = 2%Z
  /\ Spec.found lowerMessage (keywordsOf deepseek) = ["fast"]
  /\ ModelManager.modelScore lowerMessage deepseek (keywordsOf deepseek) = 2%Z
  /\ ModelManager.detectSwitchIntent fresh_manager "use anthropic fast"
     = Some (mkSwitchIntent "switch_model" deepseek "session" "low" ["fast"]).
Proof. vm_compute. repeat split; try reflexivity. right. left. reflexivity. Qed.

(** * Further properties of the code *)

(** ** More on strings: splitting and joining *)

Module SplitFacts.
Import JsString MoreSpec.
#[local] Arguments String.append : simpl nomatch.

Lemma split_nonempty sep s : split sep s <> [].
Proof.
  destruct s as [| c s]; simpl; [discriminate |].
  destruct (Ascii.eqb c sep); [discriminate |].
  destruct (split sep s); discriminate.
Qed.

(** Joining the pieces with the separator gives the string back. *)
Lemma join_split sep s : join (String sep "") (split sep s) = s.
Proof.
  induction s as [| c s IH]; simpl; [reflexivity |].
  destruct (Ascii.eqb_spec c sep) as [-> | Hne].
  - pose proof (split_nonempty sep s) as Hs.
    destruct (split sep s) as [| h t] eqn:Hsplit; [congruence |].
    simpl in *. rewrite IH. reflexivity.
  - pose proof (split_nonempty sep s) as Hs.
    destruct (split sep s) as [| h t] eqn:Hsplit; [congruence |].
    destruct t as [| h' t']; simpl in *; rewrite <- IH; reflexivity.
Qed.

(** No piece holds the separator. *)
Lemma split_lacks sep s : Forall (fun part => lacks sep part = true) (split sep s).
Proof.
  induction s as [| c s IH]; simpl.
  - constructor; [reflexivity | constructor].
  - destruct (Ascii.eqb_spec c sep) as [-> | Hne].
    + constructor; [reflexivity | exact IH].
    + pose proof (split_nonempty sep s) as Hs.
      destruct (split sep s) as [| h t]; [congruence |].
      inversion IH as [| ? ? Hh Ht]; subst. constructor; [| exact Ht].
      unfold lacks. simpl. destruct (Ascii.eqb_spec c sep); [congruence |].
      exact Hh.
Qed.

(** A string without the separator is its own single piece. *)
Lemma split_lacking sep s : lacks sep s = true -> split sep s = [s].
Proof.
  induction s as [| c s IH]; simpl; [reflexivity |].
  unfold lacks. simpl. destruct (Ascii.eqb c sep); simpl; [discriminate |].
  intros H. rewrite (IH H). reflexivity.
Qed.

(** The first piece ends at the first separator. *)
Lemma split_app sep a b :
  lacks sep a = true -> split sep (a +:+ String sep b) = a :: split sep b.
Proof.
  induction a as [| c a IH]; simpl.
  - intros _. rewrite Ascii.eqb_refl. reflexivity.
  - unfold lacks. simpl. destruct (Ascii.eqb c sep); simpl; [discriminate |].
    intros H. rewrite (IH H). reflexivity.
Qed.

Lemma prefix_char c s :
  String.prefix (String c "") s = match s with
                                  | String d _ => Ascii.eqb d c
                                  | EmptyString => false
                                  end.
Proof.
  destruct s as [| d s]; simpl; [reflexivity |].
  destruct (ascii_dec c d) as [-> | Hne].
  - rewrite Ascii.eqb_refl. destruct s; reflexivity.
  - destruct (Ascii.eqb_spec d c); congruence.
Qed.

(** [s.includes(c)] for a one-character [c]. *)
Lemma includes_char c s : includes s (String c "") = negb (lacks c s).
Proof.
  induction s as [| d s IH].
  - reflexivity.
  - cbn [includes]. rewrite prefix_char, IH. unfold lacks. simpl.
    destruct (Ascii.eqb d c); reflexivity.
Qed.

Lemma lacks_app c a b : lacks c (a +:+ b) = lacks c a && lacks c b.
Proof.
  unfold lacks. induction a as [| d a IH]; simpl; [reflexivity |].
  rewrite IH. apply andb_assoc.
Qed.

Lemma forall_chars_impl (p q : ascii -> bool) s :
  (forall c, p c = true -> q c = true) ->
  forall_chars p s = true -> forall_chars q s = true.
Proof.
  intros Hpq. induction s as [| c s IH]; simpl; [reflexivity |].
  intros H. apply andb_prop in H as [Hc Hs]. rewrite (Hpq c Hc), (IH Hs). reflexivity.
Qed.

Lemma lower_ascii_idempotent c : lower_ascii (lower_ascii c) = lower_ascii c.
Proof. destruct c as [[] [] [] [] [] [] [] []]; reflexivity. Qed.

Lemma toLowerCase_idempotent s : toLowerCase (toLowerCase s) = toLowerCase s.
Proof.
  induction s as [| c s IH]; simpl; [reflexivity |].
  rewrite lower_ascii_idempotent, IH. reflexivity.
Qed.

Lemma toLowerCase_app a b : toLowerCase (a +:+ b) = toLowerCase a +:+ toLowerCase b.
Proof. induction a as [| c a IH]; simpl; [reflexivity | rewrite IH; reflexivity]. Qed.

Lemma prefix_refl s : String.prefix s s = true.
Proof.
  induction s as [| c s IH]; simpl; [reflexivity |].
  destruct (ascii_dec c c); [exact IH | congruence].
Qed.

Lemma includes_refl s : includes s s = true.
Proof. destruct s; cbn [includes]; rewrite prefix_refl; reflexivity. Qed.

End SplitFacts.

(** ** The catalog accessors *)

Module AccessorFacts.
Import JsString ModelManager Spec MoreSpec SplitFacts.
#[local] Arguments String.append : simpl nomatch.

Lemma provider_char_not_slash c : provider_char c = true -> negb (Ascii.eqb c "/") = true.
Proof. destruct c as [[] [] [] [] [] [] [] []]; vm_compute; congruence. Qed.

Lemma name_char_not_slash c : name_char c = true -> negb (Ascii.eqb c "/") = true.
Proof. destruct c as [[] [] [] [] [] [] [] []]; vm_compute; congruence. Qed.

(** A well-formed id splits at its only slash. *)
Lemma valid_id_split modelId :
  validateModelIdFormat modelId = true ->
  exists provider name,
    modelId = provider +:+ String "/" name
    /\ split "/" modelId = [provider; name]
    /\ provider <> "" /\ forall_chars provider_char provider = true
    /\ name <> "" /\ forall_chars name_char name = true.
Proof.
  intros H. apply RegexFacts.two_tokens in H as (a & b & -> & Ha & Hac & Hb & Hbc).
  exists a, b. repeat split; auto.
  rewrite split_app, split_lacking; [reflexivity | |].
  - eapply forall_chars_impl; [apply name_char_not_slash | exact Hbc].
  - eapply forall_chars_impl; [apply provider_char_not_slash | exact Hac].
Qed.

Lemma valid_id_has_slash modelId :
  validateModelIdFormat modelId = true -> includes modelId "/" = true.
Proof.
  intros H. apply valid_id_split in H as (a & b & -> & _).
  rewrite includes_char, lacks_app. unfold lacks at 2. simpl.
  rewrite andb_false_r. reflexivity.
Qed.

(** Whatever the input, [getApiModelId] returns a string without a slash. *)
Lemma api_id_no_slash fullModelId :
  includes (getApiModelId fullModelId) "/" = false.
Proof.
  unfold getApiModelId.
  destruct (includes fullModelId "/") eqn:Hinc; simpl; [| exact Hinc].
  pose proof (split_lacks "/" fullModelId) as Hparts.
  destruct (split "/" fullModelId) as [| h [| h2 t]] eqn:Hsplit; simpl.
  - exfalso. eapply split_nonempty; eauto.
  - exfalso. pose proof (join_split "/" fullModelId) as Hjoin.
    rewrite Hsplit in Hjoin. simpl in Hjoin. subst h.
    inversion Hparts as [| ? ? Hh _]; subst.
    rewrite includes_char, Hh in Hinc. discriminate.
  - inversion Hparts as [| ? ? _ Ht]; subst. inversion Ht as [| ? ? Hh2 _]; subst.
    rewrite includes_char, Hh2. reflexivity.
Qed.

(** On a well-formed id, [getApiModelId] returns the name token: the id
    is the provider token, a slash and the returned name, and the model
    name the keyword builder derives is the returned name in lower case. *)
Lemma api_id_of_valid_id modelId :
  validateModelIdFormat modelId = true ->
  exists provider,
    modelId = provider +:+ "/" +:+ getApiModelId modelId
    /\ provider <> ""
    /\ forall_chars provider_char provider = true
    /\ getApiModelId modelId <> ""
    /\ forall_chars name_char (getApiModelId modelId) = true
    /\ namePart modelId = Some (toLowerCase (getApiModelId modelId)).
Proof.
  intros H. pose proof (valid_id_has_slash modelId H) as Hinc.
  apply valid_id_split in H as (a & b & Heq & Hsplit & Ha & Hac & Hb & Hbc).
  assert (Hapi : getApiModelId modelId = b).
  { unfold getApiModelId. rewrite Hinc, Hsplit. reflexivity. }
  exists a. rewrite Hapi. unfold namePart. rewrite Hsplit. simpl. auto 10.
Qed.

Lemma find_id_Some models modelId m :
  List.find (fun x => String.eqb (model_id x) modelId) models = Some m ->
  model_id m = modelId /\ In m models.
Proof.
  intros H. apply find_some in H as [Hin Heq].
  apply String.eqb_eq in Heq. auto.
Qed.

Lemma find_id_None models modelId :
  List.find (fun x => String.eqb (model_id x) modelId) models = None <->
  existsb (fun x => String.eqb (model_id x) modelId) models = false.
Proof.
  induction models as [| x l IH]; simpl; [tauto |].
  destruct (String.eqb (model_id x) modelId); simpl; [split; discriminate | exact IH].
Qed.

(** [getModelConfig] finds an entry exactly for the ids [isModelAvailable]
    accepts, and the entry it returns is a catalog model with that id. *)
Lemma config_available st modelId :
  (getModelConfig st modelId = None <-> isModelAvailable st modelId = false)
  /\ (forall m, getModelConfig st modelId = Some m ->
        model_id m = modelId /\ In m (availableModels st)).
Proof.
  unfold getModelConfig, isModelAvailable. split.
  - apply find_id_None.
  - intros m. apply find_id_Some.
Qed.

End AccessorFacts.

(** X1. Whatever the input, [getApiModelId] returns a string without a
    slash; and on a well-formed id it returns the name token: the id is the
    provider token, a slash and the returned name, and the model name the
    keyword builder derives is the returned name in lower case. *)
Theorem getApiModelId_returns_name_token modelId :
  JsString.includes (ModelManager.getApiModelId modelId) "/" = false
  /\ (ModelManager.validateModelIdFormat modelId = true ->
      exists provider,
        modelId = provider +:+ "/" +:+ ModelManager.getApiModelId modelId
        /\ provider <> ""
        /\ JsString.forall_chars ModelManager.provider_char provider = true
        /\ ModelManager.getApiModelId modelId <> ""
        /\ JsString.forall_chars ModelManager.name_char
             (ModelManager.getApiModelId modelId) = true
        /\ ModelManager.namePart modelId
           = Some (JsString.toLowerCase (ModelManager.getApiModelId modelId))).
Proof.
  split.
  - apply AccessorFacts.api_id_no_slash.
  - apply AccessorFacts.api_id_of_valid_id.
Qed.

Lemma getApiModelId_returns_name_token_witness :
  exists provider,
    "cc-oaicomp/Kimi-K2.5"
    = provider +:+ "/" +:+ ModelManager.getApiModelId "cc-oaicomp/Kimi-K2.5"
    /\ provider <> ""
    /\ JsString.forall_chars ModelManager.provider_char provider = true
    /\ ModelManager.getApiModelId "cc-oaicomp/Kimi-K2.5" <> ""
    /\ JsString.forall_chars ModelManager.name_char
         (ModelManager.getApiModelId "cc-oaicomp/Kimi-K2.5") = true
    /\ ModelManager.namePart "cc-oaicomp/Kimi-K2.5"
       = Some (JsString.toLowerCase (ModelManager.getApiModelId "cc-oaicomp/Kimi-K2.5")).
Proof.
  apply (proj2 (getApiModelId_returns_name_token "cc-oaicomp/Kimi-K2.5")).
  reflexivity.
Defined.

(** X2. [resolveModelId] leaves every well-formed id as it is, and what it
    resolves to is never resolved further. *)
Theorem resolveModelId_fixes_ids x :
  (ModelManager.validateModelIdFormat x = true ->
   ModelManager.resolveModelId x = ModelManager.ResolvedId x)
  /\ (forall y, ModelManager.resolveModelId x = ModelManager.ResolvedId y ->
        ModelManager.resolveModelId y = ModelManager.ResolvedId y).
Proof.
  assert (Hvalid : forall z, JsString.includes z "/" = true ->
                             ModelManager.resolveModelId z = ModelManager.ResolvedId z).
  { intros z Hz. unfold ModelManager.resolveModelId.
    assert (Hne : forall k, JsString.includes k "/" = false -> String.eqb k z = false).
    { intros k Hk. destruct (String.eqb_spec k z); [congruence | reflexivity]. }
    assert (Hne' : forall k, JsString.includes k "/" = false -> String.eqb z k = false).
    { intros k Hk. destruct (String.eqb_spec z k); [congruence | reflexivity]. }
    cbv [JsObject.get getModelAliases]. rewrite !Hne by reflexivity.
    cbv [JsString.array_includes ModelManager.objectPrototypeMembers existsb].
    rewrite !Hne' by reflexivity. reflexivity. }
  split.
  - intros H. apply Hvalid, AccessorFacts.valid_id_has_slash, H.
  - intros y. unfold ModelManager.resolveModelId at 1.
    cbv [JsObject.get getModelAliases].
    repeat (match goal with
            | |- context [String.eqb ?k x] => destruct (String.eqb_spec k x)
            end; [subst x; vm_compute; intros [= <-]; reflexivity |]).
    destruct (JsString.array_includes ModelManager.objectPrototypeMembers x) eqn:Hinh;
      [discriminate |].
    intros [= <-]. unfold ModelManager.resolveModelId.
    cbv [JsObject.get getModelAliases].
    repeat match goal with
           | |- context [String.eqb ?k x] =>
               destruct (String.eqb_spec k x); [congruence |]
           end.
    rewrite Hinh. reflexivity.
Qed.

Lemma resolveModelId_fixes_ids_witness :
  ModelManager.resolveModelId "cc-openai/gpt-5.3-codex"
  = ModelManager.ResolvedId "cc-openai/gpt-5.3-codex"
  /\ ModelManager.resolveModelId "cc-oaicomp/DeepSeek-V3.2"
     = ModelManager.ResolvedId "cc-oaicomp/DeepSeek-V3.2".
Proof.
  split.
  - apply (proj1 (resolveModelId_fixes_ids "cc-openai/gpt-5.3-codex")). reflexivity.
  - apply (proj2 (resolveModelId_fixes_ids "fast")). reflexivity.
Defined.

(** X3. The filter of [getAvailableModels] keeps the catalog order; on
    plain text (ASCII and CJK characters, where the lower-casing is that
    of JavaScript) it ignores the case of the filter text, and returns
    every model whose id, name or provider holds the filter text in any
    case. *)
Theorem getAvailableModels_filter st f :
  f <> "" ->
  sublist (ModelManager.getAvailableModels st (Some f)) (ModelManager.availableModels st)
  /\ (MoreSpec.plain f = true ->
      (forall g, MoreSpec.plain g = true ->
         JsString.toLowerCase g = JsString.toLowerCase f ->
         ModelManager.getAvailableModels st (Some g)
         = ModelManager.getAvailableModels st (Some f))
      /\ (forall m, In m (ModelManager.availableModels st) ->
            (MoreSpec.plain (model_id m) = true
             /\ JsString.includes (model_id m) f = true)
            \/ (MoreSpec.plain (model_name m) = true
                /\ JsString.includes (model_name m) f = true)
            \/ (MoreSpec.plain (model_provider m) = true
                /\ JsString.includes (model_provider m) f = true) ->
            In m (ModelManager.getAvailableModels st (Some f)))).
Proof.
  intros Hf.
  assert (Hgiven : forall g, JsString.toLowerCase g = JsString.toLowerCase f ->
                             ModelManager.given (Some g) = Some g).
  { intros g Hg. apply ManagerFacts.given_Some. split; [reflexivity |].
    intros ->. destruct f; [congruence | discriminate]. }
  unfold ModelManager.getAvailableModels. rewrite (Hgiven f eq_refl).
  split; [| intros _; split].
  - induction (ModelManager.availableModels st) as [| x l IH]; simpl; [constructor |].
    destruct (_ || _); [apply sublist_skip | apply sublist_cons]; exact IH.
  - intros g _ Hg. rewrite (Hgiven g Hg), Hg. reflexivity.
  - intros m Hin Hmatch. apply filter_In. split; [exact Hin |].
    destruct Hmatch as [[_ H] | [[_ H] | [_ H]]];
      apply StringFacts.includes_toLowerCase in H;
      rewrite H; rewrite ?orb_true_r; reflexivity.
Qed.

Lemma getAvailableModels_filter_witness :
  In (mkModel "cc-openai/gpt-5.3-codex" "GPT 5.3 Codex" "cc-openai"
        272000 128000 false ["text"; "image"] ["text"])
     (ModelManager.getAvailableModels fresh_manager (Some "Codex")).
Proof.
  apply (proj2 (proj2 (getAvailableModels_filter fresh_manager "Codex"
                         ltac:(discriminate)) eq_refl)).
  - vm_compute. tauto.
  - right. left. split; reflexivity.
Defined.

(** ** [switchModel]: failures, isolation, and what it leaves alone *)

Module SwitchMoreFacts.
Import JsString StateExn ModelManager Spec MoreSpec SwitchFacts.

(** A well-formed id that is not in the catalog: [ModelUnavailable], and
    nothing else happens. *)
Lemma switchModel_unavailable env modelId options st :
  validateModelIdFormat modelId = true ->
  isModelAvailable st modelId = false ->
  switchModel env modelId options st = (st, Throw (ModelUnavailable modelId)).
Proof.
  intros Hfmt Hav. unfold switchModel, bind, gets, throw. rewrite Hfmt. simpl.
  rewrite Hav. reflexivity.
Qed.

Lemma switchModel_throws_unavailable env modelId options st st' x :
  switchModel env modelId options st = (st', Throw (ModelUnavailable x)) ->
  validateModelIdFormat modelId = true /\ isModelAvailable st modelId = false.
Proof.
  switch_cases env modelId options st; intros H; try discriminate; auto.
Qed.

(** What any call, returning or throwing, can have done to the manager. *)
Lemma switchModel_footprint env modelId options st st' out :
  switchModel env modelId options st = (st', out) ->
  (currentModel st' = currentModel st
   \/ (touches_session options = true /\ currentModel st' = modelId))
  /\ (userPreferences st' = userPreferences st
      \/ exists u, user_target options = Some u
                   /\ userPreferences st' = <[u := modelId]> (userPreferences st))
  /\ (roomPreferences st' = roomPreferences st
      \/ exists r, room_target options = Some r
                   /\ roomPreferences st' = <[r := modelId]> (roomPreferences st))
  /\ availableModels st' = availableModels st
  /\ (db st' = None <-> db st = None)
  /\ (model_switch_history <$> db st') = (model_switch_history <$> db st)
  /\ (forall d d', db st = Some d -> db st' = Some d' ->
        exists added, model_usage_stats d' = (model_usage_stats d ++ added)%list
                      /\ (List.length added <= 1)%nat)
  /\ (forall d d' u, db st = Some d -> db st' = Some d' ->
        user_target options <> Some u ->
        user_model_preferences d' !! u = user_model_preferences d !! u)
  /\ (forall d d' r, db st = Some d -> db st' = Some d' ->
        room_target options <> Some r ->
        room_model_preferences d' !! r = room_model_preferences d !! r).
Proof.
  switch_cases env modelId options st; intros H; injection H as <- <-; simpl.
  all: repeat match goal with |- _ /\ _ => split end.
  all: try reflexivity.
  all: try (left; reflexivity).
  all: try (right; eauto; fail).
  all: try (split; intros; congruence).
  all: try (intros; congruence).
  all: intros; rewrite ?Hd in *; simplify_eq; simpl.
  all: try reflexivity.
  all: try (rewrite lookup_insert_ne by congruence; reflexivity).
  all: first [ exists []; rewrite app_nil_r; split; [reflexivity | simpl; lia]
             | eexists [_]; split; [reflexivity | simpl; lia] ].
Qed.

(** Success needs only that the preference writes which are reached do
    not fail; without a database none is reached. *)
Lemma switchModel_succeeds_when env modelId options st :
  validateModelIdFormat modelId = true ->
  isModelAvailable st modelId = true ->
  db st = None
  \/ ((user_target options = None \/ fail_user_write env = false)
      /\ (room_target options = None \/ fail_room_write env = false)) ->
  switchModel env modelId options st =
    (mk (session_after modelId options st) (users_after modelId options st)
        (rooms_after modelId options st) (availableModels st)
        (tables_after env modelId options <$> db st),
     Ok (mkSwitchResult true
           (if touches_session options then Some (currentModel st) else None)
           modelId)).
Proof.
  intros Hfmt' Hav' Hcase. revert Hfmt' Hav' Hcase.
  switch_cases env modelId options st; intros Hfmt' Hav' Hcase; try discriminate.
  all: try (destruct st; simpl in *; subst; reflexivity).
  all: exfalso; destruct Hcase as [Hc | [[Hc | Hc] [Hc' | Hc']]]; congruence.
Qed.

(** A failing user write: the call throws after the session default and
    the in-memory user preference were set; the tables and the room tier
    are as before. *)
Lemma switchModel_user_write_fails env modelId options st d u :
  validateModelIdFormat modelId = true ->
  isModelAvailable st modelId = true ->
  db st = Some d ->
  user_target options = Some u ->
  fail_user_write env = true ->
  switchModel env modelId options st =
    (mk (session_after modelId options st) (<[u := modelId]> (userPreferences st))
        (roomPreferences st) (availableModels st) (Some d),
     Throw StorageError).
Proof.
  intros Hfmt' Hav' Hd' Hu' Hfu'. revert Hfmt' Hav' Hd' Hu' Hfu'.
  switch_cases env modelId options st; intros Hfmt' Hav' Hd' Hu' Hfu';
    try discriminate.
  all: injection Hd' as <-; injection Hu' as <-.
  all: destruct st; simpl in *; subst; reflexivity.
Qed.

(** Every preference row after a call was there before, or names the
    model of the call, which the catalog has. *)
Lemma switchModel_rows env modelId options st st' out d d' :
  switchModel env modelId options st = (st', out) ->
  db st = Some d -> db st' = Some d' ->
  (forall u row, user_model_preferences d' !! u = Some row ->
     user_model_preferences d !! u = Some row
     \/ (up_model_id row = modelId /\ isModelAvailable st modelId = true))
  /\ (forall r row, room_model_preferences d' !! r = Some row ->
       room_model_preferences d !! r = Some row
       \/ (rp_model_id row = modelId /\ isModelAvailable st modelId = true)).
Proof.
  intros H Hd0 Hd1. revert H Hd0 Hd1.
  switch_cases env modelId options st; intros H Hd0 Hd1; injection H as <- <-;
    simpl in *; simplify_eq; simpl.
  all: split; intros k row Hrow; auto.
  all: first
         [ destruct (decide (tgt_u = k)) as [<- | Hne];
           [ rewrite lookup_insert_eq in Hrow; injection Hrow as <-; auto
           | rewrite lookup_insert_ne in Hrow by auto; auto ]
         | destruct (decide (tgt_r = k)) as [<- | Hne];
           [ rewrite lookup_insert_eq in Hrow; injection Hrow as <-; auto
           | rewrite lookup_insert_ne in Hrow by auto; auto ] ].
Qed.

End SwitchMoreFacts.

(** X4. [switchModel] throws [ModelUnavailable] exactly on the well-formed
    ids for which [getModelConfig] has no entry, and then the manager,
    tables included, is as before. *)
Theorem switchModel_unavailable_exactly env modelId options st :
  ((exists st' x,
      ModelManager.switchModel env modelId options st
      = (st', Throw (ModelUnavailable x)))
   <-> ModelManager.validateModelIdFormat modelId = true
       /\ ModelManager.getModelConfig st modelId = None)
  /\ (ModelManager.validateModelIdFormat modelId = true ->
      ModelManager.getModelConfig st modelId = None ->
      ModelManager.switchModel env modelId options st
      = (st, Throw (ModelUnavailable modelId))).
Proof.
  pose proof (AccessorFacts.find_id_None (ModelManager.availableModels st) modelId)
    as Hnone.
  fold (ModelManager.getModelConfig st modelId) in Hnone.
  fold (ModelManager.isModelAvailable st modelId) in Hnone.
  assert (Hthrow : ModelManager.validateModelIdFormat modelId = true ->
                   ModelManager.getModelConfig st modelId = None ->
                   ModelManager.switchModel env modelId options st
                   = (st, Throw (ModelUnavailable modelId))).
  { intros Hfmt Hcfg. apply SwitchMoreFacts.switchModel_unavailable; tauto. }
  split; [split |]; auto.
  - intros (st' & x & H).
    apply SwitchMoreFacts.switchModel_throws_unavailable in H. tauto.
  - intros [Hfmt Hcfg]. eauto.
Qed.

Lemma switchModel_unavailable_exactly_witness :
  ModelManager.switchModel quiet_env "ghost/model-9"
    (mkOptions (Some alice) (Some lobby) (Some (ScopeStr "user"))) fresh_manager
  = (fresh_manager, Throw (ModelUnavailable "ghost/model-9")).
Proof.
  apply (proj2 (switchModel_unavailable_exactly quiet_env "ghost/model-9"
                  (mkOptions (Some alice) (Some lobby) (Some (ScopeStr "user")))
                  fresh_manager)); reflexivity.
Defined.

(** X5. Without a database a validated switch always returns, whatever
    statements are set to fail, and every tier it names is updated in
    memory. *)
Theorem switchModel_without_database env modelId options st :
  ModelManager.db st = None ->
  ModelManager.validateModelIdFormat modelId = true ->
  ModelManager.isModelAvailable st modelId = true ->
  exists st',
    ModelManager.switchModel env modelId options st
    = (st', Ok (mkSwitchResult true
                  (if Spec.touches_session options
                   then Some (ModelManager.currentModel st) else None) modelId))
    /\ ModelManager.db st' = None
    /\ ModelManager.currentModel st' = Spec.session_after modelId options st
    /\ ModelManager.userPreferences st' = Spec.users_after modelId options st
    /\ ModelManager.roomPreferences st' = Spec.rooms_after modelId options st.
Proof.
  intros Hd Hfmt Hav.
  rewrite (SwitchMoreFacts.switchModel_succeeds_when env modelId options st Hfmt Hav
             (or_introl Hd)).
  eexists. split; [reflexivity |]. simpl. rewrite Hd. auto.
Qed.

Lemma switchModel_without_database_witness :
  exists st',
    ModelManager.switchModel (mkEnv 1 true true true) "cc-oaicomp/DeepSeek-V3.2"
      (mkOptions (Some alice) (Some lobby) (Some (ScopeStr "user,room")))
      (ModelManager.initialize getDefaultModels None)
    = (st', Ok (mkSwitchResult true None "cc-oaicomp/DeepSeek-V3.2"))
    /\ ModelManager.getCurrentModel st' (mkContext (Some alice) None)
       = "cc-oaicomp/DeepSeek-V3.2".
Proof.
  destruct (switchModel_without_database (mkEnv 1 true true true)
              "cc-oaicomp/DeepSeek-V3.2"
              (mkOptions (Some alice) (Some lobby) (Some (ScopeStr "user,room")))
              (ModelManager.initialize getDefaultModels None))
    as (st' & Hrun & _ & _ & Husers & _); try reflexivity.
  exists st'. split; [exact Hrun |].
  unfold ModelManager.getCurrentModel. simpl. rewrite Husers. reflexivity.
Defined.

(** X6. When the user-preference statement fails, [switchModel] throws, but
    the in-memory preference is already set: the manager answers the new
    model for that user while the tables are unchanged, and a room
    preference asked for in the same call is not applied. *)
Theorem user_write_failure_leaves_memory_ahead env modelId options st d u roomId :
  ModelManager.validateModelIdFormat modelId = true ->
  ModelManager.isModelAvailable st modelId = true ->
  ModelManager.db st = Some d ->
  Spec.user_target options = Some u ->
  fail_user_write env = true ->
  exists st',
    ModelManager.switchModel env modelId options st = (st', Throw StorageError)
    /\ ModelManager.getCurrentModel st' (mkContext (Some u) roomId) = modelId
    /\ ModelManager.db st' = Some d
    /\ ModelManager.roomPreferences st' = ModelManager.roomPreferences st.
Proof.
  intros Hfmt Hav Hd Hu Hfu.
  rewrite (SwitchMoreFacts.switchModel_user_write_fails env modelId options st d u
             Hfmt Hav Hd Hu Hfu).
  eexists. split; [reflexivity |]. simpl. repeat split.
  unfold Spec.user_target in Hu.
  destruct (scope_includes (Spec.scope_of options) "user"); [| discriminate].
  apply ManagerFacts.given_Some in Hu as [_ Hne].
  unfold ModelManager.getCurrentModel, ModelManager.lookup_given. simpl.
  apply ManagerFacts.truthy_Some in Hne. simpl in Hne. rewrite Hne. simpl.
  rewrite lookup_insert_eq. reflexivity.
Qed.

Lemma user_write_failure_leaves_memory_ahead_witness :
  exists st',
    ModelManager.switchModel (mkEnv 1000 true false false) "cc-oaicomp/DeepSeek-V3.2"
      (mkOptions (Some alice) (Some lobby) (Some (ScopeStr "user,room"))) fresh_manager
    = (st', Throw StorageError)
    /\ ModelManager.getCurrentModel st' (mkContext (Some alice) (Some lobby))
       = "cc-oaicomp/DeepSeek-V3.2"
    /\ ModelManager.db st' = Some empty_database
    /\ ModelManager.roomPreferences st' = ModelManager.roomPreferences fresh_manager.
Proof.
  apply (user_write_failure_leaves_memory_ahead (mkEnv 1000 true false false)
           "cc-oaicomp/DeepSeek-V3.2"
           (mkOptions (Some alice) (Some lobby) (Some (ScopeStr "user,room")))
           fresh_manager empty_database alice (Some lobby)); reflexivity.
Defined.

(** X7. A call that does not touch the session tier, whether it returns or
    throws, changes the effective model of no caller other than the user and
    the room it writes a preference for. *)
Theorem switchModel_leaves_other_callers env modelId options st st' out context :
  ModelManager.switchModel env modelId options st = (st', out) ->
  Spec.touches_session options = false ->
  (forall u, Spec.user_target options = Some u -> ctx_userId context <> Some u) ->
  (forall r, Spec.room_target options = Some r -> ctx_roomId context <> Some r) ->
  ModelManager.getCurrentModel st' context = ModelManager.getCurrentModel st context.
Proof.
  intros H Hs Huser Hroom.
  apply SwitchMoreFacts.switchModel_footprint in H
    as (Hcur & Hu & Hr & _).
  assert (Hsame : forall (key : option string) (t : string) (m : gmap string string),
             key <> Some t ->
             ModelManager.lookup_given key (<[t := modelId]> m)
             = ModelManager.lookup_given key m).
  { intros key t m Hne. unfold ModelManager.lookup_given.
    destruct (JsString.truthy key); [| reflexivity].
    destruct key as [k |]; simpl; [| reflexivity].
    apply lookup_insert_ne. congruence. }
  unfold ModelManager.getCurrentModel.
  destruct Hcur as [-> | [Hc _]]; [| congruence].
  destruct Hu as [-> | (u & Htu & ->)], Hr as [-> | (r & Htr & ->)];
    rewrite ?Hsame by auto; reflexivity.
Qed.

Lemma switchModel_leaves_other_callers_witness :
  ModelManager.getCurrentModel
    (fst (ModelManager.switchModel quiet_env "cc-oaicomp/DeepSeek-V3.2"
            (mkOptions (Some alice) (Some lobby) (Some (ScopeStr "user")))
            fresh_manager))
    (mkContext (Some "@bob:example.org") (Some lobby))
  = ModelManager.getCurrentModel fresh_manager
      (mkContext (Some "@bob:example.org") (Some lobby)).
Proof.
  eapply (switchModel_leaves_other_callers quiet_env "cc-oaicomp/DeepSeek-V3.2"
            (mkOptions (Some alice) (Some lobby) (Some (ScopeStr "user")))
            fresh_manager).
  - vm_compute. reflexivity.
  - reflexivity.
  - intros u. vm_compute. congruence.
  - intros r. vm_compute. congruence.
Defined.

(** X8. Whatever its outcome, [switchModel] leaves the catalog as it is,
    neither opens nor closes the database, never writes the switch history,
    removes or rewrites no usage row (it appends at most one), and touches
    no preference row of another user or room. *)
Theorem switchModel_does_not_touch env modelId options st st' out :
  ModelManager.switchModel env modelId options st = (st', out) ->
  ModelManager.availableModels st' = ModelManager.availableModels st
  /\ (ModelManager.db st' = None <-> ModelManager.db st = None)
  /\ (model_switch_history <$> ModelManager.db st')
     = (model_switch_history <$> ModelManager.db st)
  /\ (forall d d', ModelManager.db st = Some d -> ModelManager.db st' = Some d' ->
        exists added, model_usage_stats d' = (model_usage_stats d ++ added)%list
                      /\ (List.length added <= 1)%nat)
  /\ (forall d d' u, ModelManager.db st = Some d -> ModelManager.db st' = Some d' ->
        Spec.user_target options <> Some u ->
        user_model_preferences d' !! u = user_model_preferences d !! u)
  /\ (forall d d' r, ModelManager.db st = Some d -> ModelManager.db st' = Some d' ->
        Spec.room_target options <> Some r ->
        room_model_preferences d' !! r = room_model_preferences d !! r).
Proof.
  intros H. apply SwitchMoreFacts.switchModel_footprint in H. tauto.
Qed.

Lemma switchModel_does_not_touch_witness :
  ModelManager.availableModels
    (fst (ModelManager.switchModel quiet_env "cc-oaicomp/DeepSeek-V3.2"
            (mkOptions (Some alice) (Some lobby) (Some (ScopeStr "user")))
            fresh_manager))
  = ModelManager.availableModels fresh_manager.
Proof.
  eapply (switchModel_does_not_touch quiet_env "cc-oaicomp/DeepSeek-V3.2"
            (mkOptions (Some alice) (Some lobby) (Some (ScopeStr "user")))
            fresh_manager).
  vm_compute. reflexivity.
Defined.

(** X9. A scope that names none of [session], [all], [user] and [room] (such
    as [global], which the help text offers and both detectors produce): the
    call succeeds with no [previous], and no tier and no preference row
    changes, so every caller resolves to the same model as before. *)
Theorem switchModel_scope_without_tier env modelId options st context :
  ModelManager.validateModelIdFormat modelId = true ->
  ModelManager.isModelAvailable st modelId = true ->
  (forall tier, In tier ["session"; "all"; "user"; "room"] ->
     scope_includes (Spec.scope_of options) tier = false) ->
  exists st',
    ModelManager.switchModel env modelId options st
    = (st', Ok (mkSwitchResult true None modelId))
    /\ ModelManager.getCurrentModel st' context = ModelManager.getCurrentModel st context
    /\ MoreSpec.preference_tables (ModelManager.db st')
       = MoreSpec.preference_tables (ModelManager.db st).
Proof.
  intros Hfmt Hav Hnone.
  assert (Hs : Spec.touches_session options = false).
  { unfold Spec.touches_session. rewrite !Hnone by (simpl; tauto). reflexivity. }
  assert (Hu : Spec.user_target options = None).
  { unfold Spec.user_target. rewrite Hnone by (simpl; tauto). reflexivity. }
  assert (Hr : Spec.room_target options = None).
  { unfold Spec.room_target. rewrite Hnone by (simpl; tauto). reflexivity. }
  rewrite (SwitchMoreFacts.switchModel_succeeds_when env modelId options st Hfmt Hav
             (or_intror (conj (or_introl Hu) (or_introl Hr)))).
  rewrite Hs. eexists. split; [reflexivity |].
  unfold ModelManager.getCurrentModel, Spec.session_after, Spec.users_after,
    Spec.rooms_after, Spec.tables_after, MoreSpec.preference_tables.
  simpl. rewrite Hs, Hu, Hr. split; [reflexivity |].
  destruct (ModelManager.db st) as [d |]; simpl; [| reflexivity].
  destruct (fail_usage_write env); reflexivity.
Qed.

Lemma switchModel_scope_without_tier_witness :
  exists st',
    ModelManager.switchModel quiet_env "cc-oaicomp/DeepSeek-V3.2"
      (mkOptions (Some alice) (Some lobby) (Some (ScopeStr "global"))) fresh_manager
    = (st', Ok (mkSwitchResult true None "cc-oaicomp/DeepSeek-V3.2"))
    /\ ModelManager.getCurrentModel st' (mkContext (Some alice) (Some lobby))
       = ModelManager.getCurrentModel fresh_manager (mkContext (Some alice) (Some lobby))
    /\ MoreSpec.preference_tables (ModelManager.db st')
       = MoreSpec.preference_tables (ModelManager.db fresh_manager).
Proof.
  apply (switchModel_scope_without_tier quiet_env "cc-oaicomp/DeepSeek-V3.2"
           (mkOptions (Some alice) (Some lobby) (Some (ScopeStr "global")))
           fresh_manager (mkContext (Some alice) (Some lobby))).
  - reflexivity.
  - reflexivity.
  - intros tier Hin. simpl in Hin.
    destruct Hin as [<- | [<- | [<- | [<- | []]]]]; reflexivity.
Defined.

(** X10. Two validated switches in a row with the same options: the tiers
    and the preference rows end as after the second one alone (the last
    write wins, and repeating a switch changes nothing more). *)
Theorem switchModel_last_write_wins env first second options st :
  ModelManager.validateModelIdFormat first = true ->
  ModelManager.isModelAvailable st first = true ->
  ModelManager.validateModelIdFormat second = true ->
  ModelManager.isModelAvailable st second = true ->
  fail_user_write env = false ->
  fail_room_write env = false ->
  let both :=
    fst (ModelManager.switchModel env second options
           (fst (ModelManager.switchModel env first options st))) in
  let alone := fst (ModelManager.switchModel env second options st) in
  ModelManager.currentModel both = ModelManager.currentModel alone
  /\ ModelManager.userPreferences both = ModelManager.userPreferences alone
  /\ ModelManager.roomPreferences both = ModelManager.roomPreferences alone
  /\ MoreSpec.preference_tables (ModelManager.db both)
     = MoreSpec.preference_tables (ModelManager.db alone).
Proof.
  intros Hf1 Ha1 Hf2 Ha2 Hfu Hfr both alone. subst both alone.
  rewrite (SwitchFacts.switchModel_succeeds env first options st Hf1 Ha1 Hfu Hfr).
  cbn [fst].
  rewrite (SwitchFacts.switchModel_succeeds env second options st Hf2 Ha2 Hfu Hfr).
  rewrite SwitchFacts.switchModel_succeeds by assumption.
  cbn [fst ModelManager.currentModel ModelManager.userPreferences
         ModelManager.roomPreferences ModelManager.db].
  unfold Spec.session_after, Spec.users_after, Spec.rooms_after,
    MoreSpec.preference_tables, Spec.tables_after.
  cbn [ModelManager.currentModel ModelManager.userPreferences
         ModelManager.roomPreferences ModelManager.db].
  destruct (Spec.touches_session options), (Spec.user_target options) as [u |],
    (Spec.room_target options) as [r |], (ModelManager.db st) as [d |],
    (fail_usage_write env);
    simpl; rewrite ?insert_insert_eq; repeat split; reflexivity.
Qed.

Lemma switchModel_last_write_wins_witness :
  ModelManager.userPreferences
    (fst (ModelManager.switchModel quiet_env "cc-oaicomp/DeepSeek-V3.2"
            (mkOptions (Some alice) (Some lobby) (Some (ScopeStr "user")))
            (fst (ModelManager.switchModel quiet_env "cc-openai/gpt-5.3-codex"
                    (mkOptions (Some alice) (Some lobby) (Some (ScopeStr "user")))
                    fresh_manager))))
  = ModelManager.userPreferences
      (fst (ModelManager.switchModel quiet_env "cc-oaicomp/DeepSeek-V3.2"
              (mkOptions (Some alice) (Some lobby) (Some (ScopeStr "user")))
              fresh_manager)).
Proof.
  apply (switchModel_last_write_wins quiet_env "cc-openai/gpt-5.3-codex"
           "cc-oaicomp/DeepSeek-V3.2"
           (mkOptions (Some alice) (Some lobby) (Some (ScopeStr "user")))
           fresh_manager); reflexivity.
Defined.

(** ** What survives the manager: the tables *)

Module PersistFacts.
Import JsString StateExn ModelManager Spec MoreSpec SwitchFacts.

(** A started manager holds in memory what the preference tables hold. *)
Lemma initialize_maps models dbo :
  userPreferences (initialize models dbo)
  = default ∅ ((fun d => up_model_id <$> user_model_preferences d) <$> dbo)
  /\ roomPreferences (initialize models dbo)
     = default ∅ ((fun d => rp_model_id <$> room_model_preferences d) <$> dbo)
  /\ currentModel (initialize models dbo) = "cc-oaicomp/Kimi-K2.5"
  /\ availableModels (initialize models dbo) = models
  /\ db (initialize models dbo) = dbo.
Proof.
  unfold initialize, loadPreferences. destruct dbo as [d |]; simpl;
    rewrite ?(right_id_L ∅ (∪)); auto.
Qed.

(** Running [loadPreferences] again changes nothing, so the [initialize]
    the constructor starts and the one the caller awaits leave one state. *)
Lemma loadPreferences_idempotent st :
  loadPreferences (loadPreferences st) = loadPreferences st.
Proof.
  unfold loadPreferences. destruct (db st) as [d |] eqn:Hd; simpl; rewrite ?Hd;
    [| reflexivity].
  f_equal; rewrite (assoc_L (∪)), (idemp_L (∪)); reflexivity.
Qed.

Lemma initialize_mirrors models dbo : mirrors (initialize models dbo).
Proof.
  intros d Hd. destruct (initialize_maps models dbo) as (Hu & Hr & _ & _ & Hdb).
  rewrite Hdb in Hd. subst dbo. rewrite Hu, Hr. auto.
Qed.

(** A successful switch keeps memory and tables in step. *)
Lemma switchModel_mirrors env modelId options st st' r :
  mirrors st ->
  switchModel env modelId options st = (st', Ok r) ->
  mirrors st'.
Proof.
  intros Hm. unfold mirrors in *. revert Hm.
  switch_cases env modelId options st; intros Hm H; try discriminate;
    injection H as <- <-; simpl; intros d0 Hd0; simplify_eq;
    try (destruct (Hm _ eq_refl) as [Hmu Hmr]); simpl;
    rewrite ?fmap_insert; simpl; rewrite <- ?Hmu, <- ?Hmr; auto.
Qed.

(** Managers started on tables with the same preference rows resolve
    every caller alike. *)
Lemma initialize_same_tables models dbo dbo' :
  preference_tables dbo = preference_tables dbo' ->
  userPreferences (initialize models dbo) = userPreferences (initialize models dbo')
  /\ roomPreferences (initialize models dbo) = roomPreferences (initialize models dbo')
  /\ forall context,
       getCurrentModel (initialize models dbo) context
       = getCurrentModel (initialize models dbo') context.
Proof.
  intros Ht.
  destruct (initialize_maps models dbo) as (Hu & Hr & Hc & _).
  destruct (initialize_maps models dbo') as (Hu' & Hr' & Hc' & _).
  assert (Hmaps : userPreferences (initialize models dbo)
                  = userPreferences (initialize models dbo')
                  /\ roomPreferences (initialize models dbo)
                     = roomPreferences (initialize models dbo')).
  { rewrite Hu, Hr, Hu', Hr'. unfold preference_tables in Ht.
    destruct dbo as [d |], dbo' as [d' |]; simpl in *; try discriminate; auto.
    injection Ht as -> ->. auto. }
  destruct Hmaps as [Hmu Hmr]. repeat split; auto.
  intros context. unfold getCurrentModel. rewrite Hmu, Hmr, Hc, Hc'. reflexivity.
Qed.

(** A call without a user or room target leaves the preference rows. *)
Lemma untargeted_tables env modelId options st st' out :
  switchModel env modelId options st = (st', out) ->
  user_target options = None ->
  room_target options = None ->
  preference_tables (db st') = preference_tables (db st).
Proof.
  intros H Hu Hr.
  apply SwitchMoreFacts.switchModel_footprint in H
    as (_ & _ & _ & _ & Hnone & _ & _ & Husers & Hrooms).
  unfold preference_tables.
  destruct (db st) as [d |] eqn:Hd, (db st') as [d' |] eqn:Hd'; simpl;
    try reflexivity.
  - f_equal. f_equal; apply map_eq; intros k.
    + apply (Husers d d' k); congruence.
    + apply (Hrooms d d' k); congruence.
  - exfalso. destruct Hnone as [Hn _]. specialize (Hn eq_refl). discriminate.
  - exfalso. destruct Hnone as [_ Hn]. specialize (Hn eq_refl). discriminate.
Qed.

Lemma string_scope_targets scope userId roomId :
  scope_includes (ScopeStr scope) "user" = false ->
  scope_includes (ScopeStr scope) "room" = false ->
  user_target (mkOptions userId roomId (Some (ScopeStr scope))) = None
  /\ room_target (mkOptions userId roomId (Some (ScopeStr scope))) = None.
Proof.
  intros Hu Hr. unfold user_target, room_target, scope_of. simpl in *.
  rewrite Hu, Hr. auto.
Qed.

End PersistFacts.

(** X11. A manager started by [initialize] holds in memory exactly the model
    columns of the preference tables, and every [switchModel] that returns
    keeps it so. *)
Theorem memory_mirrors_tables models dbo :
  MoreSpec.mirrors (ModelManager.initialize models dbo)
  /\ (forall env modelId options st st' r,
        MoreSpec.mirrors st ->
        ModelManager.switchModel env modelId options st = (st', Ok r) ->
        MoreSpec.mirrors st').
Proof.
  split.
  - apply PersistFacts.initialize_mirrors.
  - intros env modelId options st st' r. apply PersistFacts.switchModel_mirrors.
Qed.

Lemma memory_mirrors_tables_witness :
  MoreSpec.mirrors
    (fst (ModelManager.switchModel quiet_env "cc-oaicomp/DeepSeek-V3.2"
            (mkOptions (Some alice) (Some lobby) (Some (ScopeStr "user,room")))
            fresh_manager)).
Proof.
  eapply (proj2 (memory_mirrors_tables getDefaultModels (Some empty_database))
            quiet_env "cc-oaicomp/DeepSeek-V3.2"
            (mkOptions (Some alice) (Some lobby) (Some (ScopeStr "user,room")))
            fresh_manager).
  - apply (proj1 (memory_mirrors_tables getDefaultModels (Some empty_database))).
  - vm_compute. reflexivity.
Defined.

(** ** Objects: what [Object.entries] lists *)

Module ObjectFacts.
Import JsString.

Lemma insert_index_In {V} (n : N) (e : string * V) l x :
  In x (JsObject.insert_index n e l) -> x = (n, e) \/ In x l.
Proof.
  induction l as [| [n' e'] l IH]; simpl.
  - intros [<- | []]. auto.
  - destruct (n <? n')%N; simpl.
    + intros [<- | H]; auto.
    + intros [<- | H]; auto. destruct (IH H); auto.
Qed.

Lemma index_entries_In {V} (o : JsObject.obj V) n e :
  In (n, e) (JsObject.index_entries o) -> In e o.
Proof.
  induction o as [| [k v] o IH]; simpl; [tauto |].
  destruct (JsObject.array_index k).
  - intros H. apply insert_index_In in H as [[= _ <-] | H]; auto.
  - auto.
Qed.

Lemma named_entries_In {V} (o : JsObject.obj V) e :
  In e (JsObject.named_entries o) -> In e o.
Proof.
  induction o as [| [k v] o IH]; simpl; [tauto |].
  destruct (JsObject.array_index k); simpl; [auto |].
  intros [<- | H]; auto.
Qed.

(** Every listed entry is a property of the object. *)
Lemma entries_In {V} (o : JsObject.obj V) e : In e (JsObject.entries o) -> In e o.
Proof.
  unfold JsObject.entries. rewrite in_app_iff, in_map_iff.
  intros [([n e'] & <- & H) | H].
  - eapply index_entries_In; eauto.
  - apply named_entries_In; auto.
Qed.

Lemma replace_keys {V} (o : JsObject.obj V) k v :
  map fst (JsObject.replace o k v) = map fst o.
Proof.
  induction o as [| [k' v'] o IH]; simpl; [reflexivity |].
  destruct (String.eqb k' k); simpl; [reflexivity | rewrite IH; reflexivity].
Qed.

Lemma set_keys {V} (o : JsObject.obj V) k v k' :
  In k' (map fst (JsObject.set o k v)) -> k' = k \/ In k' (map fst o).
Proof.
  unfold JsObject.set. destruct (String.eqb k "__proto__"); [auto |].
  destruct (JsObject.get o k).
  - rewrite replace_keys. auto.
  - rewrite map_app, in_app_iff. simpl. intros [H | [<- | []]]; auto.
Qed.

End ObjectFacts.

(** ** The detectors name catalog models *)

Module CatalogFacts.
Import JsString ModelManager Spec MoreSpec.

Lemma fold_set_keys {V} (f : Model -> V) models o k :
  In k (map fst (fold_left (fun o model => JsObject.set o (model_id model) (f model))
                   models o)) ->
  In k (map fst o) \/ In k (map model_id models).
Proof.
  revert o. induction models as [| m models IH]; intros o; simpl; [auto |].
  intros H. apply IH in H as [H | H]; [| auto].
  apply ObjectFacts.set_keys in H as [-> | H]; auto.
Qed.

Lemma addAlias_keys o entry : map fst (addAlias o entry) = map fst o.
Proof.
  unfold addAlias. destruct entry as [alias modelId].
  destruct (JsObject.get o modelId); [apply ObjectFacts.replace_keys | reflexivity].
Qed.

Lemma fold_addAlias_keys aliases o : map fst (fold_left addAlias aliases o) = map fst o.
Proof.
  revert o. induction aliases as [| a l IH]; intros o; simpl; [reflexivity |].
  rewrite IH. apply addAlias_keys.
Qed.

(** The keys of both keyword tables are ids of catalog models. *)
Lemma manager_keys models k kws :
  In (k, kws) (JsObject.entries (buildModelKeywords models)) ->
  In k (map model_id models).
Proof.
  intros H. apply ObjectFacts.entries_In in H.
  apply (in_map fst) in H. simpl in H.
  unfold buildModelKeywords in H. rewrite fold_addAlias_keys in H.
  apply fold_set_keys in H as [[] | H]. exact H.
Qed.

Lemma handler_keys models k kws :
  In (k, kws) (JsObject.entries (Handlers.buildModelKeywords models)) ->
  In k (map model_id models).
Proof.
  intros H. apply ObjectFacts.entries_In in H.
  apply (in_map fst) in H. simpl in H.
  unfold Handlers.buildModelKeywords in H. rewrite fold_addAlias_keys in H.
  apply fold_set_keys in H as [[] | H]. exact H.
Qed.

Lemma available_In st modelId :
  isModelAvailable st modelId = true <-> In modelId (map model_id (availableModels st)).
Proof.
  unfold isModelAvailable. rewrite existsb_exists, in_map_iff.
  split; intros (m & H1 & H2).
  - apply String.eqb_eq in H2. eauto.
  - exists m. split; [auto |]. apply String.eqb_eq. auto.
Qed.

(** What the handler's loop has recorded is an entry of the table, and
    the first one that qualifies. *)
Lemma matchModels_spec lowerMessage entries matched :
  truthy (fst matched) = false ->
  let result := Handlers.matchModels lowerMessage entries matched in
  (truthy (fst result) = true ->
   exists i modelId keywords,
     entries !! i = Some (modelId, keywords)
     /\ result = (Some modelId, keywords)
     /\ modelId <> ""
     /\ existsb (includes lowerMessage) keywords = true
     /\ forall j id' kws', (j < i)%nat -> entries !! j = Some (id', kws') ->
          id' = "" \/ existsb (includes lowerMessage) kws' = false)
  /\ (truthy (fst result) = false ->
      forall j id' kws', entries !! j = Some (id', kws') ->
        id' = "" \/ existsb (includes lowerMessage) kws' = false).
Proof.
  revert matched. induction entries as [| [modelId keywords] rest IH];
    intros matched Hfalse; simpl.
  - split; [congruence |]. intros _ j id' kws' Hj. rewrite lookup_nil in Hj.
    discriminate.
  - destruct (existsb (includes lowerMessage) keywords) eqn:Hfound; simpl.
    + destruct (String.eqb_spec modelId "") as [-> | Hne]; simpl.
      * destruct (IH (Some "", keywords) eq_refl) as [IHt IHf]. split.
        -- intros Ht. destruct (IHt Ht) as (i & wid & wkws & Hi & Hres & Hw & Hf & Hb).
           exists (S i), wid, wkws. repeat split; auto.
           intros [| j] id' kws' Hj Hlook; simpl in Hlook.
           ++ injection Hlook as <- <-. auto.
           ++ apply (Hb j); [lia | auto].
        -- intros Hf [| j] id' kws' Hlook; simpl in Hlook.
           ++ injection Hlook as <- <-. auto.
           ++ eapply IHf; eauto.
      * rewrite (proj2 (String.eqb_neq modelId "") Hne). simpl.
        split; [| discriminate]. intros _.
        exists 0%nat, modelId, keywords. repeat split; auto.
        intros j id' kws' Hj. lia.
    + rewrite Hfalse. destruct (IH matched Hfalse) as [IHt IHf]. split.
      * intros Ht. destruct (IHt Ht) as (i & wid & wkws & Hi & Hres & Hw & Hf & Hb).
        exists (S i), wid, wkws. repeat split; auto.
        intros [| j] id' kws' Hj Hlook; simpl in Hlook.
        -- injection Hlook as <- <-. auto.
        -- apply (Hb j); [lia | auto].
      * intros Hf [| j] id' kws' Hlook; simpl in Hlook.
        -- injection Hlook as <- <-. auto.
        -- eapply IHf; eauto.
Qed.

End CatalogFacts.

Module ScopeFacts.
Import JsString ModelManager.

(** The scope loop returns the scope of the first table entry, other than
    a [session] entry, that has a keyword in the message. *)
Lemma detectScope_spec lowerMessage entries :
  detectScope lowerMessage entries "session"
  = match List.find (fun entry => negb (String.eqb (fst entry) "session")
                                  && existsb (includes lowerMessage) (snd entry))
            entries with
    | Some entry => fst entry
    | None => "session"
    end.
Proof.
  induction entries as [| [scope scopeWords] rest IH]; simpl; [reflexivity |].
  destruct (existsb (includes lowerMessage) scopeWords); simpl.
  - destruct (String.eqb_spec scope "session") as [-> | Hne]; simpl.
    + exact IH.
    + reflexivity.
  - rewrite andb_false_r. exact IH.
Qed.

Lemma detectScope_values lowerMessage entries :
  In (detectScope lowerMessage entries "session") ("session" :: map fst entries).
Proof.
  rewrite detectScope_spec.
  destruct (List.find _ entries) as [entry |] eqn:Hfind; [| left; reflexivity].
  right. apply find_some in Hfind as [Hin _]. apply in_map. exact Hin.
Qed.

End ScopeFacts.

(** X12. The scope either detector returns is [user] when a permanent
    keyword is in the text, and otherwise the scope of the first entry of
    its scope table, other than the [session] entry, that has a keyword in
    the text, or [session] when there is none: the [session] keywords never
    decide anything. It is always one of [session], [user], [room] and
    [global]. *)
Theorem detected_scope st message :
  let lowerMessage := JsString.toLowerCase message in
  let first_of table :=
    match List.find (fun entry => negb (String.eqb (fst entry) "session")
                                  && existsb (JsString.includes lowerMessage) (snd entry))
            table with
    | Some entry => fst entry
    | None => "session"
    end in
  (forall r, Handlers.detectModelSwitchIntent message st = Some r ->
     in_scope r
     = (if existsb (JsString.includes lowerMessage) Handlers.permanentKeywords
        then "user" else first_of Handlers.scopeKeywords)
     /\ In (in_scope r) ["session"; "user"; "room"; "global"])
  /\ (forall r, ModelManager.detectSwitchIntent st message = Some r ->
        si_scope r
        = (if existsb (JsString.includes lowerMessage) ModelManager.permanentKeywords
           then "user" else first_of ModelManager.scopeKeywords)
        /\ In (si_scope r) ["session"; "user"; "room"; "global"]).
Proof.
  intros lowerMessage first_of. split; intros r Hr.
  - rewrite (DetectFacts.handler_scope _ _ _ Hr). fold lowerMessage.
    change (JsObject.entries Handlers.scopeKeywords) with Handlers.scopeKeywords.
    rewrite ScopeFacts.detectScope_spec. split; [reflexivity |].
    destruct (existsb _ Handlers.permanentKeywords); [simpl; tauto |].
    rewrite <- ScopeFacts.detectScope_spec.
    pose proof (ScopeFacts.detectScope_values lowerMessage Handlers.scopeKeywords) as Hv.
    change (map fst Handlers.scopeKeywords)
      with ["session"; "user"; "room"; "global"] in Hv.
    destruct Hv as [Hv | Hv]; [left; exact Hv | exact Hv].
  - rewrite (DetectFacts.manager_scope _ _ _ Hr). fold lowerMessage.
    change (JsObject.entries ModelManager.scopeKeywords) with ModelManager.scopeKeywords.
    rewrite ScopeFacts.detectScope_spec. split; [reflexivity |].
    destruct (existsb _ ModelManager.permanentKeywords); [simpl; tauto |].
    rewrite <- ScopeFacts.detectScope_spec.
    pose proof (ScopeFacts.detectScope_values lowerMessage ModelManager.scopeKeywords)
      as Hv.
    change (map fst ModelManager.scopeKeywords)
      with ["session"; "user"; "room"; "global"] in Hv.
    destruct Hv as [Hv | Hv]; [left; exact Hv | exact Hv].
Qed.

Lemma detected_scope_witness :
  in_scope (mkIntent "switch_model" "cc-oaicomp/DeepSeek-V3.2" "global" "high")
  = "global".
Proof.
  destruct (proj1 (detected_scope fresh_manager "临时切换到 deepseek 全局")
              (mkIntent "switch_model" "cc-oaicomp/DeepSeek-V3.2" "global" "high"))
    as [Hscope _].
  - vm_compute. reflexivity.
  - rewrite Hscope. vm_compute. reflexivity.
Defined.

(** X13. The model either detector returns is a model of the catalog, under
    a non-empty id. *)
Theorem detected_model_is_in_catalog st message :
  (forall r, Handlers.detectModelSwitchIntent message st = Some r ->
     ModelManager.isModelAvailable st (in_modelId r) = true /\ in_modelId r <> "")
  /\ (forall r, ModelManager.detectSwitchIntent st message = Some r ->
        ModelManager.isModelAvailable st (si_modelId r) = true /\ si_modelId r <> "").
Proof.
  split; intros r Hr.
  - unfold Handlers.detectModelSwitchIntent in Hr.
    destruct (negb _); [discriminate |].
    pose proof (CatalogFacts.matchModels_spec (JsString.toLowerCase message)
                  (JsObject.entries
                     (Handlers.buildModelKeywords (ModelManager.availableModels st)))
                  (None, []) eq_refl) as [Hsome _].
    destruct (Handlers.matchModels _ _ _) as [matchedId matchedKeywords].
    simpl in Hsome.
    destruct (ModelManager.given matchedId) as [modelId |] eqn:Hid; [| discriminate].
    injection Hr as <-. simpl.
    apply ManagerFacts.given_Some in Hid as [-> Hne].
    destruct Hsome as (i & wid & wkws & Hi & [= <- <-] & _).
    { apply ManagerFacts.truthy_Some. exact Hne. }
    split; [| exact Hne]. apply CatalogFacts.available_In.
    eapply CatalogFacts.handler_keys. eapply list_elem_of_In, list_elem_of_lookup_2.
    exact Hi.
  - pose proof (ManagerDetectFacts.detectSwitchIntent_winner st message r Hr)
      as (i & kws & Hi & _).
    split.
    + apply CatalogFacts.available_In. eapply CatalogFacts.manager_keys.
      eapply list_elem_of_In, list_elem_of_lookup_2. exact Hi.
    + unfold ModelManager.detectSwitchIntent in Hr.
      destruct (negb _); [discriminate |].
      destruct (ModelManager.given _) as [modelId |] eqn:Hid; [| discriminate].
      injection Hr as <-. simpl. apply ManagerFacts.given_Some in Hid. tauto.
Qed.

Lemma detected_model_is_in_catalog_witness :
  ModelManager.isModelAvailable fresh_manager
    (in_modelId (mkIntent "switch_model" "cc-oaicomp/Kimi-K2.5" "session" "high")) = true
  /\ in_modelId (mkIntent "switch_model" "cc-oaicomp/Kimi-K2.5" "session" "high") <> "".
Proof.
  apply (proj1 (detected_model_is_in_catalog fresh_manager "用 chat")).
  vm_compute. reflexivity.
Defined.

(** X14. On a plain message and a catalog of plain ids and names (ASCII
    and CJK characters, where the lower-casing is that of JavaScript),
    the handler's detector returns the first entry of its keyword table,
    in [Object.entries] order, that has a non-empty id and a keyword in
    the text; it returns nothing exactly when the text has no switch
    keyword or no entry qualifies. *)
Theorem handler_detector_first_match st message :
  MoreSpec.plain message = true ->
  MoreSpec.plain_catalog (ModelManager.availableModels st) = true ->
  let lowerMessage := JsString.toLowerCase message in
  let entries :=
    JsObject.entries (Handlers.buildModelKeywords (ModelManager.availableModels st)) in
  let qualifies (entry : string * list string) :=
    fst entry <> "" /\ existsb (JsString.includes lowerMessage) (snd entry) = true in
  (forall r, Handlers.detectModelSwitchIntent message st = Some r ->
     exists i keywords,
       entries !! i = Some (in_modelId r, keywords)
       /\ qualifies (in_modelId r, keywords)
       /\ forall j entry, (j < i)%nat -> entries !! j = Some entry -> ~ qualifies entry)
  /\ (Handlers.detectModelSwitchIntent message st = None <->
      existsb (JsString.includes lowerMessage) Handlers.switchKeywords = false
      \/ forall j entry, entries !! j = Some entry -> ~ qualifies entry).
Proof.
  intros _ _ lowerMessage entries qualifies.
  pose proof (CatalogFacts.matchModels_spec lowerMessage entries (None, []) eq_refl)
    as [Hsome Hnone].
  unfold Handlers.detectModelSwitchIntent. fold lowerMessage entries.
  destruct (Handlers.matchModels lowerMessage entries (None, []))
    as [matchedId matchedKeywords] eqn:Hmatch.
  simpl in Hsome, Hnone.
  assert (Hq : forall id' kws',
             id' = "" \/ existsb (JsString.includes lowerMessage) kws' = false ->
             ~ qualifies (id', kws')).
  { intros id' kws' [-> | Hf] [Hq1 Hq2]; simpl in *; congruence. }
  split.
  - intros r Hr. destruct (negb _); [discriminate |].
    destruct (ModelManager.given matchedId) as [modelId |] eqn:Hid; [| discriminate].
    injection Hr as <-. simpl.
    apply ManagerFacts.given_Some in Hid as [-> Hne].
    destruct Hsome as (i & wid & wkws & Hi & [= <- <-] & _ & Hfound & Hbefore).
    { apply ManagerFacts.truthy_Some. exact Hne. }
    exists i, matchedKeywords. split; [exact Hi |]. split; [split; auto |].
    intros j [id' kws'] Hj Hlook. apply Hq. eapply Hbefore; eauto.
  - destruct (existsb (JsString.includes lowerMessage) Handlers.switchKeywords)
      eqn:Hkw; simpl; [| split; auto].
    destruct (JsString.truthy matchedId) eqn:Ht.
    + destruct Hsome as (i & wid & wkws & Hi & [= -> ->] & Hne & Hfound & _);
        [reflexivity |].
      unfold ModelManager.given. rewrite Ht. split; [discriminate |].
      intros [Hc | Hc]; [discriminate |].
      exfalso. apply (Hc i (wid, wkws) Hi). split; auto.
    + unfold ModelManager.given. rewrite Ht. split; [| reflexivity].
      intros _. right. intros j [id' kws'] Hlook. apply Hq. eapply Hnone; eauto.
Qed.

Lemma handler_detector_first_match_witness :
  Handlers.detectModelSwitchIntent "今天天气怎么样" fresh_manager = None.
Proof.
  apply (proj2 (handler_detector_first_match fresh_manager "今天天气怎么样"
                  eq_refl eq_refl)).
  left. vm_compute. reflexivity.
Defined.

(** ** The handlers: one manager per message *)

Module HandlerFacts.
Import JsString ModelManager Spec MoreSpec.

(** What [handleModelCurrent] answers depends on the catalog and on the
    preference rows only. *)
Lemma handleModelCurrent_tables models dbo dbo' roomId sender :
  preference_tables dbo = preference_tables dbo' ->
  Handlers.handleModelCurrent models dbo roomId sender
  = Handlers.handleModelCurrent models dbo' roomId sender.
Proof.
  intros Ht. unfold Handlers.handleModelCurrent.
  destruct (PersistFacts.initialize_same_tables models dbo dbo' Ht) as (_ & _ & Hcur).
  rewrite Hcur. unfold getModelConfig.
  destruct (PersistFacts.initialize_maps models dbo) as (_ & _ & _ & -> & _).
  destruct (PersistFacts.initialize_maps models dbo') as (_ & _ & _ & -> & _).
  reflexivity.
Qed.

(** A switch by a handler under a scope text without [user] and [room]
    leaves the preference rows it found. *)
Lemma handler_switch_tables env models db0 roomId sender modelId scope :
  includes scope "user" = false ->
  includes scope "room" = false ->
  preference_tables
    (db (fst (switchModel env modelId
                (mkOptions (Some sender) (Some roomId) (Some (ScopeStr scope)))
                (initialize models db0))))
  = preference_tables db0.
Proof.
  intros Hu Hr.
  destruct (PersistFacts.string_scope_targets scope (Some sender) (Some roomId) Hu Hr)
    as [Htu Htr].
  rewrite (PersistFacts.untargeted_tables env modelId _ (initialize models db0)
             _ _ (surjective_pairing _) Htu Htr).
  destruct (PersistFacts.initialize_maps models db0) as (_ & _ & _ & _ & ->).
  reflexivity.
Qed.

Lemma scope_values_without_target scope :
  In scope ["session"; "user"; "room"; "global"] ->
  scope <> "user" -> scope <> "room" ->
  includes scope "user" = false /\ includes scope "room" = false.
Proof.
  simpl. intros [<- | [<- | [<- | [<- | []]]]] Hu Hr; try congruence;
    split; reflexivity.
Qed.

Lemma handler_scope_values message st r :
  Handlers.detectModelSwitchIntent message st = Some r ->
  In (in_scope r) ["session"; "user"; "room"; "global"].
Proof.
  intros Hr. rewrite (DetectFacts.handler_scope _ _ _ Hr).
  destruct (existsb _ Handlers.permanentKeywords); [simpl; tauto |].
  change (JsObject.entries Handlers.scopeKeywords) with Handlers.scopeKeywords.
  pose proof (ScopeFacts.detectScope_values (toLowerCase message) Handlers.scopeKeywords)
    as Hv.
  change (map fst Handlers.scopeKeywords)
    with ["session"; "user"; "room"; "global"] in Hv.
  destruct Hv as [Hv | Hv]; [left; exact Hv | exact Hv].
Qed.

Lemma handler_detected_available message st r :
  Handlers.detectModelSwitchIntent message st = Some r ->
  isModelAvailable st (in_modelId r) = true.
Proof.
  intros Hr. unfold Handlers.detectModelSwitchIntent in Hr.
  destruct (negb _); [discriminate |].
  pose proof (CatalogFacts.matchModels_spec (toLowerCase message)
                (JsObject.entries (Handlers.buildModelKeywords (availableModels st)))
                (None, []) eq_refl) as [Hsome _].
  destruct (Handlers.matchModels _ _ _) as [matchedId matchedKeywords].
  simpl in Hsome.
  destruct (given matchedId) as [modelId |] eqn:Hid; [| discriminate].
  injection Hr as <-. simpl.
  apply ManagerFacts.given_Some in Hid as [-> Hne].
  destruct Hsome as (i & wid & wkws & Hi & [= <- <-] & _).
  { apply ManagerFacts.truthy_Some. exact Hne. }
  apply CatalogFacts.available_In.
  eapply CatalogFacts.handler_keys. eapply list_elem_of_In, list_elem_of_lookup_2.
  exact Hi.
Qed.

Lemma intent_is_switch_model message st r :
  Handlers.detectModelSwitchIntent message st = Some r ->
  in_intent r = "switch_model".
Proof.
  unfold Handlers.detectModelSwitchIntent.
  destruct (negb _); [discriminate |].
  destruct (Handlers.matchModels _ _ _) as [matchedId matchedKeywords].
  destruct (given matchedId); [| discriminate].
  intros [= <-]. reflexivity.
Qed.


(** A switch for the sender under a scope text that holds [user]: it
    succeeds, and a manager started on the tables it leaves resolves the
    sender to the model. *)
Lemma user_switch_then_current env models d roomId sender modelId scope roomId' :
  validateModelIdFormat modelId = true ->
  In modelId (map model_id models) ->
  sender <> "" ->
  includes scope "user" = true ->
  fail_user_write env = false ->
  fail_room_write env = false ->
  exists st' result modelConfig,
    switchModel env modelId
      (mkOptions (Some sender) (Some roomId) (Some (ScopeStr scope)))
      (initialize models (Some d)) = (st', Ok result)
    /\ Handlers.handleModelCurrent models (db st') roomId' sender
       = Some (modelId, modelConfig)
    /\ model_id modelConfig = modelId.
Proof.
  intros Hfmt Hin Hsender Hscope Hfu Hfr.
  destruct (PersistFacts.initialize_maps models (Some d)) as (_ & _ & _ & Hmodels & Hdb).
  assert (Hav : isModelAvailable (initialize models (Some d)) modelId = true).
  { apply CatalogFacts.available_In. rewrite Hmodels. exact Hin. }
  rewrite (SwitchFacts.switchModel_succeeds env modelId _ _ Hfmt Hav Hfu Hfr).
  rewrite Hdb. cbn [fmap option_fmap option_map].
  assert (Htarget : user_target
                      (mkOptions (Some sender) (Some roomId) (Some (ScopeStr scope)))
                    = Some sender).
  { unfold user_target, scope_of. simpl. rewrite Hscope.
    apply ManagerFacts.given_Some. auto. }
  set (d1 := tables_after env modelId _ d).
  destruct (PersistFacts.initialize_maps models (Some d1))
    as (Husers & _ & _ & Hmodels1 & _).
  assert (Hrow : up_model_id <$> user_model_preferences d1 !! sender = Some modelId).
  { unfold d1, tables_after. rewrite Htarget.
    destruct (room_target _), (fail_usage_write env); simpl;
      rewrite lookup_insert_eq; reflexivity. }
  assert (Hcur : getCurrentModel (initialize models (Some d1))
                   (mkContext (Some sender) (Some roomId')) = modelId).
  { unfold getCurrentModel, lookup_given.
    cbn [ctx_userId ctx_roomId].
    rewrite (proj2 (ManagerFacts.truthy_Some sender) Hsender).
    rewrite Husers. cbn [mbind option_bind fmap option_fmap option_map default].
    unfold id. rewrite lookup_fmap.
    destruct (user_model_preferences d1 !! sender) as [row |]; [| discriminate].
    simpl in *. congruence. }
  do 2 eexists.
  destruct (getModelConfig (initialize models (Some d1)) modelId)
    as [cfg |] eqn:Hcfg.
  - exists cfg. split; [reflexivity |]. cbn [db].
    unfold Handlers.handleModelCurrent. rewrite Hcur, Hcfg.
    apply AccessorFacts.find_id_Some in Hcfg. tauto.
  - exfalso. apply AccessorFacts.find_id_None in Hcfg.
    fold (isModelAvailable (initialize models (Some d1)) modelId) in Hcfg.
    assert (isModelAvailable (initialize models (Some d1)) modelId = true).
    { apply CatalogFacts.available_In. rewrite Hmodels1. exact Hin. }
    congruence.
Qed.

(** The handlers keep every stored preference within the catalog. *)
Lemma switch_rows_available env models d modelId options st' out d' :
  rows_available models d ->
  switchModel env modelId options (initialize models (Some d)) = (st', out) ->
  db st' = Some d' ->
  rows_available models d'.
Proof.
  intros [Hu Hr] Hsw Hd'.
  destruct (PersistFacts.initialize_maps models (Some d)) as (_ & _ & _ & Hmodels & Hdb).
  destruct (SwitchMoreFacts.switchModel_rows env modelId options _ _ _ d d' Hsw Hdb Hd')
    as [Hus Hrs].
  split; intros k row Hrow.
  - destruct (Hus k row Hrow) as [Hold | [-> Hav]]; [eauto |].
    apply CatalogFacts.available_In in Hav. rewrite Hmodels in Hav. exact Hav.
  - destruct (Hrs k row Hrow) as [Hold | [-> Hav]]; [eauto |].
    apply CatalogFacts.available_In in Hav. rewrite Hmodels in Hav. exact Hav.
Qed.

Lemma switch_keeps_database env modelId options st st' out :
  switchModel env modelId options st = (st', out) ->
  (db st = None <-> db st' = None).
Proof.
  intros H. apply SwitchMoreFacts.switchModel_footprint in H
    as (_ & _ & _ & _ & Hnone & _). symmetry. exact Hnone.
Qed.

(** The effective model of a caller is the default model or the model of
    a stored preference. *)
Lemma current_model_source models d context :
  getCurrentModel (initialize models (Some d)) context = "cc-oaicomp/Kimi-K2.5"
  \/ (exists u row, user_model_preferences d !! u = Some row
        /\ getCurrentModel (initialize models (Some d)) context = up_model_id row)
  \/ (exists r row, room_model_preferences d !! r = Some row
        /\ getCurrentModel (initialize models (Some d)) context = rp_model_id row).
Proof.
  destruct (PersistFacts.initialize_maps models (Some d)) as (Hu & Hr & Hc & _).
  unfold getCurrentModel, lookup_given. rewrite Hu, Hr, Hc.
  cbn [fmap option_fmap option_map default]. unfold id.
  destruct (truthy (ctx_userId context)), (ctx_userId context) as [u |];
    cbn [mbind option_bind]; rewrite ?lookup_fmap.
  1: destruct (user_model_preferences d !! u) as [row |] eqn:Hrow;
       [right; left; exists u, row; auto |]; cbn [fmap option_fmap option_map].
  all: destruct (truthy (ctx_roomId context)), (ctx_roomId context) as [r |];
    cbn [mbind option_bind]; rewrite ?lookup_fmap; auto.
  all: destruct (room_model_preferences d !! r) as [row' |] eqn:Hrow';
    cbn [fmap option_fmap option_map]; auto.
  all: right; right; exists r, row'; auto.
Qed.

End HandlerFacts.

(** X15. [!opencode switch <id> [scope]] with a scope text that holds
    neither [user] nor [room] (the default [session], [all], [global], ...)
    has no lasting effect, whatever it replies: for every sender and room,
    [!opencode current] answers afterwards what it answered before. *)
Theorem command_switch_without_target_does_not_last
    env models db0 roomId sender modelId rest roomId' sender' :
  let scope := default "session" (ModelManager.given (rest !! 0%nat)) in
  JsString.includes scope "user" = false ->
  JsString.includes scope "room" = false ->
  Handlers.handleModelCurrent models
    (fst (Handlers.handleModelSwitch env models db0 roomId sender (modelId :: rest)))
    roomId' sender'
  = Handlers.handleModelCurrent models db0 roomId' sender'.
Proof.
  intros scope Hu Hr. apply HandlerFacts.handleModelCurrent_tables.
  unfold Handlers.handleModelSwitch. fold scope.
  pose proof (HandlerFacts.handler_switch_tables env models db0 roomId sender modelId
                scope Hu Hr) as Ht.
  destruct (ModelManager.switchModel env modelId _ _) as [st' [result | e]];
    exact Ht.
Qed.

Lemma command_switch_without_target_does_not_last_witness :
  Handlers.handleModelCurrent getDefaultModels
    (fst (Handlers.handleModelSwitch quiet_env getDefaultModels (Some empty_database)
            lobby alice ["cc-oaicomp/DeepSeek-V3.2"]))
    lobby alice
  = Handlers.handleModelCurrent getDefaultModels (Some empty_database) lobby alice.
Proof.
  apply (command_switch_without_target_does_not_last quiet_env getDefaultModels
           (Some empty_database) lobby alice "cc-oaicomp/DeepSeek-V3.2" [] lobby alice);
    reflexivity.
Defined.

(** X16. [!opencode switch <id> <scope>] with a scope text that holds
    [user], for a well-formed id of the catalog, on an open database whose
    preference writes go through: afterwards [!opencode current] by the same
    sender answers that model, in every room. *)
Theorem command_switch_for_user_persists
    env models d roomId sender modelId scope rest roomId' :
  ModelManager.validateModelIdFormat modelId = true ->
  In modelId (map model_id models) ->
  sender <> "" ->
  JsString.includes scope "user" = true ->
  fail_user_write env = false ->
  fail_room_write env = false ->
  exists modelConfig,
    Handlers.handleModelCurrent models
      (fst (Handlers.handleModelSwitch env models (Some d) roomId sender
              (modelId :: scope :: rest)))
      roomId' sender
    = Some (modelId, modelConfig)
    /\ model_id modelConfig = modelId.
Proof.
  intros Hfmt Hin Hsender Hscope Hfu Hfr.
  assert (Hgiven : ModelManager.given (Some scope) = Some scope).
  { apply ManagerFacts.given_Some. split; [reflexivity |]. intros ->. discriminate. }
  unfold Handlers.handleModelSwitch.
  change ((scope :: rest) !! 0%nat) with (Some scope). rewrite Hgiven.
  change (default "session" (Some scope)) with scope. cbv zeta.
  destruct (HandlerFacts.user_switch_then_current env models d roomId sender modelId
              scope roomId' Hfmt Hin Hsender Hscope Hfu Hfr)
    as (st' & result & cfg & -> & Hcur & Hid).
  exists cfg. auto.
Qed.

Lemma command_switch_for_user_persists_witness :
  exists modelConfig,
    Handlers.handleModelCurrent getDefaultModels
      (fst (Handlers.handleModelSwitch quiet_env getDefaultModels (Some empty_database)
              lobby alice ["cc-oaicomp/DeepSeek-V3.2"; "user"]))
      "!other:example.org" alice
    = Some ("cc-oaicomp/DeepSeek-V3.2", modelConfig)
    /\ model_id modelConfig = "cc-oaicomp/DeepSeek-V3.2".
Proof.
  apply (command_switch_for_user_persists quiet_env getDefaultModels empty_database
           lobby alice "cc-oaicomp/DeepSeek-V3.2" "user" [] "!other:example.org");
    try reflexivity.
  - vm_compute. tauto.
  - discriminate.
Defined.

(** X17. A natural-language message without a lasting keyword (a permanent
    keyword or a keyword of the scopes [user] and [room] of the handler's
    detector) has no lasting effect, even when the handler replies that the
    model was switched: [!opencode current] answers afterwards, for every
    sender and room, what it answered before. *)
Theorem natural_switch_without_lasting_keyword_does_not_last
    env models db0 roomId sender message roomId' sender' :
  existsb (JsString.includes (JsString.toLowerCase message)) MoreSpec.lastingKeywords
  = false ->
  Handlers.handleModelCurrent models
    (fst (Handlers.handleNaturalLanguage env models db0 roomId sender message))
    roomId' sender'
  = Handlers.handleModelCurrent models db0 roomId' sender'.
Proof.
  intros Hkw. apply HandlerFacts.handleModelCurrent_tables.
  unfold Handlers.handleNaturalLanguage.
  destruct (PersistFacts.initialize_maps models db0) as (_ & _ & _ & _ & Hdb).
  destruct (Handlers.detectModelSwitchIntent message _) as [r |] eqn:Hr;
    [| cbn [fst]; rewrite Hdb; reflexivity].
  rewrite (HandlerFacts.intent_is_switch_model _ _ _ Hr). cbn [String.eqb].
  change ("switch_model" =? "switch_model")%string with true. cbv iota.
  assert (Hscope : JsString.includes (in_scope r) "user" = false
                   /\ JsString.includes (in_scope r) "room" = false).
  { rewrite (DetectFacts.handler_scope _ _ _ Hr).
    unfold MoreSpec.lastingKeywords in Hkw.
    rewrite !existsb_app in Hkw.
    apply orb_false_elim in Hkw as [Hperm Hkw].
    apply orb_false_elim in Hkw as [Huser Hroom].
    rewrite Hperm.
    change (JsObject.entries Handlers.scopeKeywords) with Handlers.scopeKeywords.
    unfold Handlers.scopeKeywords. cbn [ModelManager.detectScope].
    set (f := existsb (JsString.includes (JsString.toLowerCase message))) in *.
    change (f ["用户"; "个人"; "我的"; "自己"; "为我"] = false) in Huser.
    change (f ["房间"; "群聊"; "这里"; "本房间"] = false) in Hroom.
    clearbody f.
    rewrite Huser, Hroom.
    destruct (f ["会话"; "临时"; "本次"; "这次"; "当前"]);
      destruct (f ["全局"; "全部"; "所有"; "系统"]);
      split; reflexivity. }
  destruct Hscope as [Hu Hr'].
  pose proof (HandlerFacts.handler_switch_tables env models db0 roomId sender
                (in_modelId r) (in_scope r) Hu Hr') as Ht.
  destruct (ModelManager.switchModel env (in_modelId r) _ _) as [st' [result | e]];
    exact Ht.
Qed.

Lemma natural_switch_without_lasting_keyword_does_not_last_witness :
  (exists result,
     snd (Handlers.handleNaturalLanguage quiet_env getDefaultModels
            (Some empty_database) lobby alice "切换到 deepseek")
     = Handlers.NaturalSwitched result "session")
  /\ Handlers.handleModelCurrent getDefaultModels
       (fst (Handlers.handleNaturalLanguage quiet_env getDefaultModels
               (Some empty_database) lobby alice "切换到 deepseek"))
       lobby alice
     = Handlers.handleModelCurrent getDefaultModels (Some empty_database) lobby alice.
Proof.
  split.
  - eexists. vm_compute. reflexivity.
  - apply (natural_switch_without_lasting_keyword_does_not_last quiet_env
             getDefaultModels (Some empty_database) lobby alice "切换到 deepseek"
             lobby alice).
    vm_compute. reflexivity.
Defined.

(** X18. A natural-language message for which the handler's detector returns
    the scope [user], on a catalog of well-formed ids and an open database
    whose preference writes go through: the handler replies that the model
    was switched, and afterwards [!opencode current] by the same sender
    answers the detected model, in every room. *)
Theorem natural_switch_for_user_persists
    env models d roomId sender message r roomId' :
  Forall (fun m => ModelManager.validateModelIdFormat (model_id m) = true) models ->
  sender <> "" ->
  Handlers.detectModelSwitchIntent message (ModelManager.initialize models (Some d))
  = Some r ->
  in_scope r = "user" ->
  fail_user_write env = false ->
  fail_room_write env = false ->
  (exists result,
     snd (Handlers.handleNaturalLanguage env models (Some d) roomId sender message)
     = Handlers.NaturalSwitched result "user")
  /\ exists modelConfig,
       Handlers.handleModelCurrent models
         (fst (Handlers.handleNaturalLanguage env models (Some d) roomId sender message))
         roomId' sender
       = Some (in_modelId r, modelConfig).
Proof.
  intros Hall Hsender Hr Hscope Hfu Hfr.
  destruct (PersistFacts.initialize_maps models (Some d)) as (_ & _ & _ & Hmodels & _).
  pose proof (HandlerFacts.handler_detected_available _ _ _ Hr) as Hav.
  apply CatalogFacts.available_In in Hav. rewrite Hmodels in Hav.
  assert (Hfmt : ModelManager.validateModelIdFormat (in_modelId r) = true).
  { apply in_map_iff in Hav as (m & <- & Hm).
    rewrite Forall_forall in Hall. apply Hall. apply list_elem_of_In. exact Hm. }
  unfold Handlers.handleNaturalLanguage. rewrite Hr.
  rewrite (HandlerFacts.intent_is_switch_model _ _ _ Hr).
  change ("switch_model" =? "switch_model")%string with true. cbv iota.
  rewrite Hscope.
  destruct (HandlerFacts.user_switch_then_current env models d roomId sender
              (in_modelId r) "user" roomId' Hfmt Hav Hsender eq_refl Hfu Hfr)
    as (st' & result & cfg & -> & Hcur & _).
  split; [exists result; reflexivity | exists cfg; exact Hcur].
Qed.

Lemma natural_switch_for_user_persists_witness :
  (exists result,
     snd (Handlers.handleNaturalLanguage quiet_env getDefaultModels
            (Some empty_database) lobby alice "永久使用 deepseek")
     = Handlers.NaturalSwitched result "user")
  /\ exists modelConfig,
       Handlers.handleModelCurrent getDefaultModels
         (fst (Handlers.handleNaturalLanguage quiet_env getDefaultModels
                 (Some empty_database) lobby alice "永久使用 deepseek"))
         "!other:example.org" alice
       = Some ("cc-oaicomp/DeepSeek-V3.2", modelConfig).
Proof.
  apply (natural_switch_for_user_persists quiet_env getDefaultModels empty_database
           lobby alice "永久使用 deepseek"
           (mkIntent "switch_model" "cc-oaicomp/DeepSeek-V3.2" "user" "high")
           "!other:example.org").
  - repeat constructor.
  - discriminate.
  - vm_compute. reflexivity.
  - reflexivity.
  - reflexivity.
  - reflexivity.
Defined.

(** X19. [!opencode switch] does not resolve aliases: for every alias of
    [getModelAliases], which [resolveModelId] maps to a well-formed id, the
    command fails with the format error for the alias itself and leaves the
    tables as they were. *)
Theorem command_switch_does_not_resolve_aliases
    env models db0 roomId sender alias target rest :
  JsObject.get getModelAliases alias = Some target ->
  ModelManager.resolveModelId alias = ModelManager.ResolvedId target
  /\ ModelManager.validateModelIdFormat target = true
  /\ Handlers.handleModelSwitch env models db0 roomId sender (alias :: rest)
     = (db0, Handlers.ReplyFailed (InvalidFormat alias)).
Proof.
  intros Halias.
  assert (Hcases : In (alias, target) getModelAliases).
  { revert Halias. unfold getModelAliases. cbn [JsObject.get].
    repeat match goal with
           | |- context [String.eqb ?a ?b] =>
               destruct (String.eqb_spec a b) as [<- | _];
               [intros [= <-]; simpl; tauto |]
           end.
    discriminate. }
  destruct (PersistFacts.initialize_maps models db0) as (_ & _ & _ & _ & Hdb).
  assert (Hfmt : ModelManager.validateModelIdFormat alias = false
                 /\ ModelManager.validateModelIdFormat target = true
                 /\ ModelManager.resolveModelId alias = ModelManager.ResolvedId target).
  { simpl in Hcases.
    destruct Hcases as [[= <- <-] | [[= <- <-] | [[= <- <-] | [[= <- <-] | [[= <- <-] | []]]]]];
      vm_compute; auto. }
  destruct Hfmt as (Hbad & Hgood & Hres). repeat split; auto.
  unfold Handlers.handleModelSwitch.
  rewrite (SwitchFacts.switchModel_invalid env alias _ _ Hbad). rewrite Hdb.
  reflexivity.
Qed.

Lemma command_switch_does_not_resolve_aliases_witness :
  ModelManager.resolveModelId "fast" = ModelManager.ResolvedId "cc-oaicomp/DeepSeek-V3.2"
  /\ ModelManager.validateModelIdFormat "cc-oaicomp/DeepSeek-V3.2" = true
  /\ Handlers.handleModelSwitch quiet_env getDefaultModels (Some empty_database)
       lobby alice ["fast"; "user"]
     = (Some empty_database, Handlers.ReplyFailed (InvalidFormat "fast")).
Proof.
  apply (command_switch_does_not_resolve_aliases quiet_env getDefaultModels
           (Some empty_database) lobby alice "fast" "cc-oaicomp/DeepSeek-V3.2" ["user"]).
  reflexivity.
Defined.

(** X20. When the catalog has the default model and every stored preference
    names a catalog model, [!opencode current] answers every caller with a
    model of the catalog; and [!opencode switch] and a natural-language
    message leave tables of which this holds again. *)
Theorem current_model_is_in_catalog
    env models d roomId sender args message roomId' sender' :
  In "cc-oaicomp/Kimi-K2.5" (map model_id models) ->
  MoreSpec.rows_available models d ->
  (exists modelConfig,
     Handlers.handleModelCurrent models (Some d) roomId' sender'
     = Some (model_id modelConfig, modelConfig)
     /\ In modelConfig models)
  /\ (exists d', fst (Handlers.handleModelSwitch env models (Some d) roomId sender args)
                 = Some d'
                 /\ MoreSpec.rows_available models d')
  /\ (exists d', fst (Handlers.handleNaturalLanguage env models (Some d) roomId sender
                        message) = Some d'
                 /\ MoreSpec.rows_available models d').
Proof.
  intros Hdefault Hrows.
  destruct (PersistFacts.initialize_maps models (Some d)) as (_ & _ & _ & Hmodels & Hdb).
  assert (Hsw : forall modelId options,
             exists d', ModelManager.db
                          (fst (ModelManager.switchModel env modelId options
                                  (ModelManager.initialize models (Some d)))) = Some d'
                        /\ MoreSpec.rows_available models d').
  { intros modelId options.
    destruct (ModelManager.switchModel env modelId options _) as [st' out] eqn:Hcall.
    cbn [fst].
    destruct (ModelManager.db st') as [d' |] eqn:Hd'.
    - exists d'. split; [reflexivity |].
      eapply HandlerFacts.switch_rows_available; eauto.
    - apply HandlerFacts.switch_keeps_database in Hcall.
      apply Hcall in Hd'. congruence. }
  split; [| split].
  - unfold Handlers.handleModelCurrent.
    set (current := ModelManager.getCurrentModel _ _).
    assert (Hin : In current (map model_id models)).
    { destruct Hrows as [Hu Hr].
      destruct (HandlerFacts.current_model_source models d
                  (mkContext (Some sender') (Some roomId')))
        as [H | [(u & row & Hrow & H) | (r & row & Hrow & H)]];
        fold current in H; rewrite H; eauto. }
    destruct (ModelManager.getModelConfig _ current) as [cfg |] eqn:Hcfg.
    + apply AccessorFacts.find_id_Some in Hcfg as [Hcid Hcin].
      exists cfg. rewrite Hmodels in Hcin. rewrite Hcid. auto.
    + exfalso. apply AccessorFacts.find_id_None in Hcfg.
      assert (Hav : ModelManager.isModelAvailable
                      (ModelManager.initialize models (Some d)) current = true).
      { apply CatalogFacts.available_In. rewrite Hmodels. exact Hin. }
      unfold ModelManager.isModelAvailable in Hav. congruence.
  - unfold Handlers.handleModelSwitch. destruct args as [| modelId rest].
    + exists d. auto.
    + cbv zeta.
      destruct (Hsw modelId
                  (mkOptions (Some sender) (Some roomId)
                     (Some (ScopeStr (default "session"
                                        (ModelManager.given (rest !! 0%nat)))))))
        as (d' & Hd' & Hrows').
      destruct (ModelManager.switchModel env modelId _ _) as [st' [result | e]];
        exists d'; auto.
  - unfold Handlers.handleNaturalLanguage.
    destruct (Handlers.detectModelSwitchIntent message _) as [r |];
      [| exists d; rewrite Hdb; auto].
    destruct (String.eqb (in_intent r) "switch_model");
      [| exists d; rewrite Hdb; auto].
    destruct (Hsw (in_modelId r)
                (mkOptions (Some sender) (Some roomId) (Some (ScopeStr (in_scope r)))))
      as (d' & Hd' & Hrows').
    destruct (ModelManager.switchModel env (in_modelId r) _ _) as [st' [result | e]];
      exists d'; auto.
Qed.

Lemma current_model_is_in_catalog_witness :
  exists modelConfig,
    Handlers.handleModelCurrent getDefaultModels (Some empty_database) lobby alice
    = Some (model_id modelConfig, modelConfig)
    /\ In modelConfig getDefaultModels.
Proof.
  apply (current_model_is_in_catalog quiet_env getDefaultModels empty_database
           lobby alice [] "" lobby alice).
  - vm_compute. tauto.
  - split; intros k row Hrow; vm_compute in Hrow; discriminate.
Defined.

(** X21. A caller without a stored preference, for the sender or for the
    room, is answered by [!opencode current] exactly when the catalog has
    the default model [cc-oaicomp/Kimi-K2.5], whatever the catalog was
    loaded from; otherwise the command replies with an error. *)
Theorem current_of_new_caller_needs_default_model models dbo roomId sender :
  (forall d, dbo = Some d ->
     user_model_preferences d !! sender = None
     /\ room_model_preferences d !! roomId = None) ->
  (In "cc-oaicomp/Kimi-K2.5" (map model_id models) ->
   exists modelConfig,
     Handlers.handleModelCurrent models dbo roomId sender
     = Some ("cc-oaicomp/Kimi-K2.5", modelConfig))
  /\ (~ In "cc-oaicomp/Kimi-K2.5" (map model_id models) ->
      Handlers.handleModelCurrent models dbo roomId sender = None).
Proof.
  intros Hnew.
  destruct (PersistFacts.initialize_maps models dbo) as (Hu & Hr & Hc & Hmodels & _).
  assert (Hcur : ModelManager.getCurrentModel (ModelManager.initialize models dbo)
                   (mkContext (Some sender) (Some roomId)) = "cc-oaicomp/Kimi-K2.5").
  { unfold ModelManager.getCurrentModel, ModelManager.lookup_given.
    rewrite Hu, Hr, Hc. cbn [ctx_userId ctx_roomId].
    destruct dbo as [d |]; cbn [fmap option_fmap option_map default]; unfold id.
    - destruct (Hnew d eq_refl) as [Hnu Hnr].
      destruct (JsString.truthy (Some sender)), (JsString.truthy (Some roomId));
        cbn [mbind option_bind]; rewrite ?lookup_fmap, ?Hnu, ?Hnr; reflexivity.
    - destruct (JsString.truthy (Some sender)), (JsString.truthy (Some roomId));
        cbn [mbind option_bind]; rewrite ?lookup_empty; reflexivity. }
  unfold Handlers.handleModelCurrent. rewrite Hcur.
  destruct (ModelManager.getModelConfig _ "cc-oaicomp/Kimi-K2.5") as [cfg |] eqn:Hcfg.
  - split; [eauto |]. intros Hno. exfalso. apply Hno.
    apply AccessorFacts.find_id_Some in Hcfg as [Hid Hin].
    rewrite Hmodels in Hin. rewrite <- Hid. apply in_map. exact Hin.
  - split; [| reflexivity]. intros Hin. exfalso.
    apply AccessorFacts.find_id_None in Hcfg.
    assert (Hav : ModelManager.isModelAvailable (ModelManager.initialize models dbo)
                    "cc-oaicomp/Kimi-K2.5" = true).
    { apply CatalogFacts.available_In. rewrite Hmodels. exact Hin. }
    unfold ModelManager.isModelAvailable in Hav. congruence.
Qed.

Lemma current_of_new_caller_needs_default_model_witness :
  Handlers.handleModelCurrent
    [mkModel "acme/basic" "Basic" "acme" 128000 8000 false ["text"] ["text"]]
    (Some empty_database) lobby alice = None.
Proof.
  apply (current_of_new_caller_needs_default_model
           [mkModel "acme/basic" "Basic" "acme" 128000 8000 false ["text"] ["text"]]
           (Some empty_database) lobby alice).
  - intros d [= <-]. split; reflexivity.
  - simpl. intros [H | []]. discriminate.
Defined.

(** ** The command dispatcher *)

Module DispatchFacts.
Import JsString MoreSpec SplitFacts.
#[local] Arguments String.append : simpl nomatch.

Lemma command_split name rest :
  lacks " " name = true ->
  split " " (name +:+ " " +:+ rest) = name :: split " " rest.
Proof. intros H. apply (split_app " " name rest H). Qed.

Lemma command_not_empty name rest : String.eqb (name +:+ " " +:+ rest) "" = false.
Proof. destruct name; reflexivity. Qed.

End DispatchFacts.

(** X22. For a command text made of a command word, one space and the rest
    of the line: [run] hands the rest of the line to the runner and [exec]
    and [shell] hand it to the shell as it was written, inner and repeated
    spaces included, and [switch] and [model] hand over its pieces between
    spaces, so that a second space after the command word makes the model id
    the empty string. The command word is matched without regard to case. *)
Theorem dispatch_passes_rest_of_line name rest :
  MoreSpec.lacks " " name = true ->
  (JsString.toLowerCase name = "run" ->
   Handlers.dispatchCommand (name +:+ " " +:+ rest) = Handlers.DispatchRun rest)
  /\ (JsString.toLowerCase name = "exec" \/ JsString.toLowerCase name = "shell" ->
      Handlers.dispatchCommand (name +:+ " " +:+ rest) = Handlers.DispatchShell rest)
  /\ (JsString.toLowerCase name = "switch" \/ JsString.toLowerCase name = "model" ->
      Handlers.dispatchCommand (name +:+ " " +:+ rest)
      = Handlers.DispatchSwitch (JsString.split " " rest)
      /\ JsString.join " " (JsString.split " " rest) = rest
      /\ forall rest', rest = " " +:+ rest' ->
           Handlers.dispatchCommand (name +:+ " " +:+ rest)
           = Handlers.DispatchSwitch ("" :: JsString.split " " rest')).
Proof.
  intros Hname. unfold Handlers.dispatchCommand.
  rewrite DispatchFacts.command_not_empty, (DispatchFacts.command_split _ _ Hname).
  cbv zeta. repeat split.
  - intros ->. simpl. rewrite SplitFacts.join_split. reflexivity.
  - intros [-> | ->]; simpl; rewrite SplitFacts.join_split; reflexivity.
  - destruct H as [-> | ->]; reflexivity.
  - apply SplitFacts.join_split.
  - intros rest' ->. destruct H as [-> | ->]; reflexivity.
Qed.

Lemma dispatch_passes_rest_of_line_witness :
  Handlers.dispatchCommand "RUN print(1,  2)" = Handlers.DispatchRun "print(1,  2)".
Proof.
  apply (proj1 (dispatch_passes_rest_of_line "RUN" "print(1,  2)" eq_refl)).
  reflexivity.
Defined.

(** ** Loading the catalog *)

Module LoadFacts.
Import JsString ModelManager Listing MoreSpec SplitFacts.
#[local] Arguments String.append : simpl nomatch.

(** The inner loop appends the models of the entries, unless one is
    [null]. *)
Lemma providerModels_spec providerName entries models :
  providerModels providerName entries models
  = if existsb (fun modelEntry => is_null (snd modelEntry)) entries then None
    else Some (models
               ++ flat_map (fun modelEntry =>
                              match snd modelEntry with
                              | Some modelConfig =>
                                  [configModel providerName (fst modelEntry) modelConfig]
                              | None => []
                              end) entries)%list.
Proof.
  revert models. induction entries as [| [modelId [modelConfig |]] rest IH];
    intros models; simpl.
  - rewrite app_nil_r. reflexivity.
  - rewrite IH. destruct (existsb _ rest); [reflexivity |].
    rewrite <- app_assoc. reflexivity.
  - reflexivity.
Qed.

Lemma configModels_spec entries models :
  configModels entries models
  = if existsb (fun entry =>
                  is_null (snd entry)
                  || existsb (fun modelEntry => is_null (snd modelEntry))
                       (modelsOfProvider entry)) entries
    then None
    else Some (models ++ flat_map listedModels entries)%list.
Proof.
  revert models. induction entries as [| [providerName [providerConfig |]] rest IH];
    intros models; simpl.
  - rewrite app_nil_r. reflexivity.
  - assert (Hm : modelsOfProvider (providerName, Some providerConfig)
                 = match cfg_models providerConfig with
                   | Some providerEntries => JsObject.entries providerEntries
                   | None => []
                   end) by reflexivity.
    assert (Hl : listedModels (providerName, Some providerConfig)
                 = flat_map (fun modelEntry =>
                               match snd modelEntry with
                               | Some modelConfig =>
                                   [configModel providerName (fst modelEntry) modelConfig]
                               | None => []
                               end)
                     (modelsOfProvider (providerName, Some providerConfig)))
      by reflexivity.
    rewrite Hl, Hm. clear Hl Hm.
    destruct (cfg_models providerConfig) as [providerEntries |]; simpl.
    + rewrite providerModels_spec.
      destruct (existsb _ (JsObject.entries providerEntries)); simpl; [reflexivity |].
      rewrite IH. destruct (existsb _ rest); [reflexivity |].
      rewrite <- app_assoc. reflexivity.
    + apply IH.
  - reflexivity.
Qed.

Lemma loadAvailableModels_without_list client config :
  no_client_list client ->
  loadAvailableModels client config = loadAvailableModels None config.
Proof.
  intros Hc. unfold loadAvailableModels. destruct client as [[models |] |]; try reflexivity.
  rewrite (Hc models eq_refl). reflexivity.
Qed.

Lemma number_or_nonzero n fallback : fallback <> 0%Z -> number_or n fallback <> 0%Z.
Proof.
  intros Hf. unfold number_or. destruct n as [v |]; [| exact Hf].
  destruct (Z.eqb_spec v 0); [exact Hf | assumption].
Qed.

Lemma configModel_from_provider providerName modelId modelConfig :
  from_provider (configModel providerName modelId modelConfig).
Proof.
  unfold from_provider, configModel. simpl. repeat split.
  - exists modelId. reflexivity.
  - apply number_or_nonzero. discriminate.
  - apply number_or_nonzero. discriminate.
Qed.

Lemma listed_from_provider entries :
  Forall from_provider (flat_map listedModels entries).
Proof.
  apply Forall_forall. intros m Hm. apply list_elem_of_In in Hm.
  apply in_flat_map in Hm as (entry & _ & Hm).
  unfold listedModels in Hm. apply in_flat_map in Hm as (modelEntry & _ & Hm).
  destruct (snd modelEntry) as [modelConfig |]; [| destruct Hm].
  destruct Hm as [<- | []]. apply configModel_from_provider.
Qed.

Lemma default_from_provider : Forall from_provider getDefaultModels.
Proof.
  unfold getDefaultModels.
  repeat constructor; simpl; try discriminate; eexists; reflexivity.
Qed.

(** The only slash of [a/b] when neither token has one. *)
Lemma slash_unique c a b p k :
  lacks c a = true -> lacks c b = true ->
  p +:+ String c k = a +:+ String c b -> p = a /\ k = b.
Proof.
  revert p. induction a as [| e a IH]; intros p Ha Hb Heq.
  - destruct p as [| d p]; simpl in Heq.
    + injection Heq as <-. auto.
    + injection Heq as -> <-. rewrite lacks_app in Hb.
      unfold lacks at 2 in Hb. simpl in Hb. rewrite Ascii.eqb_refl in Hb.
      simpl in Hb. rewrite andb_false_r in Hb. discriminate.
  - unfold lacks in Ha. simpl in Ha. apply andb_prop in Ha as [He Ha].
    destruct p as [| d p]; simpl in Heq.
    + injection Heq as -> _. rewrite Ascii.eqb_refl in He. discriminate.
    + injection Heq as -> Heq. destruct (IH p Ha Hb Heq) as [-> ->]. auto.
Qed.

End LoadFacts.

(** X23. Without a list from the client, a configuration file with a
    provider section gives the models the section lists, provider by
    provider and model by model in the key order of the objects, each with
    the defaults filled in; but one [null] provider or model entry anywhere
    in the section discards all of it for the default list. *)
Theorem loadAvailableModels_from_provider_section client providers :
  Listing.no_client_list client ->
  ModelManager.loadAvailableModels client
    (Some (ModelManager.mkOpencodeConfig (Some providers)))
  = if Listing.has_null providers then getDefaultModels else Listing.listed providers.
Proof.
  intros Hc. rewrite (LoadFacts.loadAvailableModels_without_list _ _ Hc).
  unfold ModelManager.loadAvailableModels, Listing.has_null, Listing.listed. simpl.
  rewrite LoadFacts.configModels_spec.
  destruct (existsb _ (JsObject.entries providers)); reflexivity.
Qed.

Lemma loadAvailableModels_from_provider_section_witness :
  ModelManager.loadAvailableModels (Some ModelManager.ClientThrows)
    (Some (ModelManager.mkOpencodeConfig
             (Some [("acme",
                     Some (ModelManager.mkProviderConfig
                             (Some [("basic",
                                     Some (ModelManager.mkModelConfig
                                             None None None None));
                                    ("broken", None)])))])))
  = getDefaultModels.
Proof.
  apply (loadAvailableModels_from_provider_section (Some ModelManager.ClientThrows)
           [("acme",
             Some (ModelManager.mkProviderConfig
                     (Some [("basic",
                             Some (ModelManager.mkModelConfig None None None None));
                            ("broken", None)])))]).
  intros models H. discriminate.
Defined.

(** X24. Without a list from the client, whatever the configuration file
    holds, every model of the loaded catalog has an id that is its provider,
    a slash and a key, and a context window and an output limit other than
    zero. A list from the client is taken as it is. *)
Theorem loaded_models_have_provider_ids client config :
  (Listing.no_client_list client ->
   Forall Listing.from_provider (ModelManager.loadAvailableModels client config))
  /\ (forall models, models <> [] ->
        ModelManager.loadAvailableModels (Some (ModelManager.ClientModels models)) config
        = models).
Proof.
  split.
  - intros Hc. rewrite (LoadFacts.loadAvailableModels_without_list _ _ Hc).
    unfold ModelManager.loadAvailableModels.
    destruct config as [[[providers |]] |]; cbn [ModelManager.cfg_provider].
    + rewrite LoadFacts.configModels_spec. destruct (existsb _ _); simpl.
      * apply LoadFacts.default_from_provider.
      * apply LoadFacts.listed_from_provider.
    + constructor.
    + apply LoadFacts.default_from_provider.
  - intros models Hne. unfold ModelManager.loadAvailableModels.
    destruct models; [congruence | reflexivity].
Qed.

Lemma loaded_models_have_provider_ids_witness :
  Forall Listing.from_provider
    (ModelManager.loadAvailableModels None
       (Some (ModelManager.mkOpencodeConfig
                (Some [("acme",
                        Some (ModelManager.mkProviderConfig
                                (Some [("basic",
                                        Some (ModelManager.mkModelConfig None
                                                (Some (ModelManager.mkLimit
                                                         (Some 0%Z) None))
                                                None None))])))])))).
Proof.
  apply (proj1 (loaded_models_have_provider_ids None _)).
  intros models H. discriminate.
Defined.

(** X25. A configuration file without a provider section gives an empty
    catalog, not the default list; and a manager on an empty catalog rejects
    every [switchModel] without changing anything, and neither detector ever
    finds a switch request. *)
Theorem config_without_providers_disables_switching
    client dbo env modelId options message :
  Listing.no_client_list client ->
  let st :=
    ModelManager.initialize
      (ModelManager.loadAvailableModels client
         (Some (ModelManager.mkOpencodeConfig None))) dbo in
  ModelManager.availableModels st = []
  /\ (exists e, ModelManager.switchModel env modelId options st = (st, Throw e))
  /\ ModelManager.detectSwitchIntent st message = None
  /\ Handlers.detectModelSwitchIntent message st = None.
Proof.
  intros Hc st.
  assert (Hmodels : ModelManager.availableModels st = []).
  { unfold st. rewrite (LoadFacts.loadAvailableModels_without_list _ _ Hc).
    destruct (PersistFacts.initialize_maps
                (ModelManager.loadAvailableModels None
                   (Some (ModelManager.mkOpencodeConfig None))) dbo)
      as (_ & _ & _ & -> & _).
    reflexivity. }
  clearbody st. repeat split.
  - exact Hmodels.
  - destruct (ModelManager.validateModelIdFormat modelId) eqn:Hfmt.
    + exists (ModelUnavailable modelId).
      apply SwitchMoreFacts.switchModel_unavailable; [exact Hfmt |].
      unfold ModelManager.isModelAvailable. rewrite Hmodels. reflexivity.
    + exists (InvalidFormat modelId). apply SwitchFacts.switchModel_invalid, Hfmt.
  - unfold ModelManager.detectSwitchIntent. rewrite Hmodels.
    destruct (negb _); reflexivity.
  - unfold Handlers.detectModelSwitchIntent. rewrite Hmodels.
    destruct (negb _); reflexivity.
Qed.

Lemma config_without_providers_disables_switching_witness :
  ModelManager.detectSwitchIntent
    (ModelManager.initialize
       (ModelManager.loadAvailableModels (Some (ModelManager.ClientModels []))
          (Some (ModelManager.mkOpencodeConfig None)))
       (Some empty_database))
    "switch to deepseek" = None.
Proof.
  apply (config_without_providers_disables_switching
           (Some (ModelManager.ClientModels [])) (Some empty_database) quiet_env ""
           (mkOptions None None None) "switch to deepseek").
  intros models [= <-]. reflexivity.
Defined.

(** X26. A model read from the configuration file can be switched to only
    when its provider name is a non-empty run of letters, digits, [_] and
    [-] and its key a non-empty run of these and [.]: exactly then its id
    passes the format test; a listed model with any other provider name or
    key makes every [switchModel] throw the format error. *)
Theorem configured_model_format providerName modelId modelConfig :
  let m := ModelManager.configModel providerName modelId modelConfig in
  (ModelManager.validateModelIdFormat (model_id m) = true
   <-> providerName <> ""
       /\ JsString.forall_chars ModelManager.provider_char providerName = true
       /\ modelId <> ""
       /\ JsString.forall_chars ModelManager.name_char modelId = true)
  /\ (ModelManager.validateModelIdFormat (model_id m) = false ->
      forall env options st,
        ModelManager.switchModel env (model_id m) options st
        = (st, Throw (InvalidFormat (model_id m)))).
Proof.
  intros m. split.
  - unfold m, ModelManager.configModel. cbn [model_id].
    change (providerName +:+ "/" +:+ modelId)
      with (providerName +:+ String "/" modelId).
    split.
    + intros H.
      apply RegexFacts.two_tokens in H as (a & b & Heq & Ha & Hac & Hb & Hbc).
      apply LoadFacts.slash_unique in Heq as [-> ->]; auto.
      * eapply SplitFacts.forall_chars_impl;
          [apply AccessorFacts.provider_char_not_slash | exact Hac].
      * eapply SplitFacts.forall_chars_impl;
          [apply AccessorFacts.name_char_not_slash | exact Hbc].
    + intros (Hp & Hpc & Hk & Hkc). apply RegexFacts.two_tokens.
      exists providerName, modelId. auto.
  - intros Hbad env options st. apply SwitchFacts.switchModel_invalid, Hbad.
Qed.

Lemma configured_model_format_witness :
  ModelManager.switchModel quiet_env "my.provider/basic" (mkOptions None None None)
    fresh_manager
  = (fresh_manager, Throw (InvalidFormat "my.provider/basic")).
Proof.
  apply (proj2 (configured_model_format "my.provider" "basic"
                  (ModelManager.mkModelConfig None None None None))).
  reflexivity.
Defined.

(** ** Access control *)

Module AccessFacts.
Import JsString MatrixClient MoreSpec SplitFacts.

(** The exact comparison adds nothing to the comparison in lower case. *)
Lemma allowed_entry id allowed :
  String.eqb id allowed || String.eqb (toLowerCase id) (toLowerCase allowed) = true
  <-> toLowerCase id = toLowerCase allowed.
Proof.
  split.
  - intros H. apply orb_prop in H as [H | H]; apply String.eqb_eq in H; congruence.
  - intros H. rewrite (proj2 (String.eqb_eq _ _) H). apply orb_true_r.
Qed.

Lemma allowed_by_spec l id :
  allowed_by (Some l) id = true
  <-> l = [] \/ exists allowed, In allowed l /\ toLowerCase id = toLowerCase allowed.
Proof.
  unfold allowed_by. destruct l as [| a l]; [simpl; tauto |].
  change (List.length (a :: l) =? 0)%nat with false. cbv iota.
  rewrite existsb_exists. split.
  - intros (allowed & Hin & H). right. exists allowed. split; [exact Hin |].
    apply allowed_entry, H.
  - intros [Hnil | (allowed & Hin & H)]; [discriminate |].
    exists allowed. split; [exact Hin |]. apply allowed_entry, H.
Qed.

Lemma lower_ascii_comma c : Ascii.eqb (lower_ascii c) "," = Ascii.eqb c ",".
Proof. destruct c as [[] [] [] [] [] [] [] []]; reflexivity. Qed.

Lemma lacks_comma_toLowerCase s : lacks "," (toLowerCase s) = lacks "," s.
Proof.
  unfold lacks. induction s as [| c s IH]; simpl; [reflexivity |].
  rewrite lower_ascii_comma, IH. reflexivity.
Qed.

Lemma replace_chars_length p to s :
  String.length (replace_chars p to s) = String.length s.
Proof. induction s as [| c s IH]; simpl; [| destruct (p c); simpl]; congruence. Qed.

Lemma replace_chars_forall p to s :
  p to = false -> forall_chars (fun c => negb (p c)) (replace_chars p to s) = true.
Proof.
  intros Hto. induction s as [| c s IH]; simpl; [reflexivity |].
  destruct (p c) eqn:Hc; simpl; rewrite ?Hto, ?Hc, IH; reflexivity.
Qed.

Lemma replace_chars_fixed p to s :
  forall_chars (fun c => negb (p c)) s = true -> replace_chars p to s = s.
Proof.
  induction s as [| c s IH]; simpl; [reflexivity |].
  destruct (p c); simpl; [discriminate |]. intros H. rewrite (IH H). reflexivity.
Qed.

End AccessFacts.

(** X27. [isUserAllowed] and [isRoomAllowed], for a plain id and a list of
    plain entries (ASCII and CJK characters, where the lower-casing is
    that of JavaScript): they let everyone through when the list is
    absent or empty; otherwise they let through exactly the ids whose
    lower-case form is the lower-case form of an entry: the comparison is
    case-insensitive throughout, and the exact comparison never decides. *)
Theorem allow_lists_compare_in_lower_case id config :
  MoreSpec.plain id = true ->
  (MoreSpec.plain_entries (allowedUsers config) = true ->
   (MatrixClient.isUserAllowed id config = true
    <-> match allowedUsers config with
        | None => True
        | Some l =>
            l = [] \/ exists allowed,
                        In allowed l
                        /\ JsString.toLowerCase id = JsString.toLowerCase allowed
        end))
  /\ (MoreSpec.plain_entries (allowedRooms config) = true ->
      (MatrixClient.isRoomAllowed id config = true
       <-> match allowedRooms config with
           | None => True
           | Some l =>
               l = [] \/ exists allowed,
                           In allowed l
                           /\ JsString.toLowerCase id = JsString.toLowerCase allowed
           end)).
Proof.
  intros _. unfold MatrixClient.isUserAllowed, MatrixClient.isRoomAllowed.
  split; intros _.
  - destruct (allowedUsers config) as [l |]; [apply AccessFacts.allowed_by_spec |].
    simpl. tauto.
  - destruct (allowedRooms config) as [l |]; [apply AccessFacts.allowed_by_spec |].
    simpl. tauto.
Qed.

Lemma allow_lists_compare_in_lower_case_witness :
  MatrixClient.isUserAllowed "@Alice:Example.org"
    (mkAccessConfig (Some ["@alice:example.org"]) None) = true.
Proof.
  apply (proj1 (allow_lists_compare_in_lower_case "@Alice:Example.org"
                  (mkAccessConfig (Some ["@alice:example.org"]) None) eq_refl)
           eq_refl).
  right. exists "@alice:example.org". split; [left; reflexivity | reflexivity].
Defined.

(** X28. The allow list the message handler builds from an environment
    variable: an unset or empty variable lets everyone through; a set one
    is never the empty list; for a plain id and a plain value (ASCII and
    CJK characters, where the lower-casing is that of JavaScript) it lets
    through exactly the ids that equal, in lower case, one of the pieces
    between its commas, compared as they stand, untrimmed; and an id with
    a comma in it is never let through. *)
Theorem allow_list_from_environment value rooms id :
  let config := mkAccessConfig (Some (Handlers.allowList value)) rooms in
  (ModelManager.given value = None -> MatrixClient.isUserAllowed id config = true)
  /\ (forall v, ModelManager.given value = Some v ->
        Handlers.allowList value <> []
        /\ (MoreSpec.plain id = true -> MoreSpec.plain v = true ->
            (MatrixClient.isUserAllowed id config = true
             <-> exists piece,
                   In piece (JsString.split "," v)
                   /\ JsString.toLowerCase id = JsString.toLowerCase piece))
        /\ (MoreSpec.lacks "," id = false ->
            MatrixClient.isUserAllowed id config = false)).
Proof.
  intros config. unfold config, MatrixClient.isUserAllowed, Handlers.allowList.
  cbn [allowedUsers]. split.
  - intros ->. reflexivity.
  - intros v ->.
    assert (Hne : JsString.split "," v <> []) by apply SplitFacts.split_nonempty.
    assert (Hiff : MatrixClient.allowed_by (Some (JsString.split "," v)) id = true
                   <-> exists piece,
                         In piece (JsString.split "," v)
                         /\ JsString.toLowerCase id = JsString.toLowerCase piece).
    { rewrite AccessFacts.allowed_by_spec. split; [| auto].
      intros [Hnil | H]; [congruence | exact H]. }
    split; [exact Hne |]. split; [intros _ _; exact Hiff |].
    intros Hcomma.
    destruct (MatrixClient.allowed_by (Some (JsString.split "," v)) id) eqn:Hallowed;
      [| reflexivity].
    destruct (proj1 Hiff eq_refl) as (piece & Hin & Hlow).
    pose proof (SplitFacts.split_lacks "," v) as Hpieces.
    rewrite Forall_forall in Hpieces.
    specialize (Hpieces piece (proj2 (list_elem_of_In _ _) Hin)).
    rewrite <- AccessFacts.lacks_comma_toLowerCase, <- Hlow,
      AccessFacts.lacks_comma_toLowerCase in Hpieces.
    congruence.
Qed.

Lemma allow_list_from_environment_witness :
  MatrixClient.isUserAllowed "@bob:example.org"
    (mkAccessConfig
       (Some (Handlers.allowList (Some "@alice:example.org, @bob:example.org")))
       (Some (Handlers.allowList None)))
  = false.
Proof.
  destruct (proj2 (allow_list_from_environment
                     (Some "@alice:example.org, @bob:example.org")
                     (Some (Handlers.allowList None)) "@bob:example.org")
              "@alice:example.org, @bob:example.org" eq_refl)
    as (_ & Hiff & _).
  specialize (Hiff eq_refl eq_refl).
  destruct (MatrixClient.isUserAllowed _ _); [| reflexivity].
  destruct (proj1 Hiff eq_refl) as (piece & Hin & Hlow).
  simpl in Hin. destruct Hin as [<- | [<- | []]]; discriminate.
Defined.

(** X29. The storage name [createMatrixClient] derives from the user id has
    neither [@] nor [:], has the length of the id, and is the id itself when
    the id has neither character; deriving it again changes nothing. *)
Theorem storageName_has_no_separators userId :
  MoreSpec.lacks "@" (MatrixClient.storageName userId) = true
  /\ MoreSpec.lacks ":" (MatrixClient.storageName userId) = true
  /\ String.length (MatrixClient.storageName userId) = String.length userId
  /\ MatrixClient.storageName (MatrixClient.storageName userId)
     = MatrixClient.storageName userId
  /\ (MoreSpec.lacks "@" userId = true -> MoreSpec.lacks ":" userId = true ->
      MatrixClient.storageName userId = userId).
Proof.
  unfold MatrixClient.storageName.
  set (p := fun c => Ascii.eqb c "@" || Ascii.eqb c ":").
  pose proof (AccessFacts.replace_chars_forall p "_" userId eq_refl) as Hclean.
  repeat split.
  - eapply SplitFacts.forall_chars_impl; [| exact Hclean].
    intros c. unfold p. destruct (Ascii.eqb c "@"); [discriminate | reflexivity].
  - eapply SplitFacts.forall_chars_impl; [| exact Hclean].
    intros c. unfold p. destruct (Ascii.eqb c ":"); [| reflexivity].
    rewrite orb_true_r. discriminate.
  - apply AccessFacts.replace_chars_length.
  - apply AccessFacts.replace_chars_fixed, Hclean.
  - intros Hat Hcolon. apply AccessFacts.replace_chars_fixed.
    unfold MoreSpec.lacks in Hat, Hcolon. clear Hclean.
    induction userId as [| c s IH]; simpl in *; [reflexivity |].
    apply andb_prop in Hat as [Hc1 Hs1]. apply andb_prop in Hcolon as [Hc2 Hs2].
    rewrite (IH Hs1 Hs2). unfold p.
    destruct (Ascii.eqb c "@"), (Ascii.eqb c ":"); simpl in *; congruence.
Qed.

Lemma storageName_has_no_separators_witness :
  MatrixClient.storageName "bot" = "bot".
Proof.
  apply (proj2 (proj2 (proj2 (proj2 (storageName_has_no_separators "bot")))));
    reflexivity.
Defined.

(** ** The two ways to store a room preference *)

(** X30. A [switchModel] that writes a room preference leaves in the room
    table exactly what [saveRoomPreference] of the preference store leaves
    for the same room, model, setter and clock reading, whether or not the
    room had a row: for rooms the two write paths agree (the text layout
    of the stored time apart, which the tables here do not hold). The row
    read back names the model, the caller (or [system]) and the time. *)
Theorem room_preference_paths_agree env modelId options st d roomId :
  ModelManager.validateModelIdFormat modelId = true ->
  ModelManager.isModelAvailable st modelId = true ->
  ModelManager.db st = Some d ->
  Spec.room_target options = Some roomId ->
  fail_user_write env = false ->
  fail_room_write env = false ->
  let setBy := default "system" (ModelManager.given (opt_userId options)) in
  exists d',
    ModelManager.db (fst (ModelManager.switchModel env modelId options st)) = Some d'
    /\ room_model_preferences d'
       = room_model_preferences
           (PreferenceStore.saveRoomPreference (now env) roomId modelId (Some setBy) d)
    /\ PreferenceStore.getRoomPreference roomId d'
       = Some (mkRoomPrefRow modelId (Some setBy) (now env)).
Proof.
  intros Hfmt Hav Hd Hroom Hfu Hfr setBy.
  rewrite (SwitchFacts.switchModel_succeeds env modelId options st Hfmt Hav Hfu Hfr).
  cbn [fst ModelManager.db]. rewrite Hd. cbn [fmap option_fmap option_map].
  eexists. split; [reflexivity |].
  assert (Hrooms : room_model_preferences (Spec.tables_after env modelId options d)
                   = <[roomId := mkRoomPrefRow modelId (Some setBy) (now env)]>
                       (room_model_preferences d)).
  { unfold Spec.tables_after. rewrite Hroom.
    destruct (Spec.user_target options), (fail_usage_write env); reflexivity. }
  rewrite Hrooms. split.
  - unfold PreferenceStore.saveRoomPreference. cbn [room_model_preferences default].
    destruct (room_model_preferences d !! roomId); reflexivity.
  - unfold PreferenceStore.getRoomPreference. rewrite Hrooms.
    apply lookup_insert_eq.
Qed.

Lemma room_preference_paths_agree_witness :
  exists d',
    ModelManager.db
      (fst (ModelManager.switchModel quiet_env "cc-oaicomp/DeepSeek-V3.2"
              (mkOptions (Some alice) (Some lobby) (Some (ScopeStr "room")))
              fresh_manager)) = Some d'
    /\ room_model_preferences d'
       = room_model_preferences
           (PreferenceStore.saveRoomPreference 1000 lobby "cc-oaicomp/DeepSeek-V3.2"
              (Some alice) empty_database)
    /\ PreferenceStore.getRoomPreference lobby d'
       = Some (mkRoomPrefRow "cc-oaicomp/DeepSeek-V3.2" (Some alice) 1000).
Proof.
  apply (room_preference_paths_agree quiet_env "cc-oaicomp/DeepSeek-V3.2"
           (mkOptions (Some alice) (Some lobby) (Some (ScopeStr "room")))
           fresh_manager empty_database lobby); reflexivity.
Defined.
